(** * Seawater Gibbs-function library: model and verification

    A shallow embedding of the numerical core of [seawater/gibbs.py]
    (the TEOS-10 Gibbs derivative engine [_gibbs], the helper
    polynomials, the fixed-iteration temperature solvers and the
    Baltic overwrite of [SP_from_Sstar]) together with the properties
    that the specification states about them.

    Numbers are exact reals: every literal of the source is the same
    decimal here, and [sqrt], [ln] and [exp] are those of the standard
    library.  A NumPy masked array is a list whose positions hold
    [Some v] (a valid datum) or [None] (undefined: masked, or not a
    finite number); all arrays of one call are one-dimensional and of one
    shape. *)

From Stdlib Require Import Reals Lra ZArith Bool.
From stdpp Require Import base option list strings gmap.

Open Scope R_scope.

(** ** Constants table *)

(** Modelled from the spec: the constants module ([seawater/constants.py],
    imported as [cte]) is not among the sources.  The functions below take
    the table as a parameter; [teos10] holds the published TEOS-10 values
    and is used wherever a closed numerical instance is needed. *)
Record Constants : Type := {
  sfac : R;    (* salinity scaling factor, 1 / (40 * (SSO / 35)) *)
  SSO : R;     (* Standard Ocean Reference Salinity *)
  cp0 : R;     (* reference specific heat *)
  Kelvin : R;  (* Celsius zero point *)
  r1 : R       (* salt scaling ratio of the Sstar conversions *)
}.

Definition teos10 : Constants :=
  {| sfac := 0.0248826675584615;
     SSO := 35.16504;
     cp0 := 3991.86795711963;
     Kelvin := 273.15;
     r1 := 0.35 |}.

(** ** Masked scalars and arrays *)

Abbreviation mreal := (option R).
Abbreviation marray := (list (option R)).

#[global] Instance Rle_decision (a b : R) : Decision (a <= b) := Rle_dec a b.
#[global] Instance Rlt_decision (a b : R) : Decision (a < b) := Rlt_dec a b.
#[global] Instance R_eq_decision : EqDecision R := Req_dec_T.

Definition Rleb (a b : R) : bool := bool_decide (a <= b).
Definition Rltb (a b : R) : bool := bool_decide (a < b).

(** Exceptions a call can end with, and the result of a call. *)
Inductive exn : Type :=
  | NameError (msg : string)
  | UnboundLocalError (name : string)
  | IndexError (msg : string).

Inductive result (A : Type) : Type :=
  | Ok (a : A)
  | Raise (e : exn).
Arguments Ok {A} a.
Arguments Raise {A} e.

#[global] Instance result_bind : MBind result :=
  fun A B (k : A -> result B) (r : result A) =>
    match r with
    | Ok a => k a
    | Raise e => Raise e
    end.

(** [np.ma.getmaskarray], [np.ma.filled] and [np.ma.masked_less_equal]. *)
Definition getmaskarray (a : marray) : list bool :=
  (fun m => match m with Some _ => false | None => true end) <$> a.

Definition fill (v : R) (m : mreal) : R :=
  match m with Some d => d | None => v end.

Definition filled (a : marray) (v : R) : list R := fill v <$> a.

Definition masked_less_equal (a : marray) (v : R) : marray :=
  (fun m => match m with
            | Some d => if Rleb d v then None else Some d
            | None => None
            end) <$> a.

(** [np.ma.array(data, mask=mask)]. *)
Definition ma_array (data : list R) (mask : list bool) : marray :=
  zip_with (fun d (m : bool) => if m then None else Some d) data mask.

(** Truth value of [SA.size == 1 and SA[0] <= 0]: a masked [SA[0]]
    compares to the masked constant, which is false. *)
Definition single_nonpos (SA : marray) : bool :=
  match SA with
  | [Some d] => Rleb d 0
  | _ => false
  end.

(** Truth value of [np.ma.all(SA <= 0)]: masked positions are skipped, and
    when every position is masked the reduction is the masked constant,
    which is false. *)
Definition ma_all_nonpos (SA : marray) : bool :=
  if forallb (fun m => match m with Some _ => false | None => true end) SA
  then false
  else forallb (fun m => match m with Some d => Rleb d 0 | None => true end) SA.

(** ** The literal polynomials of the engine

    One module per derivative order (ns, nt, npr); [g03] is the
    salinity-independent part, [g08] the salinity-dependent one and
    [g08_log] the logarithmic term added at the positions [ipos]. *)

Module G000.
Definition g03 (y z : R) : R :=
  ( 101.342743139674 + z * ( 100015.695367145 +
  z * ( -2544.5765420363 + z * ( 284.517778446287 +
  z * ( -33.3146754253611 + ( 4.20263108803084 - 0.546428511471039 * z )
  * z ) ) ) ) +
  y * ( 5.90578347909402 + z * ( -270.983805184062 +
  z * ( 776.153611613101 + z * ( -196.51255088122 + ( 28.9796526294175 -
  2.13290083518327 * z ) * z ) ) ) +
  y * ( -12357.785933039 + z * ( 1455.0364540468 +
  z * ( -756.558385769359 + z * ( 273.479662323528 + z *
  ( -55.5604063817218 + 4.34420671917197 * z ) ) ) ) +
  y * ( 736.741204151612 + z * ( -672.50778314507 +
  z * ( 499.360390819152 + z * ( -239.545330654412 + ( 48.8012518593872 -
  1.66307106208905 * z ) * z ) ) ) +
  y * ( -148.185936433658 + z * ( 397.968445406972 +
  z * ( -301.815380621876 + ( 152.196371733841 - 26.3748377232802 * z ) *
  z ) ) +
  y * ( 58.0259125842571 + z * ( -194.618310617595 +
  z * ( 120.520654902025 + z * ( -55.2723052340152 +
  6.48190668077221 * z ) ) ) +
  y * ( -18.9843846514172 + y * ( 3.05081646487967 -
  9.63108119393062 * z ) +
  z * ( 63.5113936641785 + z * ( -22.2897317140459 +
  8.17060541818112 * z ) ) ) ) ) ) ) ) ).

Definition g08 (x2 x y z : R) : R :=
  x2 * ( 1416.27648484197 + z * ( -3310.49154044839 +
  z * ( 384.794152978599 + z * ( -96.5324320107458 +
  ( 15.8408172766824 - 2.62480156590992 * z ) * z ) ) ) +
  x * ( -2432.14662381794 + x * ( 2025.80115603697 +
  y * ( 543.835333000098 + y * ( -68.5572509204491 +
  y * ( 49.3667694856254 + y * ( -17.1397577419788 +
  2.49697009569508 * y ) ) ) - 22.6683558512829 * z ) +
  x * ( -1091.66841042967 - 196.028306689776 * y +
  x * ( 374.60123787784 - 48.5891069025409 * x +
  36.7571622995805 * y ) + 36.0284195611086 * z ) +
  z * ( -54.7919133532887 + ( -4.08193978912261 -
  30.1755111971161 * z ) * z ) ) +
  z * ( 199.459603073901 + z * ( -52.2940909281335 +
  ( 68.0444942726459 - 3.41251932441282 * z ) * z ) ) +
  y * ( -493.407510141682 + z * ( -175.292041186547 +
  ( 83.1923927801819 - 29.483064349429 * z ) * z ) +
  y * ( -43.0664675978042 + z * ( 383.058066002476 + z *
  ( -54.1917262517112 + 25.6398487389914 * z ) ) +
  y * ( -10.0227370861875 - 460.319931801257 * z + y *
  ( 0.875600661808945 + 234.565187611355 * z ) ) ) ) ) +
  y * ( 168.072408311545 + z * ( 729.116529735046 +
  z * ( -343.956902961561 + z * ( 124.687671116248 + z *
  ( -31.656964386073 + 7.04658803315449 * z ) ) ) ) +
  y * ( 880.031352997204 + y * ( -225.267649263401 +
  y * ( 91.4260447751259 + y * ( -21.6603240875311 +
  2.13016970847183 * y ) +
  z * ( -297.728741987187 + ( 74.726141138756 -
  36.4872919001588 * z ) * z ) ) +
  z * ( 694.244814133268 + z * ( -204.889641964903 +
  ( 113.561697840594 - 11.1282734326413 * z ) * z ) ) ) +
  z * ( -860.764303783977 + z * ( 337.409530269367 +
  z * ( -178.314556207638 + ( 44.2040358308 -
  7.92001547211682 * z ) * z ) ) ) ) ) ).

Definition g08_log (x2 x y : R) : R :=
  x2 * ( 5812.81456626732 + 851.226734946706 *
  y ) * ln ( x ).

End G000.

Module G100.
Definition g08 (x y z : R) : R :=
  ( 8645.36753595126 + z * ( -6620.98308089678 +
  z * ( 769.588305957198 + z * ( -193.0648640214916 +
  ( 31.6816345533648 - 5.24960313181984 * z ) * z ) ) ) +
  x * ( -7296.43987145382 + x * ( 8103.20462414788 +
  y * ( 2175.341332000392 + y * ( -274.2290036817964 +
  y * ( 197.4670779425016 + y * ( -68.5590309679152 +
  9.98788038278032 * y ) ) ) - 90.6734234051316 * z ) +
  x * ( -5458.34205214835 - 980.14153344888 * y +
  x * ( 2247.60742726704 - 340.1237483177863 * x +
  220.542973797483 * y ) + 180.142097805543 * z ) +
  z * ( -219.1676534131548 + ( -16.32775915649044 -
  120.7020447884644 * z ) * z ) ) +
  z * ( 598.378809221703 + z * ( -156.8822727844005 +
  ( 204.1334828179377 - 10.23755797323846 * z ) * z ) ) +
  y * ( -1480.222530425046 + z * ( -525.876123559641 +
  ( 249.57717834054571 - 88.449193048287 * z ) * z ) +
  y * ( -129.1994027934126 + z * ( 1149.174198007428 +
  z * ( -162.5751787551336 + 76.9195462169742 * z ) ) +
  y * ( -30.0682112585625 - 1380.9597954037708 * z + y *
  ( 2.626801985426835 + 703.695562834065 * z ) ) ) ) ) +
  y * ( 1187.3715515697959 + z * ( 1458.233059470092 +
  z * ( -687.913805923122 + z * ( 249.375342232496 + z *
  ( -63.313928772146 + 14.09317606630898 * z ) ) ) ) +
  y * ( 1760.062705994408 + y * ( -450.535298526802 +
  y * ( 182.8520895502518 + y * ( -43.3206481750622 +
  4.26033941694366 * y ) +
  z * ( -595.457483974374 + ( 149.452282277512 -
  72.9745838003176 * z ) * z ) ) +
  z * ( 1388.489628266536 + z * ( -409.779283929806 +
  ( 227.123395681188 - 22.2565468652826 * z ) * z ) ) ) +
  z * ( -1721.528607567954 + z * ( 674.819060538734 +
  z * ( -356.629112415276 + ( 88.4080716616 -
  15.84003094423364 * z ) * z ) ) ) ) ) ).

Definition g08_log (x y : R) : R :=
  ( 11625.62913253464 + 1702.453469893412 *
  y ) * ln ( x ).

End G100.

Module G010.
Definition g03 (y z : R) : R :=
  ( 5.90578347909402 + z * ( -270.983805184062 +
  z * ( 776.153611613101 + z * ( -196.51255088122 +
  ( 28.9796526294175 - 2.13290083518327 * z ) * z ) ) ) +
  y * ( -24715.571866078 + z * ( 2910.0729080936 +
  z * ( -1513.116771538718 + z * ( 546.959324647056 + z *
  ( -111.1208127634436 + 8.68841343834394 * z ) ) ) ) +
  y * ( 2210.2236124548363 + z * ( -2017.52334943521 +
  z * ( 1498.081172457456 + z * ( -718.6359919632359 +
  ( 146.4037555781616 - 4.9892131862671505 * z ) * z ) ) ) +
  y * ( -592.743745734632 + z * ( 1591.873781627888 +
  z * ( -1207.261522487504 + ( 608.785486935364 -
  105.4993508931208 * z ) * z ) ) +
  y * ( 290.12956292128547 + z * ( -973.091553087975 +
  z * ( 602.603274510125 + z * ( -276.361526170076 +
  32.40953340386105 * z ) ) ) +
  y * ( -113.90630790850321 + y * ( 21.35571525415769 -
  67.41756835751434 * z ) +
  z * ( 381.06836198507096 + z * ( -133.7383902842754 +
  49.023632509086724 * z ) ) ) ) ) ) ) ).

Definition g08 (x2 x y z : R) : R :=
  x2 * ( 168.072408311545 + z * ( 729.116529735046 +
  z * ( -343.956902961561 + z * ( 124.687671116248 + z *
  ( -31.656964386073 + 7.04658803315449 * z ) ) ) ) +
  x * ( -493.407510141682 + x * ( 543.835333000098 + x *
  ( -196.028306689776 + 36.7571622995805 * x ) +
  y * ( -137.1145018408982 + y * ( 148.10030845687618 + y *
  ( -68.5590309679152 + 12.4848504784754 * y ) ) ) -
  22.6683558512829 * z ) + z * ( -175.292041186547 +
  ( 83.1923927801819 - 29.483064349429 * z ) * z ) +
  y * ( -86.1329351956084 + z * ( 766.116132004952 + z *
  ( -108.3834525034224 + 51.2796974779828 * z ) ) +
  y * ( -30.0682112585625 - 1380.9597954037708 * z + y *
  ( 3.50240264723578 + 938.26075044542 * z ) ) ) ) +
  y * ( 1760.062705994408 + y * ( -675.802947790203 +
  y * ( 365.7041791005036 + y * ( -108.30162043765552 +
  12.78101825083098 * y ) +
  z * ( -1190.914967948748 + ( 298.904564555024 -
  145.9491676006352 * z ) * z ) ) +
  z * ( 2082.7344423998043 + z * ( -614.668925894709 +
  ( 340.685093521782 - 33.3848202979239 * z ) * z ) ) ) +
  z * ( -1721.528607567954 + z * ( 674.819060538734 +
  z * ( -356.629112415276 + ( 88.4080716616 -
  15.84003094423364 * z ) * z ) ) ) ) ).

Definition g08_log (x2 x : R) : R :=
  851.226734946706 * x2 * ln ( x ).

End G010.

Module G001.
Definition g03 (y z : R) : R :=
  ( 100015.695367145 + z * ( -5089.1530840726 +
  z * ( 853.5533353388611 + z * ( -133.2587017014444 +
  ( 21.0131554401542 - 3.278571068826234 * z ) * z ) ) ) +
  y * ( -270.983805184062 + z * ( 1552.307223226202 +
  z * ( -589.53765264366 + ( 115.91861051767 -
  10.664504175916349 * z ) * z ) ) +
  y * ( 1455.0364540468 + z * ( -1513.116771538718 +
  z * ( 820.438986970584 + z * ( -222.2416255268872 +
  21.72103359585985 * z ) ) ) +
  y * ( -672.50778314507 + z * ( 998.720781638304 +
  z * ( -718.6359919632359 + ( 195.2050074375488 -
  8.31535531044525 * z ) * z ) ) +
  y * ( 397.968445406972 + z * ( -603.630761243752 +
  ( 456.589115201523 - 105.4993508931208 * z ) * z ) +
  y * ( -194.618310617595 + y * ( 63.5113936641785 -
  9.63108119393062 * y +
  z * ( -44.5794634280918 + 24.511816254543362 * z ) ) +
  z * ( 241.04130980405 + z * ( -165.8169157020456 +
  25.92762672308884 * z ) ) ) ) ) ) ) ).

Definition g08 (x2 x y z : R) : R :=
  x2 * ( -3310.49154044839 + z * ( 769.588305957198 +
  z * ( -289.5972960322374 + ( 63.3632691067296 -
  13.1240078295496 * z ) * z ) ) +
  x * ( 199.459603073901 + x * ( -54.7919133532887 +
  36.0284195611086 * x - 22.6683558512829 * y +
  ( -8.16387957824522 - 90.52653359134831 * z ) * z ) +
  z * ( -104.588181856267 + ( 204.1334828179377 -
  13.65007729765128 * z ) * z ) +
  y * ( -175.292041186547 + ( 166.3847855603638 -
  88.449193048287 * z ) * z +
  y * ( 383.058066002476 + y * ( -460.319931801257 +
  234.565187611355 * y ) +
  z * ( -108.3834525034224 + 76.9195462169742 * z ) ) ) ) +
  y * ( 729.116529735046 + z * ( -687.913805923122 +
  z * ( 374.063013348744 + z * ( -126.627857544292 +
  35.23294016577245 * z ) ) ) +
  y * ( -860.764303783977 + y * ( 694.244814133268 +
  y * ( -297.728741987187 + ( 149.452282277512 -
  109.46187570047641 * z ) * z ) +
  z * ( -409.779283929806 + ( 340.685093521782 -
  44.5130937305652 * z ) * z ) ) +
  z * ( 674.819060538734 + z * ( -534.943668622914 +
  ( 176.8161433232 - 39.600077360584095 * z ) * z ) ) ) ) ).

End G001.

Module G110.
Definition g08 (x y z : R) : R :=
  ( 1187.3715515697959 + z * ( 1458.233059470092 +
  z * ( -687.913805923122 + z * ( 249.375342232496 + z *
  ( -63.313928772146 + 14.09317606630898 * z ) ) ) ) +
  x * ( -1480.222530425046 + x * ( 2175.341332000392 + x *
  ( -980.14153344888 + 220.542973797483 * x ) +
  y * ( -548.4580073635929 + y * ( 592.4012338275047 + y *
  ( -274.2361238716608 + 49.9394019139016 * y ) ) ) -
  90.6734234051316 * z ) + z * ( -525.876123559641 +
  ( 249.57717834054571 - 88.449193048287 * z ) * z ) +
  y * ( -258.3988055868252 + z * ( 2298.348396014856 +
  z * ( -325.1503575102672 + 153.8390924339484 * z ) ) +
  y * ( -90.2046337756875 - 4142.8793862113125 * z + y *
  ( 10.50720794170734 + 2814.78225133626 * z ) ) ) ) +
  y * ( 3520.125411988816 + y * ( -1351.605895580406 +
  y * ( 731.4083582010072 + y * ( -216.60324087531103 +
  25.56203650166196 * y ) +
  z * ( -2381.829935897496 + ( 597.809129110048 -
  291.8983352012704 * z ) * z ) ) +
  z * ( 4165.4688847996085 + z * ( -1229.337851789418 +
  ( 681.370187043564 - 66.7696405958478 * z ) * z ) ) ) +
  z * ( -3443.057215135908 + z * ( 1349.638121077468 +
  z * ( -713.258224830552 + ( 176.8161433232 -
  31.68006188846728 * z ) * z ) ) ) ) ).

Definition g08_log (x : R) : R :=
  1702.453469893412 * ln ( x ).

End G110.

Module G101.
Definition g08 (x y z : R) : R :=
  ( -6620.98308089678 + z * ( 1539.176611914396 +
  z * ( -579.1945920644748 + ( 126.7265382134592 -
  26.2480156590992 * z ) * z ) ) +
  x * ( 598.378809221703 + x * ( -219.1676534131548 +
  180.142097805543 * x - 90.6734234051316 * y +
  (-32.65551831298088 - 362.10613436539325 * z ) * z ) +
  z * ( -313.764545568801 + ( 612.4004484538132 -
  40.95023189295384 * z ) * z ) +
  y * ( -525.876123559641 + ( 499.15435668109143 -
  265.347579144861 * z ) * z +
  y * ( 1149.174198007428 + y * ( -1380.9597954037708 +
  703.695562834065 * y ) +
  z * ( -325.1503575102672 + 230.7586386509226 * z ) ) ) ) +
  y * ( 1458.233059470092 + z * ( -1375.827611846244 +
  z * ( 748.126026697488 + z * ( -253.255715088584 +
  70.4658803315449 * z ) ) ) +
  y * ( -1721.528607567954 + y * ( 1388.489628266536 +
  y * ( -595.457483974374 + ( 298.904564555024 -
  218.92375140095282 * z ) * z ) +
  z * ( -819.558567859612 + ( 681.370187043564 -
  89.0261874611304 * z ) * z ) ) +
  z * ( 1349.638121077468 + z * ( -1069.887337245828 +
  ( 353.6322866464 - 79.20015472116819 * z ) * z ) ) ) ) ).

End G101.

Module G011.
Definition g03 (y z : R) : R :=
  ( -270.983805184062 + z * ( 1552.307223226202 + z *
  ( -589.53765264366 +
  ( 115.91861051767 - 10.664504175916349 * z ) * z ) ) +
  y * ( 2910.0729080936 + z * ( -3026.233543077436 +
  z * ( 1640.877973941168 + z * ( -444.4832510537744 +
  43.4420671917197 * z ) ) ) +
  y * ( -2017.52334943521 + z * ( 2996.162344914912 +
  z * ( -2155.907975889708 + ( 585.6150223126464 -
  24.946065931335752 * z ) * z ) ) +
  y * ( 1591.873781627888 + z * ( -2414.523044975008 +
  ( 1826.356460806092 - 421.9974035724832 * z ) * z ) +
  y * ( -973.091553087975 + z * ( 1205.20654902025 + z *
  ( -829.084578510228 + 129.6381336154442 * z ) ) +
  y * ( 381.06836198507096 - 67.41756835751434 * y + z *
  ( -267.4767805685508 + 147.07089752726017 * z ) ) ) ) ) ) ).

Definition g08 (x2 x y z : R) : R :=
  x2 * ( 729.116529735046 + z * ( -687.913805923122 +
  z * ( 374.063013348744 + z * ( -126.627857544292 +
  35.23294016577245 * z ) ) ) +
  x * ( -175.292041186547 - 22.6683558512829 * x +
  ( 166.3847855603638 - 88.449193048287 * z ) * z +
  y * ( 766.116132004952 + y * ( -1380.9597954037708 +
  938.26075044542 * y ) +
  z * ( -216.7669050068448 + 153.8390924339484 * z ) ) ) +
  y * ( -1721.528607567954 + y * ( 2082.7344423998043 +
  y * ( -1190.914967948748 + ( 597.809129110048 -
  437.84750280190565 * z ) * z ) +
  z * ( -1229.337851789418 + ( 1022.055280565346 -
  133.5392811916956 * z ) * z ) ) +
  z * ( 1349.638121077468 + z * ( -1069.887337245828 +
  ( 353.6322866464 - 79.20015472116819 * z ) * z ) ) ) ).

End G011.

Module G200.
Definition g08 (x y z : R) : R :=
  2.0 * ( 8103.20462414788 +
  y * ( 2175.341332000392 + y * ( -274.2290036817964 +
  y * ( 197.4670779425016 + y * ( -68.5590309679152 +
  9.98788038278032 * y ) ) ) - 90.6734234051316 * z ) +
  1.5 * x * ( -5458.34205214835 - 980.14153344888 * y +
  ( 4.0 / 3.0 ) * x * ( 2247.60742726704 - 340.1237483177863 * 1.25 *
  x + 220.542973797483 * y ) +
  180.142097805543 * z ) +
  z * ( -219.1676534131548 + ( -16.32775915649044 -
  120.7020447884644 * z ) * z ) ).

Definition tmp (x y z : R) : R :=
  ( ( -7296.43987145382 + z * ( 598.378809221703 +
  z * ( -156.8822727844005 + ( 204.1334828179377 -
  10.23755797323846 * z ) * z ) ) +
  y * ( -1480.222530425046 + z * ( -525.876123559641 +
  ( 249.57717834054571 - 88.449193048287 * z ) * z ) +
  y * ( -129.1994027934126 + z * ( 1149.174198007428 +
  z * ( -162.5751787551336 + 76.9195462169742 * z ) ) +
  y * ( -30.0682112585625 - 1380.9597954037708 * z +
  y * ( 2.626801985426835 + 703.695562834065 * z ) ) ) ) ) / x +
  ( 11625.62913253464 + 1702.453469893412 * y ) ).

End G200.

Module G020.
Definition g03 (y z : R) : R :=
  ( -24715.571866078 + z * ( 2910.0729080936 + z *
  ( -1513.116771538718 + z * ( 546.959324647056 + z *
  ( -111.1208127634436 + 8.68841343834394 * z ) ) ) ) +
  y * ( 4420.4472249096725 + z * ( -4035.04669887042 +
  z * ( 2996.162344914912 + z * ( -1437.2719839264719 +
  ( 292.8075111563232 - 9.978426372534301 * z ) * z ) ) ) +
  y * ( -1778.231237203896 + z * ( 4775.621344883664 +
  z * ( -3621.784567462512 + ( 1826.356460806092 -
  316.49805267936244 * z ) * z ) ) +
  y * ( 1160.5182516851419 + z * ( -3892.3662123519 +
  z * ( 2410.4130980405 + z * ( -1105.446104680304 +
  129.6381336154442 * z ) ) ) +
  y * ( -569.531539542516 + y * ( 128.13429152494615 -
  404.50541014508605 * z ) +
  z * ( 1905.341809925355 + z * ( -668.691951421377 +
  245.11816254543362 * z ) ) ) ) ) ) ).

Definition g08 (x2 x y z : R) : R :=
  x2 * ( 1760.062705994408 + x * ( -86.1329351956084 +
  x * ( -137.1145018408982 + y * ( 296.20061691375236 +
  y * ( -205.67709290374563 + 49.9394019139016 * y ) ) ) +
  z * ( 766.116132004952 + z * ( -108.3834525034224 +
  51.2796974779828 * z ) ) +
  y * ( -60.136422517125 - 2761.9195908075417 * z +
  y * ( 10.50720794170734 + 2814.78225133626 * z ) ) ) +
  y * ( -1351.605895580406 + y * ( 1097.1125373015109 +
  y * ( -433.20648175062206 + 63.905091254154904 * y ) +
  z * ( -3572.7449038462437 + ( 896.713693665072 -
  437.84750280190565 * z ) * z ) ) +
  z * ( 4165.4688847996085 + z * ( -1229.337851789418 +
  ( 681.370187043564 - 66.7696405958478 * z ) * z ) ) ) +
  z * ( -1721.528607567954 + z * ( 674.819060538734 +
  z * ( -356.629112415276 + ( 88.4080716616 -
  15.84003094423364 * z ) * z ) ) ) ).

End G020.

Module G002.
Definition g03 (y z : R) : R :=
  ( -5089.1530840726 + z * ( 1707.1066706777221 +
  z * ( -399.7761051043332 + ( 84.0526217606168 -
  16.39285534413117 * z ) * z ) ) +
  y * ( 1552.307223226202 + z * ( -1179.07530528732 +
  ( 347.75583155301 - 42.658016703665396 * z ) * z ) +
  y * ( -1513.116771538718 + z * ( 1640.877973941168 +
  z * ( -666.7248765806615 + 86.8841343834394 * z ) ) +
  y * ( 998.720781638304 + z * ( -1437.2719839264719 +
  ( 585.6150223126464 - 33.261421241781 * z ) * z ) +
  y * ( -603.630761243752 + ( 913.178230403046 -
  316.49805267936244 * z ) * z +
  y * ( 241.04130980405 + y * ( -44.5794634280918 +
  49.023632509086724 * z ) +
  z * ( -331.6338314040912 + 77.78288016926652 * z ) ) ) ) ) ) ).

Definition g08 (x2 x y z : R) : R :=
  x2 * ( 769.588305957198 + z * ( -579.1945920644748 +
  ( 190.08980732018878 - 52.4960313181984 * z ) * z ) +
  x * ( -104.588181856267 + x * ( -8.16387957824522 -
  181.05306718269662 * z ) +
  ( 408.2669656358754 - 40.95023189295384 * z ) * z +
  y * ( 166.3847855603638 - 176.898386096574 * z + y *
  ( -108.3834525034224 + 153.8390924339484 * z ) ) ) +
  y * ( -687.913805923122 + z * ( 748.126026697488 +
  z * ( -379.883572632876 + 140.9317606630898 * z ) ) +
  y * ( 674.819060538734 + z * ( -1069.887337245828 +
  ( 530.4484299696 - 158.40030944233638 * z ) * z ) +
  y * ( -409.779283929806 + y * ( 149.452282277512 -
  218.92375140095282 * z ) +
  ( 681.370187043564 - 133.5392811916956 * z ) * z ) ) ) ).

End G002.

Module EntropyPart.
Definition g03 (y z : R) : R :=
  ( z * ( -270.983805184062 +
  z * ( 776.153611613101 + z * ( -196.51255088122 + ( 28.9796526294175 -
  2.13290083518327 * z ) * z ) ) ) +
  y * ( -24715.571866078 + z * ( 2910.0729080936 +
  z * ( -1513.116771538718 + z * ( 546.959324647056 + z *
  ( -111.1208127634436 + 8.68841343834394 * z ) ) ) ) +
  y * ( 2210.2236124548363 + z * ( -2017.52334943521 +
  z * ( 1498.081172457456 + z * ( -718.6359919632359 +
  ( 146.4037555781616 - 4.9892131862671505 * z ) * z ) ) ) +
  y * ( -592.743745734632 + z * ( 1591.873781627888 +
  z * ( -1207.261522487504 + ( 608.785486935364 -
  105.4993508931208 * z ) * z ) ) +
  y * ( 290.12956292128547 + z * ( -973.091553087975 +
  z * ( 602.603274510125 + z * ( -276.361526170076 +
  32.40953340386105 * z ) ) ) +
  y * ( -113.90630790850321 + y *
  ( 21.35571525415769 - 67.41756835751434 * z ) +
  z * ( 381.06836198507096 + z * ( -133.7383902842754 +
  49.023632509086724 * z ) ) ) ) ) ) ) ).

Definition g08 (x2 x y z : R) : R :=
  x2 * ( z * ( 729.116529735046 +
  z * ( -343.956902961561 + z * ( 124.687671116248 + z * ( -31.656964386073 +
  7.04658803315449 * z ) ) ) ) +
  x * ( x * ( y * ( -137.1145018408982 + y * ( 148.10030845687618 +
  y * ( -68.5590309679152 + 12.4848504784754 * y ) ) ) -
  22.6683558512829 * z ) + z * ( -175.292041186547 +
  ( 83.1923927801819 - 29.483064349429 * z ) * z ) +
  y * ( -86.1329351956084 + z * ( 766.116132004952 +
  z * ( -108.3834525034224 + 51.2796974779828 * z ) ) +
  y * ( -30.0682112585625 - 1380.9597954037708 * z +
  y * ( 3.50240264723578 + 938.26075044542 * z ) ) ) ) +
  y * ( 1760.062705994408 + y * ( -675.802947790203 +
  y * ( 365.7041791005036 + y * ( -108.30162043765552 +
  12.78101825083098 * y ) +
  z * ( -1190.914967948748 + ( 298.904564555024 -
  145.9491676006352 * z ) * z ) ) +
  z * ( 2082.7344423998043 + z * ( -614.668925894709 +
  ( 340.685093521782 - 33.3848202979239 * z ) * z ) ) ) +
  z * ( -1721.528607567954 + z * ( 674.819060538734 +
  z * ( -356.629112415276 + ( 88.4080716616 -
  15.84003094423364 * z ) * z ) ) ) ) ).

End EntropyPart.

Module GibbsPt0Pt0.
Definition g03 (y : R) : R :=
  ( -24715.571866078 +
  y * ( 4420.4472249096725 +
  y * ( -1778.231237203896 +
  y * ( 1160.5182516851419 +
  y * ( -569.531539542516 + y * 128.13429152494615) ) ) ) ).

Definition g08 (x2 x y : R) : R :=
  x2 * ( 1760.062705994408 + x * ( -86.1329351956084 +
  x * ( -137.1145018408982 + y * ( 296.20061691375236 +
  y * ( -205.67709290374563 + 49.9394019139016 * y ) ) ) +
  y * ( -60.136422517125 + y * 10.50720794170734 ) ) +
  y * ( -1351.605895580406 + y * ( 1097.1125373015109 +
  y * ( -433.20648175062206 + 63.905091254154904 * y ) ) ) ).

End GibbsPt0Pt0.

Module PotEnthalpy.
Definition pot_enthalpy (x2 x y : R) : R :=
  ( 61.01362420681071 + y * ( 168776.46138048015 +
  y * ( -2735.2785605119625 + y * ( 2574.2164453821433 +
  y * ( -1536.6644434977543 + y * ( 545.7340497931629 +
  ( -50.91091728474331 - 18.30489878927802 * y ) * y ) ) ) ) ) +
  x2 * ( 268.5520265845071 + y * ( -12019.028203559312 +
  y * ( 3734.858026725145 + y * ( -2046.7671145057618 +
  y * ( 465.28655623826234 + ( -0.6370820302376359 -
  10.650848542359153 * y ) * y ) ) ) ) +
  x * ( 937.2099110620707 + y * ( 588.1802812170108 +
  y * ( 248.39476522971285 + ( -3.871557904936333 -
  2.6268019854268356 * y ) * y ) ) +
  x * ( -1687.914374187449 + x * ( 246.9598888781377 +
  x * ( 123.59576582457964 - 48.5891069025409 * x ) ) +
  y * ( 936.3206544460336 +
  y * ( -942.7827304544439 + y * ( 369.4389437509002 +
  ( -33.83664947895248 - 9.987880382780322 * y ) * y ) ) ) ) ) ) ).

End PotEnthalpy.

(** ** The Gibbs derivative engine [_gibbs] *)

(** What one branch leaves at a position: the value of [gibbs] and the
    flag [all_masked]. *)
Record branch_out : Type := { gibbs : R; all_masked : bool }.

(** A branch maps [nonzero_SA] and the per-position values of
    [ipos], [x2], [x], [y], [z] to its outcome. *)
Definition branch : Type := bool -> bool -> R -> R -> R -> R -> branch_out.

Section Engine.

Variable cte : Constants.

(** The [if]/[elif] chain on (ns, nt, npr), in the order of the source.
    [gibbs] starts as [np.zeros] and [all_masked] as [False]; an in-place
    update [g08[ipos] += e] changes the positions with [SA > 0] only. *)
Definition gibbs_branch (ns nt npr : Z) : result branch :=
  if ((ns =? 0) && (nt =? 0) && (npr =? 0))%Z then
    Ok (fun (nonzero_SA ipos : bool) (x2 x y z : R) =>
      let g03 := G000.g03 y z in
      let g08 :=
        if nonzero_SA then
          let g08 := G000.g08 x2 x y z in
          if ipos then g08 + G000.g08_log x2 x y else g08
        else 0 in
      {| gibbs := g03 + g08; all_masked := false |})
  else if ((ns =? 1) && (nt =? 0) && (npr =? 0))%Z then
    Ok (fun (nonzero_SA ipos : bool) (x2 x y z : R) =>
      if nonzero_SA then
        let g08 := G100.g08 x y z in
        let g08 := if ipos then g08 + G100.g08_log x y else g08 in
        {| gibbs := 0.5 * sfac cte * g08; all_masked := false |}
      else {| gibbs := 0; all_masked := true |})
  else if ((ns =? 0) && (nt =? 1) && (npr =? 0))%Z then
    Ok (fun (nonzero_SA ipos : bool) (x2 x y z : R) =>
      let g03 := G010.g03 y z in
      if nonzero_SA then
        let g08 := G010.g08 x2 x y z in
        let g08 := if ipos then g08 + G010.g08_log x2 x else g08 in
        {| gibbs := (g03 + g08) * 0.025; all_masked := false |}
      else {| gibbs := g03; all_masked := false |})
  else if ((ns =? 0) && (nt =? 0) && (npr =? 1))%Z then
    Ok (fun (nonzero_SA ipos : bool) (x2 x y z : R) =>
      let g03 := G001.g03 y z in
      let g08 := if nonzero_SA then G001.g08 x2 x y z else 0 in
      {| gibbs := (g03 + g08) * 1e-8; all_masked := false |})
  else if ((ns =? 1) && (nt =? 1) && (npr =? 0))%Z then
    Ok (fun (nonzero_SA ipos : bool) (x2 x y z : R) =>
      if nonzero_SA then
        let g08 := G110.g08 x y z in
        let g08 := if ipos then g08 + G110.g08_log x else g08 in
        {| gibbs := 0.5 * sfac cte * 0.025 * g08; all_masked := false |}
      else {| gibbs := 0; all_masked := true |})
  else if ((ns =? 1) && (nt =? 0) && (npr =? 1))%Z then
    Ok (fun (nonzero_SA ipos : bool) (x2 x y z : R) =>
      let g08 := G101.g08 x y z in
      {| gibbs := g08 * sfac cte * 0.5e-8; all_masked := false |})
  else if ((ns =? 0) && (nt =? 1) && (npr =? 1))%Z then
    Ok (fun (nonzero_SA ipos : bool) (x2 x y z : R) =>
      let g03 := G011.g03 y z in
      let g08 := if nonzero_SA then G011.g08 x2 x y z else 0 in
      {| gibbs := (g03 + g08) * 2.5e-10; all_masked := false |})
  else if ((ns =? 2) && (nt =? 0) && (npr =? 0))%Z then
    Ok (fun (nonzero_SA ipos : bool) (x2 x y z : R) =>
      let g08 := G200.g08 x y z in
      let g08 :=
        if nonzero_SA then
          let tmp := G200.tmp x y z in
          if ipos then g08 + tmp / x2 else g08
        else g08 in
      {| gibbs := 0.25 * sfac cte ^ 2 * g08; all_masked := false |})
  else if ((ns =? 0) && (nt =? 2) && (npr =? 0))%Z then
    Ok (fun (nonzero_SA ipos : bool) (x2 x y z : R) =>
      let g03 := G020.g03 y z in
      let g08 := if nonzero_SA then G020.g08 x2 x y z else 0 in
      {| gibbs := (g03 + g08) * 0.000625; all_masked := false |})
  else if ((ns =? 0) && (nt =? 0) && (npr =? 2))%Z then
    Ok (fun (nonzero_SA ipos : bool) (x2 x y z : R) =>
      let g03 := G002.g03 y z in
      let g08 := if nonzero_SA then G002.g08 x2 x y z else 0 in
      {| gibbs := (g03 + g08) * 1e-16; all_masked := false |})
  else Raise (NameError "Wrong Combination of order/variables").

(** Truth value of [nonzero_SA] after the test
    [(SA.size == 1 and SA[0] <= 0) or np.ma.all(SA <= 0)]. *)
Definition nonzero_SA_of (SA : marray) : bool :=
  negb (single_nonpos SA || ma_all_nonpos SA).

(** [_gibbs(ns, nt, npr, SA, t, p)].  The reduced variables are computed
    position by position from the filled arrays; the branch is selected
    once for the call; the mask is put back on the result. *)
Definition _gibbs (ns nt npr : Z) (SA t p : marray) : result marray :=
  let nonzero_SA := nonzero_SA_of SA in
  let SA := if nonzero_SA then masked_less_equal SA 0 else SA in
  let _SA := SA in
  let _t := t in
  let _p := p in
  let SA := filled SA 0 in
  let t := filled t 20 in
  let p := filled p 10 in
  let mask := zip_with orb (getmaskarray _SA) (getmaskarray _t) in
  let mask := zip_with orb mask (getmaskarray _p) in
  let mask := zip_with orb mask ((fun s : R => Rltb s 0) <$> SA) in
  br ← gibbs_branch ns nt npr;
  let out :=
    zip_with (fun (s : R) (tp : R * R) =>
      let ipos := Rltb 0 s in
      let x2 := sfac cte * s in
      let x := sqrt x2 in
      let y := fst tp * 0.025 in
      let z := snd tp * 1e-4 in
      br nonzero_SA ipos x2 x y z) SA (zip t p) in
  Ok (zip_with (fun (o : branch_out) (m : bool) =>
        if m || all_masked o then None else Some (gibbs o)) out mask).

End Engine.
(** ** Arithmetic of masked values

    An operation on masked arrays is masked where an operand is; a
    division is masked as well where the divisor is zero (the domain of
    [np.ma.true_divide]). *)

Definition const (c : R) : mreal := Some c.
Arguments const c%_R.

Definition madd (a b : mreal) : mreal := x ← a; y ← b; Some (x + y).
Definition msub (a b : mreal) : mreal := x ← a; y ← b; Some (x - y).
Definition mmul (a b : mreal) : mreal := x ← a; y ← b; Some (x * y).
Definition mdiv (a b : mreal) : mreal :=
  x ← a; y ← b; if decide (y = 0) then None else Some (x / y).
Definition mneg (a : mreal) : mreal := x ← a; Some (- x).
Definition mexp (a : mreal) : mreal := x ← a; Some (exp x).

Declare Scope ma_scope.
Delimit Scope ma_scope with ma.
Notation "# c" := (const c) (at level 9, c at level 9, format "# c") : ma_scope.
Infix "+" := madd : ma_scope.
Infix "-" := msub : ma_scope.
Infix "*" := mmul : ma_scope.
Infix "/" := mdiv : ma_scope.
Notation "- a" := (mneg a) : ma_scope.

(** Elementwise application to three and four arrays of one shape. *)
Definition map3 {A B C D : Type} (f : A -> B -> C -> D)
    (a : list A) (b : list B) (c : list C) : list D :=
  zip_with (fun (x : A) (yz : B * C) => f x (fst yz) (snd yz)) a (zip b c).

Definition map4 {A B C D E : Type} (f : A -> B -> C -> D -> E)
    (a : list A) (b : list B) (c : list C) (d : list D) : list E :=
  zip_with (fun (xy : A * B) (zw : C * D) =>
              f (fst xy) (snd xy) (fst zw) (snd zw)) (zip a b) (zip c d).

(** [SA[SA < 0] = np.ma.masked] and [SA[SA < 0] = 0]; a masked position
    (NaN underneath, as the decorator makes them) is left as it is. *)
Definition mask_negative (SA : marray) : marray :=
  (fun m => match m with
            | Some d => if Rltb d 0 then None else Some d
            | None => None
            end) <$> SA.

Definition clamp_negative (SA : marray) : marray :=
  (fun m => match m with
            | Some d => Some (if Rltb d 0 then 0 else d)
            | None => None
            end) <$> SA.

(** ** [strip_mask]

    The arguments reach it as one-dimensional masked arrays with a full
    mask (the decorator builds them with [np.ma.atleast_1d] and
    [np.ma.masked_invalid]), so the branch [if SA.shape] is the one taken.
    [np.ma.asarray(SA)] shares its mask with the argument, hence the
    positions masked by [SA[SA < 0] = np.ma.masked] are seen by the loop
    that gathers the masks of [args[:-1]].  The two arities in use: *)
Definition strip_mask2 (SA a : marray) : list R * list R * list bool :=
  let mask := getmaskarray a in
  let SA := mask_negative SA in
  let mask := zip_with orb mask (getmaskarray SA) in
  (filled SA 0, filled a 0, mask).

Definition strip_mask3 (SA a b : marray)
    : list R * list R * list R * list bool :=
  let mask := getmaskarray b in
  let SA := mask_negative SA in
  let mask := zip_with orb mask (getmaskarray SA) in
  let mask := zip_with orb mask (getmaskarray a) in
  (filled SA 0, filled a 0, filled b 0, mask).

(** ** Helper polynomials *)

Section Helpers.

Variable cte : Constants.

(** [_entropy_part(SA, t, p)]. *)
Definition _entropy_part (SA t p : marray) : marray :=
  let '(SA, t, p, mask) := strip_mask3 SA t p in
  let entropy_part :=
    map3 (fun SA t p : R =>
      let x2 := sfac cte * SA in
      let x := sqrt x2 in
      let y := t * 0.025 in
      let z := p * 1e-4 in
      let g03 := EntropyPart.g03 y z in
      let g08 := EntropyPart.g08 x2 x y z in
      -( g03 + g08 ) * 0.025) SA t p in
  ma_array entropy_part mask.

(** [_gibbs_pt0_pt0(SA, pt0)]. *)
Definition _gibbs_pt0_pt0 (SA pt0 : marray) : marray :=
  let '(SA, pt0, mask) := strip_mask2 SA pt0 in
  let gibbs_pt0_pt0 :=
    zip_with (fun SA pt0 : R =>
      let x2 := sfac cte * SA in
      let x := sqrt x2 in
      let y := pt0 * 0.025 in
      let g03 := GibbsPt0Pt0.g03 y in
      let g08 := GibbsPt0Pt0.g08 x2 x y in
      ( g03 + g08 ) * 0.000625) SA pt0 in
  ma_array gibbs_pt0_pt0 mask.

(** [pot_enthalpy_from_pt(SA, pt)].  The decorator [match_args_return]
    turns NaN into masked on the way in and masked into NaN on the way out
    when no argument was masked; both are [None] here, so a decorated
    function is its body. *)
Definition pot_enthalpy_from_pt (SA pt : marray) : marray :=
  let '(SA, pt, mask) := strip_mask2 SA pt in
  let pot_enthalpy :=
    zip_with (fun SA pt : R =>
      let x2 := sfac cte * SA in
      let x := sqrt x2 in
      let y := pt * 0.025 in
      PotEnthalpy.pot_enthalpy x2 x y) SA pt in
  ma_array pot_enthalpy mask.

(** [CT_from_pt(SA, pt)]: the stripped arrays go to
    [pot_enthalpy_from_pt], whose result is divided by [cte.cp0]. *)
Definition CT_from_pt (SA pt : marray) : marray :=
  let '(SA, pt, mask) := strip_mask2 SA pt in
  let pot_enthalpy := pot_enthalpy_from_pt (Some <$> SA) (Some <$> pt) in
  let CT := (fun h : mreal => h / #(cp0 cte))%ma <$> pot_enthalpy in
  zip_with (fun (c : mreal) (m : bool) => if m then None else c) CT mask.

End Helpers.
(** ** Fixed-iteration temperature solvers *)

(** [for _ in range(0, n)] over a loop body that may raise. *)
Fixpoint for_range {S : Type} (n : nat) (body : S -> result S) (s : S)
    : result S :=
  match n with
  | O => Ok s
  | S k => s' ← body s; for_range k body s'
  end.

(** The variables a pass of [potential_t] reads and rebinds. *)
Record pt_state : Type := { pt_of : marray; dentropy_dt_of : marray }.

(** The variables of the loop of [t_from_entropy]; [t] is unbound until
    the first pass has run. *)
Record te_state : Type :=
  { te_pt : marray; te_dentropy_dt : marray; te_t : option marray }.

Section Solvers.

Variable cte : Constants.

Definition n0 : Z := 0.
Definition n1 : Z := 1.
Definition n2 : Z := 2.

(** One pass of the loop of [potential_t]. *)
Definition potential_t_pass (SA pr true_entropy_part : marray)
    (st : pt_state) : result pt_state :=
  let pt_old := pt_of st in
  let dentropy :=
    zip_with msub (_entropy_part cte SA pt_old pr) true_entropy_part in
  let pt :=
    map3 (fun pt_old dentropy dentropy_dt : mreal =>
            pt_old - dentropy / dentropy_dt)%ma
         pt_old dentropy (dentropy_dt_of st) in
  let ptm :=
    zip_with (fun pt pt_old : mreal => #0.5 * (pt + pt_old))%ma pt pt_old in
  g ← _gibbs cte n0 n2 n0 SA ptm pr;
  let dentropy_dt := mneg <$> (g : marray) in
  let pt :=
    map3 (fun pt_old dentropy dentropy_dt : mreal =>
            pt_old - dentropy / dentropy_dt)%ma
         pt_old dentropy dentropy_dt in
  Ok {| pt_of := pt; dentropy_dt_of := dentropy_dt |}.

(** [potential_t(SA, t, p, pr)]. *)
Definition potential_t (SA t p pr : marray) : result marray :=
  let SA := clamp_negative SA in
  let s1 := (fun SA : mreal => SA * #35 / #(SSO cte))%ma <$> SA in
  let pt :=
    map4 (fun t p pr s1 : mreal =>
      t + ( p - pr ) * ( #8.65483913395442e-6 -
      s1 * #1.41636299744881e-6 -
      ( p + pr ) * #7.38286467135737e-9 +
      t * ( #(-8.38241357039698e-6) +
      s1 * #2.83933368585534e-8 +
      t * #1.77803965218656e-8 +
      ( p + pr ) * #1.71155619208233e-10 ) ))%ma t p pr s1 in
  let dentropy_dt :=
    zip_with (fun pt SA : mreal =>
      #(cp0 cte) / ( (#(Kelvin cte) + pt) * ( #1 - #0.05 *
                                       ( #1 - SA / #(SSO cte) ) ) ))%ma
      pt SA in
  let true_entropy_part := _entropy_part cte SA t p in
  st ← for_range 2 (potential_t_pass SA pr true_entropy_part)
         {| pt_of := pt; dentropy_dt_of := dentropy_dt |};
  Ok (pt_of st).

(** [entropy_from_t(SA, t, t_type='pt')], the branch [t_from_entropy]
    calls; the literal pressure [0] is broadcast to the shape of [SA]. *)
Definition entropy_from_t (SA t : marray) : result marray :=
  let SA := clamp_negative SA in
  g ← _gibbs cte n0 n1 n0 SA t ((fun _ : mreal => Some 0) <$> SA);
  let entropy := mneg <$> (g : marray) in
  Ok entropy.

(** One pass of the loop of [t_from_entropy]: the second Newton step is
    bound to [t], and [pt] keeps the half-way value. *)
Definition t_from_entropy_pass (SA entropy : marray) (st : te_state)
    : result te_state :=
  let pt_old := te_pt st in
  e ← entropy_from_t SA pt_old;
  let dentropy := zip_with msub (e : marray) entropy in
  let pt :=
    map3 (fun pt_old dentropy dentropy_dt : mreal =>
            pt_old - dentropy / dentropy_dt)%ma
         pt_old dentropy (te_dentropy_dt st) in
  let ptm :=
    zip_with (fun pt pt_old : mreal => #0.5 * (pt + pt_old))%ma pt pt_old in
  let dentropy_dt := mneg <$> _gibbs_pt0_pt0 cte SA ptm in
  let t :=
    map3 (fun pt_old dentropy dentropy_dt : mreal =>
            pt_old - dentropy / dentropy_dt)%ma
         pt_old dentropy dentropy_dt in
  Ok {| te_pt := pt; te_dentropy_dt := dentropy_dt; te_t := Some t |}.

(** The state with which the loop of [t_from_entropy] starts. *)
Definition t_from_entropy_init (SA entropy : marray) : te_state :=
  let part1 := (fun SA : mreal => #1 - SA / #(SSO cte))%ma <$> SA in
  let part2 := (fun part1 : mreal => #1 - #0.05 * part1)%ma <$> part1 in
  let ent_SA :=
    (fun part1 : mreal =>
       (#(cp0 cte) / #(Kelvin cte)) * part1 * ( #1 - #1.01 * part1))%ma
    <$> part1 in
  let c :=
    map3 (fun entropy ent_SA part2 : mreal =>
            (entropy - ent_SA) * part2 / #(cp0 cte))%ma
         entropy ent_SA part2 in
  let pt := (fun c : mreal => #(Kelvin cte) * (mexp c - #1))%ma <$> c in
  let dentropy_dt :=
    zip_with (fun pt part2 : mreal =>
                #(cp0 cte) / ( (#(Kelvin cte) + pt) * part2))%ma pt part2 in
  {| te_pt := pt; te_dentropy_dt := dentropy_dt; te_t := None |}.


(** The corrector pass as the specification words it for both solvers:
    the Newton step re-applied from the pass's original estimate is the
    iterate of the next pass. *)
Definition corrector_pass_spec (SA entropy : marray) (st : te_state)
    : result te_state :=
  let pt_old := te_pt st in
  e ← entropy_from_t SA pt_old;
  let dentropy := zip_with msub (e : marray) entropy in
  let pt :=
    map3 (fun pt_old dentropy dentropy_dt : mreal =>
            pt_old - dentropy / dentropy_dt)%ma
         pt_old dentropy (te_dentropy_dt st) in
  let ptm :=
    zip_with (fun pt pt_old : mreal => #0.5 * (pt + pt_old))%ma pt pt_old in
  let dentropy_dt := mneg <$> _gibbs_pt0_pt0 cte SA ptm in
  let pt :=
    map3 (fun pt_old dentropy dentropy_dt : mreal =>
            pt_old - dentropy / dentropy_dt)%ma
         pt_old dentropy dentropy_dt in
  Ok {| te_pt := pt; te_dentropy_dt := dentropy_dt; te_t := Some pt |}.

End Solvers.
(** ** Name lookup and the Baltic overwrite of [SP_from_Sstar] *)

(** What a name can be bound to. *)
Inductive pyval : Type :=
  | VArray (a : marray)      (* a (masked) array of numbers *)
  | VIndex (m : list bool)   (* a boolean index array *)
  | VNoneType                (* the value [None] *)
  | VObject.                 (* a module, function or class *)

(** The names bound at the top level of [gibbs.py] (imports, functions,
    classes, and the names bound when it runs as a script). *)
Definition module_globals : gset string :=
  list_to_set
    [ "division"; "np"; "cte"; "os"; "cndr_from_SP"; "SP_from_cndr";
      "match_args_return"; "strip_mask"; "Dict2Struc"; "read_data";
      "_gibbs"; "_entropy_part"; "_gibbs_pt0_pt0"; "_entropy_part_zerop";
      "_enthalpy_SSO_0_CT25"; "_specvol_SSO_0_CT25"; "_SP_from_SA_Baltic";
      "_SA_from_SP_Baltic"; "_delta_SA"; "_dsa_add_barrier"; "_dsa_add_mean";
      "entropy"; "rho"; "cp"; "helmholtz_energy"; "internal_energy";
      "sound_speed"; "adiabatic_lapse_rate"; "chem_potential_relative";
      "specvol"; "conservative_t"; "potential_t"; "enthalpy";
      "chem_potential_water"; "chem_potential_salt"; "isochoric_heat_cap";
      "kappa"; "kappa_const_t"; "pot_rho"; "specvol_anom"; "alpha_wrt_t";
      "alpha_wrt_CT"; "alpha_wrt_pt"; "beta_const_t"; "beta_const_CT";
      "beta_const_pt"; "osmotic_coefficient"; "molality"; "ionic_strength";
      "CT_from_pt"; "pot_enthalpy_from_pt"; "pt_from_CT"; "t_from_CT";
      "pt0_from_t"; "t_from_entropy"; "entropy_from_t"; "z_from_p";
      "p_from_z"; "grav"; "distance"; "SA_from_SP"; "SA_from_Sstar";
      "SP_from_SA"; "Sstar_from_SA"; "SP_from_Sstar"; "Sstar_from_SP";
      "SA_Sstar_from_SP"; "SA_from_rho"; "Gibbs";
      "SA"; "t"; "p"; "STP"; "ptest" ].

(** Reading a name inside a function body: the function's own bindings
    first, then the module's; a name bound in neither raises. *)
Definition load_name (locals : gmap string pyval) (name : string)
    : result pyval :=
  match locals !! name with
  | Some v => Ok v
  | None =>
      if decide (name ∈ module_globals) then Ok VObject
      else Raise (NameError ("name '" +:+ name +:+ "' is not defined"))
  end.

(** [a[idx] = b[idx]] for a boolean index. *)
Definition overwrite (a b : marray) (idx : list bool) : marray :=
  map3 (fun (x y : mreal) (i : bool) => if i then y else x) a b idx.

(** [a[idx] = b[idx]] where [idx] is whatever the name was bound to. *)
Definition overwrite_at (a b : marray) (idx : pyval) : result marray :=
  match idx with
  | VIndex m => Ok (overwrite a b m)
  | _ => Raise (IndexError "arrays used as indices must be of integer (or boolean) type")
  end.

Section Salinity.

Variable cte : Constants.

(** The two collaborators of the salinity conversions: the anomaly lookup
    over the reference grid, and the Baltic formula, which answers [None]
    outside the Baltic Sea. *)
Variable _delta_SA : marray -> marray -> marray -> marray.
Variable _SP_from_SA_Baltic : marray -> marray -> marray -> option marray.

(** [~a.mask]. *)
Definition not_mask (a : marray) : list bool := negb <$> getmaskarray a.

(** [SP_from_Sstar(Sstar, p, lon, lat)]; the statement under
    [if SP_baltic is not None] reads the name [indsbaltic]. *)
Definition SP_from_Sstar (Sstar p lon lat : marray) : result marray :=
  let dSA := _delta_SA p lon lat in
  let SP :=
    zip_with (fun Sstar dSA : mreal =>
      (#35 / #(SSO cte)) * ( Sstar + #(r1 cte) * dSA ))%ma Sstar dSA in
  let SP_baltic := _SP_from_SA_Baltic Sstar lon lat in
  let locals : gmap string pyval :=
    <["SP_baltic" := from_option VArray VNoneType SP_baltic]>
    (<["SP" := VArray SP]>
    (<["dSA" := VArray dSA]>
    (<["lat" := VArray lat]>
    (<["lon" := VArray lon]>
    (<["p" := VArray p]>
    (<["Sstar" := VArray Sstar]> ∅)))))) in
  match SP_baltic with
  | Some SP_baltic =>
      indsbaltic ← load_name locals "indsbaltic";
      overwrite_at SP SP_baltic indsbaltic
  | None => Ok SP
  end.

(** [SP_from_SA(SA, p, lon, lat)], the sibling conversion, whose
    overwrite indexes with [~SP_baltic.mask]. *)
Definition SP_from_SA (SA p lon lat : marray) : result marray :=
  let dSA := _delta_SA p lon lat in
  let SP :=
    zip_with (fun SA dSA : mreal =>
      (#35 / #(SSO cte)) * ( SA - dSA ))%ma SA dSA in
  let SP_baltic := _SP_from_SA_Baltic SA lon lat in
  match SP_baltic with
  | Some SP_baltic =>
      overwrite_at SP SP_baltic (VIndex (not_mask SP_baltic))
  | None => Ok SP
  end.

End Salinity.
(** ** Pointwise reading of the engine and specification-side notions *)

(** The mask [_gibbs] puts on a position that holds [a], [b], [c] in
    [SA], [t], [p]. *)
Definition mask_at (nonzero_SA : bool) (a b c : mreal) : bool :=
  let a :=
    if nonzero_SA
    then a ≫= (fun d : R => if Rleb d 0 then None else Some d)
    else a in
  match a, b, c with
  | Some s, Some _, Some _ => Rltb s 0
  | _, _, _ => true
  end.

(** What [_gibbs] returns at such a position once the branch is chosen. *)
Definition gibbs_at (cte : Constants) (br : branch) (nonzero_SA : bool)
    (a b c : mreal) : mreal :=
  let a' :=
    if nonzero_SA
    then a ≫= (fun d : R => if Rleb d 0 then None else Some d)
    else a in
  let s := fill 0 a' in
  let t := fill 20 b in
  let p := fill 10 c in
  let o :=
    br nonzero_SA (Rltb 0 s) (sfac cte * s) (sqrt (sfac cte * s))
       (t * 0.025) (p * 1e-4) in
  if mask_at nonzero_SA a b c || all_masked o then None else Some (gibbs o).

(** The position [i] of the result of a call. *)
Definition result_at (r : result marray) (i : nat) : result (option mreal) :=
  match r with
  | Ok out => Ok (out !! i)
  | Raise e => Raise e
  end.

(** The derivative orders the specification lists as supported. *)
Definition supported_orders : list (Z * Z * Z) :=
  [ (0, 0, 0); (1, 0, 0); (0, 1, 0); (0, 0, 1); (1, 1, 0);
    (1, 0, 1); (0, 1, 1); (2, 0, 0); (0, 2, 0); (0, 0, 2) ]%Z.

Definition supported (ns nt npr : Z) : Prop :=
  (ns, nt, npr) ∈ supported_orders.

(** The orders that take a salinity derivative. *)
Definition salinity_orders : list (Z * Z * Z) :=
  [ (1, 0, 0); (1, 1, 0); (1, 0, 1); (2, 0, 0) ]%Z.

(** A batch holds a valid positive salinity. *)
Definition has_positive (SA : marray) : Prop :=
  exists (i : nat) (s : R), SA !! i = Some (Some s) /\ 0 < s.

(** No valid salinity of the batch is positive, and one at least is valid. *)
Definition all_nonpositive (SA : marray) : Prop :=
  (exists (i : nat) (s : R), SA !! i = Some (Some s)) /\
  (forall (i : nat) (s : R), SA !! i = Some (Some s) -> s <= 0).

(** Order (0,1,0) as the specification words it: both polynomials are
    evaluated, the logarithmic term where salinity is strictly positive,
    then combined and scaled. *)
Definition combine_and_scale_010 (cte : Constants) (SA t p : R) : R :=
  let x2 := sfac cte * SA in
  let x := sqrt x2 in
  let y := t * 0.025 in
  let z := p * 1e-4 in
  let g03 := G010.g03 y z in
  let g08 :=
    G010.g08 x2 x y z + (if Rltb 0 SA then G010.g08_log x2 x else 0) in
  (g03 + g08) * 0.025.

(** The potential-enthalpy residual: what the engine route
    [g000 - (273.15 + pt) * g010] leaves over the dedicated polynomial, as
    a polynomial in [x] and [y] (the term in [x^2 ln x] apart). *)
Definition pot_enthalpy_residual (x y : R) : R :=
  (37 / 40000000000000000) * (x ^ 0 * y ^ 0) +
  (-3 / 400000000000) * (x ^ 0 * y ^ 1) +
  (-7069 / 8000000000000000) * (x ^ 0 * y ^ 2) +
  (67 / 100000000000000) * (x ^ 0 * y ^ 3) +
  (11739 / 80000000000000000) * (x ^ 0 * y ^ 4) +
  (2023 / 80000000000000000) * (x ^ 0 * y ^ 5) +
  (-447 / 80000000000000000) * (x ^ 0 * y ^ 6) +
  (-3 / 160000000000000) * (x ^ 2 * y ^ 0) +
  (-163 / 100000000000000) * (x ^ 2 * y ^ 1) +
  (-211 / 800000000000000) * (x ^ 2 * y ^ 2) +
  (-317 / 2000000000000000) * (x ^ 2 * y ^ 3) +
  (461 / 5000000000000000) * (x ^ 2 * y ^ 4) +
  (49 / 40000000000000000) * (x ^ 2 * y ^ 5) +
  (3 / 1000000000000000) * (x ^ 2 * y ^ 6) +
  (103 / 400000000000000) * (x ^ 3 * y ^ 0) +
  (123 / 2000000000000000) * (x ^ 3 * y ^ 1) +
  (7 / 320000000000000) * (x ^ 3 * y ^ 2) +
  (13 / 40000000000000000) * (x ^ 3 * y ^ 3) +
  (3 / 5000000000000000) * (x ^ 3 * y ^ 4) +
  (-87 / 400000000000000) * (x ^ 4 * y ^ 0) +
  (-67 / 4000000000000000) * (x ^ 4 * y ^ 1) +
  (-8567 / 40000000000000000) * (x ^ 4 * y ^ 2) +
  (-29 / 500000000000000) * (x ^ 4 * y ^ 3) +
  (-31 / 4000000000000000) * (x ^ 4 * y ^ 4) +
  (1 / 500000000000000) * (x ^ 4 * y ^ 5) +
  (1 / 6250000000000) * (x ^ 5 * y ^ 0) +
  (33 / 1600000000000000) * (x ^ 6 * y ^ 0).

Definition pot_enthalpy_log_residual : R := 561 / 400000000000000.


(** What the helpers built on [strip_mask] return at a position that
    holds [a], [b] (and [c]) in their arguments. *)
Definition entropy_part_at (cte : Constants) (a b c : mreal) : mreal :=
  match a, b, c with
  | Some SA, Some t, Some p =>
      if Rltb SA 0 then None
      else
        let x2 := sfac cte * SA in
        let x := sqrt x2 in
        let y := t * 0.025 in
        let z := p * 1e-4 in
        Some (-( EntropyPart.g03 y z + EntropyPart.g08 x2 x y z ) * 0.025)
  | _, _, _ => None
  end.

Definition gibbs_pt0_pt0_at (cte : Constants) (a b : mreal) : mreal :=
  match a, b with
  | Some SA, Some pt0 =>
      if Rltb SA 0 then None
      else
        let x2 := sfac cte * SA in
        let x := sqrt x2 in
        let y := pt0 * 0.025 in
        Some (( GibbsPt0Pt0.g03 y + GibbsPt0Pt0.g08 x2 x y ) * 0.000625)
  | _, _ => None
  end.

Definition pot_enthalpy_at (cte : Constants) (a b : mreal) : mreal :=
  match a, b with
  | Some SA, Some pt =>
      if Rltb SA 0 then None
      else
        let x2 := sfac cte * SA in
        let x := sqrt x2 in
        let y := pt * 0.025 in
        Some (PotEnthalpy.pot_enthalpy x2 x y)
  | _, _ => None
  end.

Definition CT_at (cte : Constants) (a b : mreal) : mreal :=
  (pot_enthalpy_at cte a b / #(cp0 cte))%ma.

(** The salinity-only entropy term [ent_SA] of [t_from_entropy] at
    SA = 0 with the TEOS-10 constants (about -0.146 J/(kg K)); given as
    the entropy, it makes the first estimate 0 degrees C. *)
Definition ent_SA_fresh : R :=
  (cp0 teos10 / Kelvin teos10) * (1 - 0 / SSO teos10)
  * (1 - 1.01 * (1 - 0 / SSO teos10)).
(** ** Polynomials of the further helpers *)

Module EntropyPartZerop.
Definition g03 (y : R) : R :=
  y * ( -24715.571866078 + y * ( 2210.2236124548363 +
  y * ( -592.743745734632 + y * ( 290.12956292128547 +
  y * ( -113.90630790850321 + y * 21.35571525415769) ) ) ) ).

Definition g08 (x2 x y : R) : R :=
  x2 * ( x * ( x * ( y * ( -137.1145018408982 + y *
  ( 148.10030845687618 +
  y * ( -68.5590309679152 + 12.4848504784754 * y ) ) ) ) +
  y * ( -86.1329351956084 + y * ( -30.0682112585625 + y *
  3.50240264723578 ) ) ) +
  y * ( 1760.062705994408 + y * ( -675.802947790203 +
  y * ( 365.7041791005036 + y * ( -108.30162043765552 +
  12.78101825083098 * y ) ) ) ) ).

End EntropyPartZerop.

Module ChemPotentialWater.
Definition g03_g (y z : R) : R :=
  ( 101.342743139674 + z * ( 100015.695367145 +
  z * ( -2544.5765420363 + z * ( 284.517778446287 +
  z * ( -33.3146754253611 + ( 4.20263108803084 -
  0.546428511471039 * z ) * z ) ) ) ) +
  y * ( 5.90578347909402 + z * ( -270.983805184062 +
  z * ( 776.153611613101 + z * ( -196.51255088122 +
  ( 28.9796526294175 - 2.13290083518327 * z ) * z ) ) ) +
  y * ( -12357.785933039 + z * ( 1455.0364540468 +
  z * ( -756.558385769359 + z * ( 273.479662323528 +
  z * ( -55.5604063817218 + 4.34420671917197 * z ) ) ) ) +
  y * ( 736.741204151612 + z * ( -672.50778314507 +
  z * ( 499.360390819152 + z * ( -239.545330654412 +
  ( 48.8012518593872 - 1.66307106208905 * z ) * z ) ) ) +
  y * ( -148.185936433658 + z * ( 397.968445406972 +
  z * ( -301.815380621876 + ( 152.196371733841 -
  26.3748377232802 * z ) * z ) ) +
  y * ( 58.0259125842571 + z * ( -194.618310617595 +
  z * ( 120.520654902025 + z * ( -55.2723052340152 +
  6.48190668077221 * z ) ) ) +
  y * ( -18.9843846514172 + y * ( 3.05081646487967 -
  9.63108119393062 * z ) +
  z * ( 63.5113936641785 + z * ( -22.2897317140459 +
  8.17060541818112 * z ) ) ) ) ) ) ) ) ).

Definition g08_g (x2 x y z : R) : R :=
  x2 * ( 1416.27648484197 +
  x * ( -2432.14662381794 + x * ( 2025.80115603697 +
  y * ( 543.835333000098 + y * ( -68.5572509204491 +
  y * ( 49.3667694856254 + y * ( -17.1397577419788 +
  2.49697009569508 * y ) ) ) - 22.6683558512829 * z ) +
  x * ( -1091.66841042967 - 196.028306689776 * y +
  x * ( 374.60123787784 - 48.5891069025409 * x +
  36.7571622995805 * y ) + 36.0284195611086 * z ) +
  z * ( -54.7919133532887 + ( -4.08193978912261 -
  30.1755111971161 * z ) * z ) ) +
  z * ( 199.459603073901 + z * ( -52.2940909281335 +
  ( 68.0444942726459 - 3.41251932441282 * z ) * z ) ) +
  y * ( -493.407510141682 + z * ( -175.292041186547 +
  ( 83.1923927801819 - 29.483064349429 * z ) * z ) +
  y * ( -43.0664675978042 + z * ( 383.058066002476 +
  z * ( -54.1917262517112 + 25.6398487389914 * z ) ) +
  y * ( -10.0227370861875 - 460.319931801257 * z + y *
  ( 0.875600661808945 + 234.565187611355 * z ) ) ) ) ) +
  y * ( 168.072408311545 ) ).

Definition g_SA_part (x y z : R) : R :=
  ( 8645.36753595126 +
  x * ( -7296.43987145382 + x * ( 8103.20462414788 +
  y * ( 2175.341332000392 + y * ( -274.2290036817964 +
  y * ( 197.4670779425016 + y * ( -68.5590309679152 +
  9.98788038278032 * y ) ) ) - 90.6734234051316 * z ) +
  x * ( -5458.34205214835 - 980.14153344888 * y +
  x * ( 2247.60742726704 - 340.1237483177863 * x +
  220.542973797483 * y ) + 180.142097805543 * z ) +
  z * ( -219.1676534131548 + ( -16.32775915649044 -
  120.7020447884644 * z ) * z ) ) +
  z * ( 598.378809221703 + z * ( -156.8822727844005 +
  ( 204.1334828179377 - 10.23755797323846 * z ) * z ) ) +
  y * ( -1480.222530425046 + z * ( -525.876123559641 +
  ( 249.57717834054571 - 88.449193048287 * z ) * z ) +
  y * ( -129.1994027934126 + z * ( 1149.174198007428 +
  z * ( -162.5751787551336 + 76.9195462169742 * z ) ) +
  y * ( -30.0682112585625 - 1380.9597954037708 * z + y *
  ( 2.626801985426835 + 703.695562834065 * z ) ) ) ) ) +
  y * ( 1187.3715515697959) ).

End ChemPotentialWater.

(** ** Further entries of the constants table *)

(** Three more entries of the constants module, which is not among the
    sources: like [Constants] they are a parameter of the functions that
    read them, and [teos10_more] holds the published TEOS-10 values for
    closed numerical instances. *)
Record MoreConstants : Type := {
  db2Pascal : R;  (* Pa per dbar *)
  gamma : R;      (* vertical gradient of gravity *)
  M_S : R         (* mole-weighted average atomic weight of sea salt *)
}.

Definition teos10_more : MoreConstants :=
  {| db2Pascal := 1e4; gamma := 2.26e-7; M_S := 0.0314038218 |}.

(** ** Further functions of masked values

    [np.ma.sqrt] masks a negative argument; [np.sqrt] and [np.log] on a
    plain array leave a NaN or an infinity outside their domain, which is
    [None] as well. *)
Definition msqrt (a : mreal) : mreal :=
  x ← a; if Rltb x 0 then None else Some (sqrt x).
Definition mln (a : mreal) : mreal :=
  x ← a; if Rltb 0 x then Some (ln x) else None.
Definition msin (a : mreal) : mreal := x ← a; Some (sin x).
Definition mpow (a : mreal) (n : nat) : mreal := x ← a; Some (x ^ n).
Definition deg2rad (a : mreal) : mreal := x ← a; Some (x * (PI / 180)).

(** [np.ma.array(data, mask=mask)] over data that may hold a NaN. *)
Definition ma_array_nan (data : marray) (mask : list bool) : marray :=
  zip_with (fun (d : mreal) (m : bool) => if m then None else d) data mask.

(** [a[idx] = np.ma.masked] for a boolean index. *)
Definition mask_where (a : marray) (idx : list bool) : marray :=
  zip_with (fun (x : mreal) (i : bool) => if i then None else x) a idx.

(** [SA < 0] as an index: false at a masked position. *)
Definition negative_index (SA : marray) : list bool :=
  (fun m : mreal =>
     match m with Some d => Rltb d 0 | None => false end) <$> SA.

Section Derived.

Variable cte : Constants.
Variable more : MoreConstants.

(** [_entropy_part_zerop(SA, pt0)]. *)
Definition _entropy_part_zerop (SA pt0 : marray) : marray :=
  let '(SA, pt0, mask) := strip_mask2 SA pt0 in
  let entropy_part_zerop :=
    zip_with (fun SA pt0 : R =>
      let x2 := sfac cte * SA in
      let x := sqrt x2 in
      let y := pt0 * 0.025 in
      let g03 := EntropyPartZerop.g03 y in
      let g08 := EntropyPartZerop.g08 x2 x y in
      -( g03 + g08 ) * 0.025) SA pt0 in
  ma_array entropy_part_zerop mask.

(** ** Thermodynamic quantities derived from the engine *)

(** [entropy(SA, t, p)]. *)
Definition entropy (SA t p : marray) : result marray :=
  g ← _gibbs cte n0 n1 n0 SA t p;
  let entropy := mneg <$> (g : marray) in
  Ok entropy.

(** [rho(SA, t, p)]. *)
Definition rho (SA t p : marray) : result marray :=
  g ← _gibbs cte n0 n0 n1 SA t p;
  let rho := (fun g : mreal => #1 / g)%ma <$> (g : marray) in
  Ok rho.

(** [cp(SA, t, p)]. *)
Definition cp (SA t p : marray) : result marray :=
  g ← _gibbs cte n0 n2 n0 SA t p;
  let cp :=
    zip_with (fun t g : mreal => -( t + #(Kelvin cte) ) * g)%ma t g in
  Ok cp.

(** [helmholtz_energy(SA, t, p)]. *)
Definition helmholtz_energy (SA t p : marray) : result marray :=
  g000 ← _gibbs cte n0 n0 n0 SA t p;
  g001 ← _gibbs cte n0 n0 n1 SA t p;
  let helmholtz_energy :=
    map3 (fun g000 p g001 : mreal =>
            ( g000 - ( #(db2Pascal more) * p + #101325 ) * g001 ))%ma
         g000 p g001 in
  Ok helmholtz_energy.

(** [internal_energy(SA, t, p)]. *)
Definition internal_energy (SA t p : marray) : result marray :=
  g000 ← _gibbs cte n0 n0 n0 SA t p;
  g010 ← _gibbs cte n0 n1 n0 SA t p;
  g001 ← _gibbs cte n0 n0 n1 SA t p;
  let first :=
    map3 (fun g000 t g010 : mreal => g000 - (#(Kelvin cte) + t) * g010)%ma
         g000 t g010 in
  let internal_energy :=
    map3 (fun first p g001 : mreal =>
            first - ( #(db2Pascal more) * p + #101325 ) * g001)%ma
         first p g001 in
  Ok internal_energy.

(** [sound_speed(SA, t, p)]. *)
Definition sound_speed (SA t p : marray) : result marray :=
  g020 ← _gibbs cte n0 n2 n0 SA t p;
  g011 ← _gibbs cte n0 n1 n1 SA t p;
  g001 ← _gibbs cte n0 n0 n1 SA t p;
  g002 ← _gibbs cte n0 n0 n2 SA t p;
  let sound_speed :=
    map4 (fun g020 g011 g001 g002 : mreal =>
            g001 * msqrt ( g020 / ( mpow g011 2 - g020 * g002 ) ))%ma
         g020 g011 g001 g002 in
  Ok sound_speed.

(** [adiabatic_lapse_rate(SA, t, p)]. *)
Definition adiabatic_lapse_rate (SA t p : marray) : result marray :=
  g011 ← _gibbs cte n0 n1 n1 SA t p;
  g020 ← _gibbs cte n0 n2 n0 SA t p;
  let adiabatic_lapse_rate :=
    zip_with (fun g011 g020 : mreal => - g011 / g020)%ma g011 g020 in
  Ok adiabatic_lapse_rate.

(** [chem_potential_relative(SA, t, p)]. *)
Definition chem_potential_relative (SA t p : marray) : result marray :=
  _gibbs cte n1 n0 n0 SA t p.

(** [specvol(SA, t, p)]. *)
Definition specvol (SA t p : marray) : result marray :=
  _gibbs cte n0 n0 n1 SA t p.

(** [enthalpy(SA, t, p)]. *)
Definition enthalpy (SA t p : marray) : result marray :=
  g000 ← _gibbs cte n0 n0 n0 SA t p;
  g010 ← _gibbs cte n0 n1 n0 SA t p;
  let enthalpy :=
    map3 (fun g000 t g010 : mreal =>
            g000 - (t + #(Kelvin cte)) * g010)%ma g000 t g010 in
  Ok enthalpy.

(** [chem_potential_water(SA, t, p)]. *)
Definition chem_potential_water (SA t p : marray) : marray :=
  let '(SA, t, p, mask) := strip_mask3 SA t p in
  let chem_potential_water :=
    map3 (fun SA t p : R =>
      let x2 := sfac cte * SA in
      let x := sqrt x2 in
      let y := t * 0.025 in
      let z := p * 1e-4 in
      let g03_g := ChemPotentialWater.g03_g y z in
      let g08_g := ChemPotentialWater.g08_g x2 x y z in
      let g_SA_part := ChemPotentialWater.g_SA_part x y z in
      g03_g + g08_g - 0.5 * sfac cte * SA * g_SA_part) SA t p in
  ma_array chem_potential_water mask.

(** [chem_potential_salt(SA, t, p)]. *)
Definition chem_potential_salt (SA t p : marray) : result marray :=
  r ← chem_potential_relative SA t p;
  let chem_potential_salt :=
    zip_with madd (r : marray) (chem_potential_water SA t p) in
  Ok chem_potential_salt.

(** [isochoric_heat_cap(SA, t, p)]. *)
Definition isochoric_heat_cap (SA t p : marray) : result marray :=
  g020 ← _gibbs cte n0 n2 n0 SA t p;
  g011 ← _gibbs cte n0 n1 n1 SA t p;
  g002 ← _gibbs cte n0 n0 n2 SA t p;
  let isochoric_heat_cap :=
    map4 (fun t g020 g011 g002 : mreal =>
            -(#(Kelvin cte) + t) * (g020 - g011 * g011 / g002))%ma
         t g020 g011 g002 in
  Ok isochoric_heat_cap.

(** [kappa(SA, t, p)]. *)
Definition kappa (SA t p : marray) : result marray :=
  g020 ← _gibbs cte n0 n2 n0 SA t p;
  g011 ← _gibbs cte n0 n1 n1 SA t p;
  g002 ← _gibbs cte n0 n0 n2 SA t p;
  g001 ← _gibbs cte n0 n0 n1 SA t p;
  let kappa :=
    map4 (fun g020 g011 g002 g001 : mreal =>
            ( g011 * g011 - g020 * g002 ) / ( g001 * g020 ))%ma
         g020 g011 g002 g001 in
  Ok kappa.

(** [kappa_const_t(SA, t, p)]. *)
Definition kappa_const_t (SA t p : marray) : result marray :=
  g002 ← _gibbs cte n0 n0 n2 SA t p;
  g001 ← _gibbs cte n0 n0 n1 SA t p;
  let kappa := zip_with (fun g002 g001 : mreal => - g002 / g001)%ma g002 g001 in
  Ok kappa.

(** [alpha_wrt_t(SA, t, p)]. *)
Definition alpha_wrt_t (SA t p : marray) : result marray :=
  g011 ← _gibbs cte n0 n1 n1 SA t p;
  g001 ← _gibbs cte n0 n0 n1 SA t p;
  let alpha_wrt_t := zip_with mdiv (g011 : marray) (g001 : marray) in
  Ok alpha_wrt_t.

(** [molality(SA)]. *)
Definition molality (SA : marray) : marray :=
  let molal :=
    (fun SA : mreal => SA / (#(M_S more) * ( #1000 - SA ) ))%ma <$> SA in
  mask_where molal (negative_index SA).

(** [ionic_strength(SA)]. *)
Definition ionic_strength (SA : marray) : marray :=
  let Z_2 := 1.2452898 in
  let molal := molality SA in
  (fun molal : mreal => #0.5 * #Z_2 * molal)%ma <$> molal.

(** ** Potential temperature referred to the surface *)

(** One pass of the loop of [pt0_from_t]. *)
Definition pt0_from_t_pass (SA true_entropy_part : marray) (st : pt_state)
    : pt_state :=
  let pt0_old := pt_of st in
  let dentropy :=
    zip_with msub (_entropy_part_zerop SA pt0_old) true_entropy_part in
  let pt0 :=
    map3 (fun pt0_old dentropy dentropy_dt : mreal =>
            pt0_old - dentropy / dentropy_dt)%ma
         pt0_old dentropy (dentropy_dt_of st) in
  let pt0m :=
    zip_with (fun pt0 pt0_old : mreal => #0.5 * (pt0 + pt0_old))%ma
      pt0 pt0_old in
  let dentropy_dt := mneg <$> _gibbs_pt0_pt0 cte SA pt0m in
  let pt0 :=
    map3 (fun pt0_old dentropy dentropy_dt : mreal =>
            pt0_old - dentropy / dentropy_dt)%ma
         pt0_old dentropy dentropy_dt in
  {| pt_of := pt0; dentropy_dt_of := dentropy_dt |}.

(** [pt0_from_t(SA, t, p)].  The quotient [35. / cte.SSO] is one of
    Python floats, which raises for a zero divisor; the function is
    modelled for a table with [SSO <> 0], which the theorems about it
    assume.  Negative salinities are not clamped here: the helpers mask
    them. *)
Definition pt0_from_t (SA t p : marray) : marray :=
  let s1 := (fun SA : mreal => SA * #(35 / SSO cte))%ma <$> SA in
  let pt0 :=
    map3 (fun t p s1 : mreal =>
      t + p * ( #8.65483913395442e-6 -
      s1 * #1.41636299744881e-6 -
      p * #7.38286467135737e-9 +
      t * ( #(-8.38241357039698e-6) +
      s1 * #2.83933368585534e-8 +
      t * #1.77803965218656e-8 +
      p * #1.71155619208233e-10 ) ))%ma t p s1 in
  let dentropy_dt :=
    zip_with (fun pt0 SA : mreal =>
      #(cp0 cte) / ( (#(Kelvin cte) + pt0) * ( #1 - #0.05 *
                                        ( #1 - SA / #(SSO cte) ) ) ))%ma
      pt0 SA in
  let true_entropy_part := _entropy_part cte SA t p in
  let st :=
    Nat.iter 2 (pt0_from_t_pass SA true_entropy_part)
      {| pt_of := pt0; dentropy_dt_of := dentropy_dt |} in
  pt_of st.

(** ** Height, pressure and gravity *)

(** [_enthalpy_SSO_0_CT25(p)]. *)
Definition _enthalpy_SSO_0_CT25 (p : marray) : marray :=
  let mask := getmaskarray p in
  let p := filled p 0 in
  let SSO := SSO cte in
  let a0 :=
    (#1 + #SSO * (#2.0777716085618458e-3 + msqrt #SSO *
    #3.4688210757917340e-6))%ma in
  let a1 := 6.8314629554123324e-6 in
  let b0 := 9.9984380290708214e2 + SSO * (2.8925731541277653e0 + SSO *
    1.9457531751183059e-3) in
  let b1 := 0.5 * (1.1930681818531748e-2 + SSO * 5.9355685925035653e-6) in
  let b2 := -2.5943389807429039e-8 in
  let A := (#b1 - msqrt #(b1 ^ 2 - b0 * b2))%ma in
  let B := (#b1 + msqrt #(b1 ^ 2 - b0 * b2))%ma in
  let part := (( a0 * #b2 - #a1 * #b1) / (#b2 * (B - A) ))%ma in
  let enthalpy_SSO_0_CT25 :=
    (fun p : R =>
       #(db2Pascal more) * ( #( a1 / (2 * b2) ) *
       mln ( #1 + #p * ( #2 * #b1 + #b2 * #p ) / #b0 ) + part *
       mln ( #1 + ( #b2 * #p * (B - A) ) / (A * (B + #b2 * #p ) ) ) ))%ma
    <$> p in
  ma_array_nan enthalpy_SSO_0_CT25 mask.

(** [_specvol_SSO_0_CT25(p)] on the masked array [p_from_z] hands it. *)
Definition _specvol_SSO_0_CT25 (p : marray) : marray :=
  let SSO := SSO cte in
  (fun p : mreal =>
     ( (#1.00000000e+00 + #SSO * ( #2.0777716085618458e-003 +
     msqrt #SSO * #3.4688210757917340e-006) + p * #6.8314629554123324e-006) /
     (#9.9984380290708214e+002 + #SSO * ( #2.8925731541277653e+000 + #SSO *
     #1.9457531751183059e-003) + p * ( #1.1930681818531748e-002 + #SSO *
     #5.9355685925035653e-006 + p * #(-2.5943389807429039e-008)) ) ))%ma
  <$> p.

(** [z_from_p(p, lat)]. *)
Definition z_from_p (p lat : marray) : marray :=
  let X := (fun lat : mreal => msin (deg2rad lat)) <$> lat in
  let sin2 := (fun X : mreal => mpow X 2) <$> X in
  let B :=
    (fun sin2 : mreal =>
       #9.780327 * ( #1.0 + ( #5.2792e-3 + ( #2.32e-5 * sin2 ) ) * sin2 ))%ma
    <$> sin2 in
  let A := (fun B : mreal => #(-0.5) * #(gamma more) * B)%ma <$> B in
  let C := _enthalpy_SSO_0_CT25 p in
  map3 (fun A B C : mreal =>
          #(-2) * C / ( B + msqrt ( mpow B 2 - #4 * A * C ) ))%ma A B C.

(** [p_from_z(z, lat)]. *)
Definition p_from_z (z lat : marray) : marray :=
  let X := (fun lat : mreal => msin (deg2rad lat)) <$> lat in
  let sin2 := (fun X : mreal => mpow X 2) <$> X in
  let gs :=
    (fun sin2 : mreal =>
       #9.780327 * ( #1.0 + ( #5.2792e-3 + ( #2.32e-5 * sin2 ) ) * sin2 ))%ma
    <$> sin2 in
  let c1 := (fun sin2 : mreal => #5.25e-3 * sin2 + #5.92e-3)%ma <$> sin2 in
  let p :=
    zip_with (fun z c1 : mreal =>
      #(-2) * z / ( (#1 - c1) + msqrt ( (#1 - c1) * (#1 - c1)
                                         + #8.84e-6 * z ) ))%ma z c1 in
  let df_dp :=
    (fun v : mreal => #(db2Pascal more) * v)%ma <$> _specvol_SSO_0_CT25 p in
  let f :=
    map3 (fun h gs z : mreal =>
            h + gs * ( z - #0.5 * #(gamma more) * ( mpow z 2 ) ))%ma
         (_enthalpy_SSO_0_CT25 p) gs z in
  let p_old := p in
  let p :=
    map3 (fun p_old f df_dp : mreal => p_old - f / df_dp)%ma
         p_old f df_dp in
  let pm := zip_with (fun p p_old : mreal => #0.5 * (p + p_old))%ma p p_old in
  let df_dp :=
    (fun v : mreal => #(db2Pascal more) * v)%ma <$> _specvol_SSO_0_CT25 pm in
  map3 (fun p_old f df_dp : mreal => p_old - f / df_dp)%ma p_old f df_dp.

(** [grav(lat, p)]; [p] omitted is the literal [0], broadcast to the
    shape of [lat]. *)
Definition grav (lat : marray) (p : option marray) : marray :=
  let p := default ((fun _ : mreal => Some 0) <$> lat) p in
  let X := (fun lat : mreal => msin (deg2rad lat)) <$> lat in
  let sin2 := (fun X : mreal => mpow X 2) <$> X in
  let gs :=
    (fun sin2 : mreal =>
       #9.780327 * ( #1.0 + ( #5.2792e-3 + ( #2.32e-5 * sin2 ) ) * sin2))%ma
    <$> sin2 in
  let z := z_from_p p lat in
  zip_with (fun gs z : mreal => gs * (#1 - #(gamma more) * z))%ma gs z.

End Derived.

(** ** Conversions between the salinity variables *)

Section Conversions.

Variable cte : Constants.

(** The collaborators: the anomaly lookup over the reference grid and the
    Baltic formula for Practical Salinity, which answers [None] outside
    the Baltic Sea.  [np.broadcast_arrays] hands plain arrays on, in which
    an undefined position is a NaN; it goes through the arithmetic as a
    masked one does. *)
Variable _delta_SA : marray -> marray -> marray -> marray.
Variable _SA_from_SP_Baltic : marray -> marray -> marray -> option marray.

(** [SA_from_SP(SP, p, lon, lat)]. *)
Definition SA_from_SP (SP p lon lat : marray) : marray :=
  let SP := clamp_negative SP in
  let dSA := _delta_SA p lon lat in
  let SA :=
    zip_with (fun SP dSA : mreal => #( SSO cte / 35 ) * SP + dSA)%ma
      SP dSA in
  let SA_baltic := _SA_from_SP_Baltic SP lon lat in
  match SA_baltic with
  | Some SA_baltic => overwrite SA SA_baltic (not_mask SA_baltic)
  | None => SA
  end.

(** [SA_from_Sstar(Sstar, p, lon, lat)]. *)
Definition SA_from_Sstar (Sstar p lon lat : marray) : marray :=
  let dSA := _delta_SA p lon lat in
  zip_with (fun Sstar dSA : mreal => Sstar + #( 1 + r1 cte ) * dSA)%ma
    Sstar dSA.

(** [Sstar_from_SA(SA, p, lon, lat)]. *)
Definition Sstar_from_SA (SA p lon lat : marray) : marray :=
  let dSA := _delta_SA p lon lat in
  zip_with (fun SA dSA : mreal => SA - #( 1 + r1 cte ) * dSA)%ma SA dSA.

(** [Sstar_from_SP(SP, p, lon, lat)]. *)
Definition Sstar_from_SP (SP p lon lat : marray) : marray :=
  let SP := clamp_negative SP in
  let dSA := _delta_SA p lon lat in
  let Sstar :=
    zip_with (fun SP dSA : mreal =>
                #(SSO cte / 35) * SP - #(r1 cte) * dSA)%ma SP dSA in
  let Sstar_baltic := _SA_from_SP_Baltic SP lon lat in
  match Sstar_baltic with
  | Some Sstar_baltic =>
      overwrite Sstar Sstar_baltic (not_mask Sstar_baltic)
  | None => Sstar
  end.

(** [SA_Sstar_from_SP(SP, p, lon, lat)]. *)
Definition SA_Sstar_from_SP (SP p lon lat : marray) : marray * marray :=
  let SP := clamp_negative SP in
  let dSA := _delta_SA p lon lat in
  let SA :=
    zip_with (fun SP dSA : mreal => #( SSO cte / 35 ) * SP + dSA)%ma
      SP dSA in
  let Sstar :=
    zip_with (fun SP dSA : mreal =>
                #( SSO cte / 35 ) * SP - #(r1 cte) * dSA)%ma SP dSA in
  let SA_baltic := _SA_from_SP_Baltic SP lon lat in
  match SA_baltic with
  | Some SA_baltic =>
      let indsbaltic := not_mask SA_baltic in
      let SA := overwrite SA SA_baltic indsbaltic in
      let Sstar := overwrite Sstar SA_baltic indsbaltic in
      (SA, Sstar)
  | None => (SA, Sstar)
  end.

End Conversions.

(** ** Pointwise reading of the further helpers *)

Definition entropy_part_zerop_at (cte : Constants) (a b : mreal) : mreal :=
  match a, b with
  | Some SA, Some pt0 =>
      if Rltb SA 0 then None
      else
        let x2 := sfac cte * SA in
        let x := sqrt x2 in
        let y := pt0 * 0.025 in
        Some (-( EntropyPartZerop.g03 y + EntropyPartZerop.g08 x2 x y )
              * 0.025)
  | _, _ => None
  end.

Definition chem_potential_water_at (cte : Constants) (a b c : mreal)
    : mreal :=
  match a, b, c with
  | Some SA, Some t, Some p =>
      if Rltb SA 0 then None
      else
        let x2 := sfac cte * SA in
        let x := sqrt x2 in
        let y := t * 0.025 in
        let z := p * 1e-4 in
        Some (ChemPotentialWater.g03_g y z + ChemPotentialWater.g08_g x2 x y z
              - 0.5 * sfac cte * SA * ChemPotentialWater.g_SA_part x y z)
  | _, _, _ => None
  end.

(** A position holds a number. *)
Definition defined_at (a : marray) (i : nat) : Prop :=
  exists v : R, a !! i = Some (Some v).

(** Surface gravity at a latitude given in degrees. *)
Definition gs_at (lat : R) : R :=
  let sin2 := sin (lat * (PI / 180)) ^ 2 in
  9.780327 * ( 1.0 + ( 5.2792e-3 + ( 2.32e-5 * sin2 ) ) * sin2 ).

(** Collaborators for closed instances of the salinity conversions: an
    anomaly of 0.002 g/kg everywhere, a place outside the Baltic Sea, and
    a Baltic formula that answers 7.5 g/kg everywhere. *)
Definition uniform_anomaly (p lon lat : marray) : marray :=
  (fun _ : mreal => Some 0.002) <$> p.

Definition open_ocean (S lon lat : marray) : option marray := None.

Definition baltic_everywhere (SP lon lat : marray) : option marray :=
  Some ((fun _ : mreal => Some 7.5) <$> SP).
(** * Properties *)

(** ** Comparisons and array lookups *)

Lemma Rleb_true (a b : R) : a <= b -> Rleb a b = true.
Proof. intros H. unfold Rleb. apply bool_decide_eq_true_2. exact H. Qed.

Lemma Rleb_false (a b : R) : b < a -> Rleb a b = false.
Proof. intros H. unfold Rleb. apply bool_decide_eq_false_2. lra. Qed.

Lemma Rltb_true (a b : R) : a < b -> Rltb a b = true.
Proof. intros H. unfold Rltb. apply bool_decide_eq_true_2. exact H. Qed.

Lemma Rltb_false (a b : R) : b <= a -> Rltb a b = false.
Proof. intros H. unfold Rltb. apply bool_decide_eq_false_2. lra. Qed.

Lemma Rltb_0_0 : Rltb 0 0 = false.
Proof. apply Rltb_false. lra. Qed.

Lemma Rleb_0_0 : Rleb 0 0 = true.
Proof. apply Rleb_true. lra. Qed.

Lemma zip_with_lookup {A B C : Type} (f : A -> B -> C)
    (a : list A) (b : list B) (i : nat) (x : A) (y : B) :
  a !! i = Some x -> b !! i = Some y -> zip_with f a b !! i = Some (f x y).
Proof. intros Ha Hb. rewrite lookup_zip_with, Ha, Hb. reflexivity. Qed.

Lemma fmap_lookup {A B : Type} (f : A -> B) (a : list A) (i : nat) (x : A) :
  a !! i = Some x -> (f <$> a) !! i = Some (f x).
Proof. intros Ha. rewrite list_lookup_fmap, Ha. reflexivity. Qed.

Lemma map3_lookup {A B C D : Type} (f : A -> B -> C -> D)
    (a : list A) (b : list B) (c : list C) (i : nat) (x : A) (y : B) (z : C) :
  a !! i = Some x -> b !! i = Some y -> c !! i = Some z ->
  map3 f a b c !! i = Some (f x y z).
Proof.
  intros Ha Hb Hc. unfold map3.
  rewrite !lookup_zip_with, Ha, Hb, Hc. reflexivity.
Qed.


Lemma forallb_lookup_false {A : Type} (f : A -> bool) (l : list A)
    (i : nat) (x : A) :
  l !! i = Some x -> f x = false -> forallb f l = false.
Proof.
  revert i. induction l as [|y l IH]; intros [|i] Hl Hf; simpl in *;
    try discriminate.
  - injection Hl as ->. rewrite Hf. reflexivity.
  - rewrite (IH i Hl Hf). apply andb_false_r.
Qed.

Lemma forallb_lookup_true {A : Type} (f : A -> bool) (l : list A) :
  (forall i x, l !! i = Some x -> f x = true) -> forallb f l = true.
Proof.
  induction l as [|y l IH]; intros H; simpl; [reflexivity|].
  rewrite (H 0%nat y eq_refl), IH; [reflexivity|].
  intros i x Hi. exact (H (S i) x Hi).
Qed.

(** ** The flag [nonzero_SA] *)

Lemma nonzero_SA_of_positive (SA : marray) :
  has_positive SA -> nonzero_SA_of SA = true.
Proof.
  intros (i & s & Hi & Hs). unfold nonzero_SA_of.
  assert (single_nonpos SA = false) as ->.
  { destruct SA as [|[d|] [|? ?]]; try reflexivity. simpl.
    destruct i as [|i]; simpl in Hi; [|discriminate].
    injection Hi as ->. apply Rleb_false, Hs. }
  unfold ma_all_nonpos.
  rewrite (forallb_lookup_false _ SA i (Some s) Hi eq_refl).
  rewrite (forallb_lookup_false _ SA i (Some s) Hi); [reflexivity|].
  apply Rleb_false, Hs.
Qed.

Lemma nonzero_SA_of_nonpositive (SA : marray) :
  all_nonpositive SA -> nonzero_SA_of SA = false.
Proof.
  intros [(i & s & Hi) Hall]. unfold nonzero_SA_of.
  assert (ma_all_nonpos SA = true) as ->.
  { unfold ma_all_nonpos.
    rewrite (forallb_lookup_false _ SA i (Some s) Hi eq_refl).
    apply forallb_lookup_true. intros j [d|] Hj; [|reflexivity].
    apply Rleb_true, (Hall j d Hj). }
  rewrite orb_true_r. reflexivity.
Qed.

Lemma positive_or_not (SA : marray) :
  has_positive SA \/
  (forall (i : nat) (s : R), SA !! i = Some (Some s) -> s <= 0).
Proof.
  induction SA as [|m SA [IH|IH]].
  - right. intros i s H. destruct i; discriminate.
  - left. destruct IH as (i & s & Hi & Hs). exists (S i), s. split; assumption.
  - destruct m as [d|].
    + destruct (Rlt_dec 0 d) as [Hd|Hd].
      * left. exists 0%nat, d. split; [reflexivity|exact Hd].
      * right. intros [|i] s H; simpl in H.
        -- injection H as <-. lra.
        -- exact (IH i s H).
    + right. intros [|i] s H; simpl in H; [discriminate|exact (IH i s H)].
Qed.

Lemma nonzero_SA_of_valid (SA : marray) (i : nat) (s : R) :
  SA !! i = Some (Some s) ->
  nonzero_SA_of SA = true <-> has_positive SA.
Proof.
  intros Hi. split; [|apply nonzero_SA_of_positive].
  intros Hnz. destruct (positive_or_not SA) as [H|H]; [exact H|].
  rewrite nonzero_SA_of_nonpositive in Hnz; [discriminate|].
  split; [exists i, s; exact Hi|exact H].
Qed.

Lemma nonzero_SA_of_single (s : R) : nonzero_SA_of [Some s] = Rltb 0 s.
Proof.
  destruct (Rlt_dec 0 s) as [H|H].
  - rewrite Rltb_true by exact H. apply nonzero_SA_of_positive.
    exists 0%nat, s. split; [reflexivity|exact H].
  - rewrite Rltb_false by lra. apply nonzero_SA_of_nonpositive. split.
    + exists 0%nat, s. reflexivity.
    + intros [|i] d Hd; simpl in Hd; [injection Hd as <-; lra|discriminate].
Qed.

(** ** The engine, position by position *)

Lemma gibbs_rows (cte : Constants) (ns nt npr : Z) (br : branch)
    (SA t p : marray) :
  gibbs_branch cte ns nt npr = Ok br ->
  _gibbs cte ns nt npr SA t p
  = Ok (map3 (gibbs_at cte br (nonzero_SA_of SA)) SA t p).
Proof.
  intros Hbr. unfold _gibbs. rewrite Hbr. simpl. f_equal.
  apply list_eq. intros i. unfold map3.
  rewrite !lookup_zip_with.
  unfold filled, getmaskarray, masked_less_equal.
  destruct (nonzero_SA_of SA) eqn:Hnz;
    rewrite !list_lookup_fmap;
    destruct (SA !! i) as [[d|]|], (t !! i) as [[b|]|], (p !! i) as [[c|]|];
    simpl; try reflexivity;
    unfold gibbs_at, mask_at; simpl;
    try destruct (Rleb d 0); simpl; rewrite ?orb_true_r; try reflexivity.
Qed.

Lemma gibbs_branch_cases (cte : Constants) (ns nt npr : Z) :
  (supported ns nt npr /\ exists br, gibbs_branch cte ns nt npr = Ok br) \/
  (~ supported ns nt npr /\
   gibbs_branch cte ns nt npr
   = Raise (NameError "Wrong Combination of order/variables")).
Proof.
  unfold supported, supported_orders, gibbs_branch.
  repeat match goal with
  | |- context [ if ?c then _ else _ ] =>
      let E := fresh "E" in
      destruct c eqn:E;
      [ left; split; [ | eexists; reflexivity ];
        apply andb_prop in E; destruct E as [E ?];
        apply andb_prop in E; destruct E as [? ?];
        repeat match goal with
               | H : (_ =? _)%Z = true |- _ => apply Z.eqb_eq in H
               end;
        subst; set_solver
      | ]
  end.
  right. split; [ | reflexivity ].
  intros H.
  repeat match goal with
  | H : _ ∈ _ :: _ |- _ =>
      apply elem_of_cons in H; destruct H as [H|H];
      [ injection H as -> -> ->; simpl in *; discriminate | ]
  end.
  apply elem_of_nil in H. exact H.
Qed.

Lemma gibbs_at_masked (cte : Constants) (br : branch) (nz : bool)
    (b c : mreal) :
  gibbs_at cte br nz None b c = None.
Proof. unfold gibbs_at, mask_at. destruct nz; reflexivity. Qed.

Lemma gibbs_at_negative (cte : Constants) (br : branch) (nz : bool)
    (s : R) (b c : mreal) :
  s < 0 -> gibbs_at cte br nz (Some s) b c = None.
Proof.
  intros Hs. unfold gibbs_at, mask_at.
  destruct nz; cbn [mbind option_bind].
  - rewrite Rleb_true by lra. reflexivity.
  - destruct b, c; try reflexivity. rewrite Rltb_true by exact Hs. reflexivity.
Qed.

Lemma gibbs_at_nonpositive_in_mixed_batch (cte : Constants) (br : branch)
    (s : R) (b c : mreal) :
  s <= 0 -> gibbs_at cte br true (Some s) b c = None.
Proof.
  intros Hs. unfold gibbs_at, mask_at. cbn [mbind option_bind].
  rewrite Rleb_true by exact Hs. reflexivity.
Qed.

Lemma gibbs_at_Some (cte : Constants) (br : branch) (nz : bool)
    (a b c : mreal) (v : R) :
  gibbs_at cte br nz a b c = Some v ->
  exists s tv pv, a = Some s /\ b = Some tv /\ c = Some pv /\ 0 <= s.
Proof.
  unfold gibbs_at, mask_at. intros H.
  destruct a as [s|]; [|destruct nz; discriminate].
  destruct b as [tv|];
    [|destruct nz; cbn [mbind option_bind] in H;
      try destruct (Rleb s 0); discriminate].
  destruct c as [pv|];
    [|destruct nz; cbn [mbind option_bind] in H;
      try destruct (Rleb s 0); discriminate].
  exists s, tv, pv. repeat split; try reflexivity.
  destruct nz; cbn [mbind option_bind] in H.
  - destruct (Rleb s 0) eqn:E; cbn [orb] in H; try discriminate.
    unfold Rleb in E. apply bool_decide_eq_false in E. lra.
  - destruct (Rltb s 0) eqn:E; cbn [orb] in H; try discriminate.
    unfold Rltb in E. apply bool_decide_eq_false in E. lra.
Qed.

(** ** Unsupported derivative orders *)

(** C2. [_gibbs] raises exactly when (ns, nt, npr) is not one of the ten
    listed orders; the exception is then always the same
    "Wrong Combination" error, and a listed order always returns. *)
Theorem gibbs_raises_iff_unsupported (cte : Constants) (ns nt npr : Z)
    (SA t p : marray) :
  ((exists e, _gibbs cte ns nt npr SA t p = Raise e) <->
   ~ supported ns nt npr) /\
  ((exists out, _gibbs cte ns nt npr SA t p = Ok out) <->
   supported ns nt npr) /\
  (forall e, _gibbs cte ns nt npr SA t p = Raise e ->
             e = NameError "Wrong Combination of order/variables").
Proof.
  destruct (gibbs_branch_cases cte ns nt npr) as [[Hs [br Hbr]]|[Hn Hbr]].
  - rewrite (gibbs_rows cte ns nt npr br SA t p Hbr).
    split; [split|split; [split|]].
    + intros [e He]. discriminate.
    + intros Hn. contradiction.
    + intros _. exact Hs.
    + intros _. eexists. reflexivity.
    + intros e He. discriminate.
  - assert (E : _gibbs cte ns nt npr SA t p
                = Raise (NameError "Wrong Combination of order/variables")).
    { unfold _gibbs. rewrite Hbr. reflexivity. }
    rewrite E. split; [split|split; [split|]].
    + intros _. exact Hn.
    + intros _. eexists. reflexivity.
    + intros [out Ho]. discriminate.
    + intros Hs. contradiction.
    + intros e [= <-]. reflexivity.
Qed.

(** An order outside the list, on an empty and on a one-element batch. *)
Lemma gibbs_raises_iff_unsupported_witness :
  _gibbs teos10 3 0 0 [] [] []
  = Raise (NameError "Wrong Combination of order/variables") /\
  _gibbs teos10 1 1 1 [Some 35] [Some 10] [Some 0]
  = Raise (NameError "Wrong Combination of order/variables").
Proof.
  split.
  - destruct (gibbs_raises_iff_unsupported teos10 3 0 0 [] [] [])
      as (_ & _ & H).
    destruct (_gibbs teos10 3 0 0 [] [] []) as [out|e] eqn:E.
    + discriminate E.
    + rewrite (H e eq_refl). reflexivity.
  - destruct (gibbs_raises_iff_unsupported teos10 1 1 1
                [Some 35] [Some 10] [Some 0]) as (_ & _ & H).
    destruct (_gibbs teos10 1 1 1 [Some 35] [Some 10] [Some 0])
      as [out|e] eqn:E.
    + discriminate E.
    + rewrite (H e eq_refl). reflexivity.
Defined.

(** ** Salinity derivatives at non-positive salinity *)

Ltac eval_gibbs_at :=
  unfold gibbs_at, mask_at; cbn [fill mbind option_bind];
  rewrite ?Rleb_0_0, ?Rltb_0_0; cbn [orb all_masked gibbs fill].

(** C1, counterexample. Order (1,0,1) on the one-element batch SA = 0,
    t = 0, p = 0 returns a number, not a masked position. *)
Lemma gibbs_101_zero_salinity_defined :
  _gibbs teos10 1 0 1 [Some 0] [Some 0] [Some 0]
  = Ok [Some (-6620.98308089678 * sfac teos10 * 0.5e-8)].
Proof.
  rewrite (gibbs_rows teos10 1 0 1 _ _ _ _ eq_refl).
  rewrite nonzero_SA_of_single, Rltb_0_0.
  cbn [map3 zip_with zip fst snd]. eval_gibbs_at.
  do 3 f_equal. rewrite Rmult_0_r, sqrt_0. unfold G101.g08. lra.
Qed.

(** C1, amended. For the four orders with ns >= 1 and a position whose
    salinity is valid and <= 0: the position is masked when the salinity is
    negative, when the batch holds a positive salinity, or when the order
    is (1,0,0) or (1,1,0); for these two orders a batch without positive
    salinity is masked everywhere; for order (1,0,1) a zero salinity in a
    batch without positive salinity yields a number. *)
Theorem gibbs_salinity_orders_nonpositive (cte : Constants) (ns nt npr : Z)
    (SA t p : marray) (i : nat) (s : R) (b c : mreal) :
  (ns, nt, npr) ∈ salinity_orders ->
  SA !! i = Some (Some s) -> t !! i = Some b -> p !! i = Some c ->
  s <= 0 ->
  exists out, _gibbs cte ns nt npr SA t p = Ok out /\
    (s < 0 -> out !! i = Some None) /\
    (has_positive SA -> out !! i = Some None) /\
    ((ns, nt, npr) = (1, 0, 0)%Z \/ (ns, nt, npr) = (1, 1, 0)%Z ->
       out !! i = Some None /\
       (~ has_positive SA ->
        forall (j : nat) (m : mreal), out !! j = Some m -> m = None)) /\
    ((ns, nt, npr) = (1, 0, 1)%Z -> s = 0 -> ~ has_positive SA ->
       is_Some b -> is_Some c -> exists v, out !! i = Some (Some v)).
Proof.
  intros Hord HSA Ht Hp Hs.
  assert (Hnz : nonzero_SA_of SA = true <-> has_positive SA)
    by exact (nonzero_SA_of_valid SA i s HSA).
  assert (Hbr : exists br, gibbs_branch cte ns nt npr = Ok br /\
            ((ns, nt, npr) = (1, 0, 0)%Z \/ (ns, nt, npr) = (1, 1, 0)%Z ->
             forall ipos x2 x y z, all_masked (br false ipos x2 x y z) = true) /\
            ((ns, nt, npr) = (1, 0, 1)%Z ->
             forall nz ipos x2 x y z, all_masked (br nz ipos x2 x y z) = false)).
  { unfold salinity_orders in Hord.
    repeat (apply elem_of_cons in Hord; destruct Hord as [Hord|Hord];
            [injection Hord as -> -> ->; eexists; split; [reflexivity|];
             split; [intros [H|H]; try discriminate H; reflexivity
                    |intros H; try discriminate H; reflexivity]|]).
    apply elem_of_nil in Hord. contradiction. }
  destruct Hbr as (br & Hbr & Hall & H101).
  rewrite (gibbs_rows cte ns nt npr br SA t p Hbr).
  eexists. split; [reflexivity|].
  rewrite (map3_lookup _ _ _ _ _ _ _ _ HSA Ht Hp).
  split; [|split; [|split]].
  - intros Hneg. rewrite gibbs_at_negative by exact Hneg. reflexivity.
  - intros Hpos. apply Hnz in Hpos. rewrite Hpos.
    rewrite gibbs_at_nonpositive_in_mixed_batch by exact Hs. reflexivity.
  - intros Ho. split.
    + destruct (nonzero_SA_of SA) eqn:E.
      * rewrite gibbs_at_nonpositive_in_mixed_batch by exact Hs. reflexivity.
      * unfold gibbs_at. rewrite (Hall Ho), orb_true_r. reflexivity.
    + intros Hnp j m Hj.
      assert (E : nonzero_SA_of SA = false).
      { destruct (nonzero_SA_of SA) eqn:E; [|reflexivity].
        exfalso. apply Hnp, Hnz. reflexivity. }
      rewrite E in Hj. unfold map3 in Hj. rewrite !lookup_zip_with in Hj.
      destruct (SA !! j) as [a'|]; [|discriminate].
      destruct (t !! j) as [b'|]; [|discriminate].
      destruct (p !! j) as [c'|]; [|discriminate].
      cbn [mbind option_bind fst snd] in Hj. injection Hj as <-.
      unfold gibbs_at. rewrite (Hall Ho), orb_true_r. reflexivity.
  - intros Ho -> Hnp [tv ->] [pv ->].
    assert (E : nonzero_SA_of SA = false).
    { destruct (nonzero_SA_of SA) eqn:E; [|reflexivity].
      exfalso. apply Hnp, Hnz. reflexivity. }
    rewrite E. unfold gibbs_at, mask_at. cbn [fill mbind option_bind].
    rewrite Rltb_0_0, (H101 Ho). cbn [orb]. eexists. reflexivity.
Qed.

(** The amended statement on the batch SA = (0, -1), order (1,0,0). *)
Lemma gibbs_salinity_orders_nonpositive_witness :
  exists out,
    _gibbs teos10 1 0 0 [Some 0; Some (-1)] [Some 0; Some 0] [Some 0; Some 0]
    = Ok out /\ out !! 0%nat = Some None.
Proof.
  destruct (gibbs_salinity_orders_nonpositive teos10 1 0 0
              [Some 0; Some (-1)] [Some 0; Some 0] [Some 0; Some 0]
              0%nat 0 (Some 0) (Some 0))
    as (out & Hout & _ & _ & H & _).
  - unfold salinity_orders. apply elem_of_cons. left. reflexivity.
  - reflexivity.
  - reflexivity.
  - reflexivity.
  - lra.
  - exists out. split; [exact Hout|].
    apply H. left. reflexivity.
Defined.

(** ** Order (0,1,0) on a batch without positive salinity *)

Lemma combine_and_scale_010_zero_salinity (cte : Constants) (t p : R) :
  combine_and_scale_010 cte 0 t p
  = G010.g03 (t * 0.025) (p * 1e-4) * 0.025.
Proof.
  unfold combine_and_scale_010. rewrite Rltb_0_0, Rmult_0_r.
  unfold G010.g08. ring.
Qed.

Lemma gibbs_010_skips_scaling (cte : Constants) (SA t p : marray)
    (i : nat) (tv pv : R) :
  ~ has_positive SA ->
  SA !! i = Some (Some 0) -> t !! i = Some (Some tv) ->
  p !! i = Some (Some pv) ->
  result_at (_gibbs cte 0 1 0 SA t p) i
  = Ok (Some (Some (G010.g03 (tv * 0.025) (pv * 1e-4)))).
Proof.
  intros Hnp HSA Ht Hp.
  rewrite (gibbs_rows cte 0 1 0 _ _ _ _ eq_refl). cbn [result_at].
  rewrite (map3_lookup _ _ _ _ _ _ _ _ HSA Ht Hp).
  assert (E : nonzero_SA_of SA = false).
  { destruct (nonzero_SA_of SA) eqn:E; [|reflexivity].
    exfalso. apply Hnp, (nonzero_SA_of_valid SA i 0 HSA). exact E. }
  rewrite E. eval_gibbs_at. reflexivity.
Qed.

(** C3. On the batch SA = 0, t = 0, p = 0 the engine returns the
    salinity-independent polynomial itself, 5.90578347909402, where
    combining and scaling both polynomials gives 0.025 times it. *)
Theorem gibbs_010_zero_salinity_unscaled :
  _gibbs teos10 0 1 0 [Some 0] [Some 0] [Some 0]
  = Ok [Some 5.90578347909402] /\
  combine_and_scale_010 teos10 0 0 0 = 0.025 * 5.90578347909402 /\
  5.90578347909402 <> 0.025 * 5.90578347909402.
Proof.
  split; [|split].
  - rewrite (gibbs_rows teos10 0 1 0 _ _ _ _ eq_refl).
    rewrite nonzero_SA_of_single, Rltb_0_0.
    cbn [map3 zip_with zip fst snd]. eval_gibbs_at.
    do 3 f_equal. unfold G010.g03. lra.
  - rewrite combine_and_scale_010_zero_salinity. unfold G010.g03. lra.
  - lra.
Qed.

(** ** Dependence on the rest of the batch *)




(** ** The helpers built on [strip_mask], position by position *)

Lemma entropy_part_rows (cte : Constants) (SA t p : marray) :
  _entropy_part cte SA t p = map3 (entropy_part_at cte) SA t p.
Proof.
  unfold _entropy_part, strip_mask3, ma_array, map3, filled, getmaskarray,
    mask_negative.
  cbv beta iota zeta.
  apply list_eq. intros i.
  rewrite !lookup_zip_with, !list_lookup_fmap.
  destruct (SA !! i) as [[d|]|], (t !! i) as [[b|]|], (p !! i) as [[c|]|];
    simpl; try reflexivity;
    try (destruct (Rltb d 0); reflexivity).
Qed.

Lemma gibbs_pt0_pt0_rows (cte : Constants) (SA pt0 : marray) :
  _gibbs_pt0_pt0 cte SA pt0 = zip_with (gibbs_pt0_pt0_at cte) SA pt0.
Proof.
  unfold _gibbs_pt0_pt0, strip_mask2, ma_array, filled, getmaskarray,
    mask_negative.
  cbv beta iota zeta.
  apply list_eq. intros i.
  rewrite !lookup_zip_with, !list_lookup_fmap.
  destruct (SA !! i) as [[d|]|], (pt0 !! i) as [[b|]|];
    simpl; try reflexivity;
    try (destruct (Rltb d 0); reflexivity).
Qed.

Lemma pot_enthalpy_rows (cte : Constants) (SA pt : marray) :
  pot_enthalpy_from_pt cte SA pt = zip_with (pot_enthalpy_at cte) SA pt.
Proof.
  unfold pot_enthalpy_from_pt, strip_mask2, ma_array, filled, getmaskarray,
    mask_negative.
  cbv beta iota zeta.
  apply list_eq. intros i.
  rewrite !lookup_zip_with, !list_lookup_fmap.
  destruct (SA !! i) as [[d|]|], (pt !! i) as [[b|]|];
    simpl; try reflexivity;
    try (destruct (Rltb d 0); reflexivity).
Qed.

Lemma CT_from_pt_rows (cte : Constants) (SA pt : marray) :
  CT_from_pt cte SA pt = zip_with (CT_at cte) SA pt.
Proof.
  unfold CT_from_pt, strip_mask2. cbv beta iota zeta.
  rewrite pot_enthalpy_rows.
  unfold filled, getmaskarray, mask_negative.
  apply list_eq. intros i.
  rewrite !lookup_zip_with, !list_lookup_fmap, !lookup_zip_with,
    !list_lookup_fmap.
  unfold CT_at, pot_enthalpy_at.
  destruct (SA !! i) as [[d|]|], (pt !! i) as [[b|]|]; simpl; try reflexivity;
    try (destruct (Rltb d 0) eqn:E; simpl);
    rewrite ?Rltb_0_0, ?E; simpl; reflexivity.
Qed.

(** ** Negative salinity *)


Lemma clamp_negative_lookup (SA : marray) (i : nat) (s : R) :
  clamp_negative SA !! i = Some (Some s) -> 0 <= s.
Proof.
  unfold clamp_negative. rewrite list_lookup_fmap.
  destruct (SA !! i) as [[d|]|]; simpl; try discriminate.
  intros [= <-]. destruct (Rlt_dec d 0).
  - rewrite Rltb_true by assumption. lra.
  - rewrite Rltb_false by lra. lra.
Qed.






(** ** Potential temperature at the pressure of the sample *)

Ltac ma_simpl :=
  unfold const; cbn [madd msub mmul mneg mexp mbind option_bind].

Lemma mdiv_Some (a b : R) : b <> 0 -> mdiv (Some a) (Some b) = Some (a / b).
Proof.
  intros Hb. unfold mdiv. cbn [mbind option_bind].
  destruct (decide (b = 0)); [contradiction|reflexivity].
Qed.

Lemma newton_step_fixed (x e d : R) :
  d <> 0 -> (Some x - (Some e - Some e) / Some d)%ma = Some x.
Proof.
  intros Hd. change (Some e - Some e)%ma with (Some (e - e)).
  rewrite mdiv_Some by exact Hd.
  unfold msub. cbn [mbind option_bind]. f_equal. field. exact Hd.
Qed.




(** ** The corrector pass of [t_from_entropy] *)

Ltac teos10_lra := unfold teos10; cbn [cp0 Kelvin SSO sfac]; lra.

Lemma clamp_negative_zero : clamp_negative [Some 0] = [Some 0].
Proof.
  unfold clamp_negative. cbn [fmap list_fmap]. rewrite Rltb_0_0. reflexivity.
Qed.

Lemma t_from_entropy_init_fresh :
  t_from_entropy_init teos10 [Some 0] [Some ent_SA_fresh]
  = {| te_pt := [Some 0];
       te_dentropy_dt :=
         [Some (cp0 teos10 / ((Kelvin teos10 + 0)
                              * (1 - 0.05 * (1 - 0 / SSO teos10))))];
       te_t := None |}.
Proof.
  unfold t_from_entropy_init. cbv zeta.
  cbn [fmap list_fmap zip_with map3 zip fst snd].
  repeat (ma_simpl; rewrite ?mdiv_Some by teos10_lra).
  match goal with
  | |- context [ exp ?E ] =>
      replace E with 0 by (unfold ent_SA_fresh, Rdiv; ring)
  end.
  rewrite exp_0.
  repeat (ma_simpl; rewrite ?mdiv_Some by teos10_lra).
  f_equal; do 2 f_equal; teos10_lra.
Qed.

(** Both passes on a one-element batch of fresh water: the code's pass
    leaves the half-way value [a] in [pt], the pass of the specification
    leaves the re-applied step there. *)
Lemma corrector_pass_fresh (cte : Constants) (q D ent : R) (o : option marray) :
  let d := - G010.g03 (q * 0.025) (0 * 1e-4) - ent in
  let a := q - d / D in
  let y := 0.5 * (a + q) * 0.025 in
  let D1 := - ((GibbsPt0Pt0.g03 y
                + GibbsPt0Pt0.g08 (sfac cte * 0) (sqrt (sfac cte * 0)) y)
               * 0.000625) in
  let b := q - d / D1 in
  D <> 0 -> D1 <> 0 ->
  t_from_entropy_pass cte [Some 0] [Some ent]
    {| te_pt := [Some q]; te_dentropy_dt := [Some D]; te_t := o |}
  = Ok {| te_pt := [Some a]; te_dentropy_dt := [Some D1];
          te_t := Some [Some b] |} /\
  corrector_pass_spec cte [Some 0] [Some ent]
    {| te_pt := [Some q]; te_dentropy_dt := [Some D]; te_t := o |}
  = Ok {| te_pt := [Some b]; te_dentropy_dt := [Some D1];
          te_t := Some [Some b] |}.
Proof.
  intros d a y D1 b HD HD1.
  assert (He : entropy_from_t cte [Some 0] [Some q]
               = Ok [Some (- G010.g03 (q * 0.025) (0 * 1e-4))]).
  { unfold entropy_from_t, n0, n1. cbv zeta. rewrite clamp_negative_zero.
    rewrite (gibbs_rows cte 0 1 0 _ _ _ _ eq_refl).
    rewrite nonzero_SA_of_single, Rltb_0_0.
    cbn [fmap list_fmap map3 zip_with zip fst snd mbind result_bind].
    eval_gibbs_at. reflexivity. }
  assert (Hg : forall m : R,
             _gibbs_pt0_pt0 cte [Some 0] [Some m]
             = [Some ((GibbsPt0Pt0.g03 (m * 0.025)
                       + GibbsPt0Pt0.g08 (sfac cte * 0) (sqrt (sfac cte * 0))
                           (m * 0.025)) * 0.000625)]).
  { intros m. rewrite gibbs_pt0_pt0_rows. cbn [zip_with].
    unfold gibbs_pt0_pt0_at. rewrite Rltb_0_0. reflexivity. }
  split.
  - unfold t_from_entropy_pass. cbv zeta. cbn [te_pt te_dentropy_dt].
    rewrite He. cbn [mbind result_bind zip_with map3 zip fst snd].
    ma_simpl. rewrite mdiv_Some by exact HD. ma_simpl.
    rewrite Hg. cbn [fmap list_fmap zip_with map3 zip fst snd]. ma_simpl.
    fold d. fold a. fold y. fold D1.
    rewrite mdiv_Some by exact HD1. ma_simpl. reflexivity.
  - unfold corrector_pass_spec. cbv zeta. cbn [te_pt te_dentropy_dt].
    rewrite He. cbn [mbind result_bind zip_with map3 zip fst snd].
    ma_simpl. rewrite mdiv_Some by exact HD. ma_simpl.
    rewrite Hg. cbn [fmap list_fmap zip_with map3 zip fst snd]. ma_simpl.
    fold d. fold a. fold y. fold D1.
    rewrite mdiv_Some by exact HD1. ma_simpl. reflexivity.
Qed.

(** C8. On fresh water (SA = 0) with the entropy [ent_SA_fresh], the
    first pass of [t_from_entropy] leaves the half-way value [a] in [pt],
    the iterate of the next pass, and binds the re-applied Newton step [b]
    to [t]; the pass of the specification carries [b]; and [a] differs
    from [b]. *)
Theorem t_from_entropy_carries_half_way_iterate :
  exists a b D1 : R,
    t_from_entropy_pass teos10 [Some 0] [Some ent_SA_fresh]
      (t_from_entropy_init teos10 [Some 0] [Some ent_SA_fresh])
    = Ok {| te_pt := [Some a]; te_dentropy_dt := [Some D1];
            te_t := Some [Some b] |} /\
    corrector_pass_spec teos10 [Some 0] [Some ent_SA_fresh]
      (t_from_entropy_init teos10 [Some 0] [Some ent_SA_fresh])
    = Ok {| te_pt := [Some b]; te_dentropy_dt := [Some D1];
            te_t := Some [Some b] |} /\
    0.3744 < a < 0.3745 /\ 0.3731 < b < 0.3732.
Proof.
  rewrite t_from_entropy_init_fresh.
  set (D0 := cp0 teos10 / ((Kelvin teos10 + 0)
                           * (1 - 0.05 * (1 - 0 / SSO teos10)))).
  set (d := - G010.g03 (0 * 0.025) (0 * 1e-4) - ent_SA_fresh).
  set (a := 0 - d / D0).
  set (y := 0.5 * (a + 0) * 0.025).
  set (D1 := - ((GibbsPt0Pt0.g03 y
                 + GibbsPt0Pt0.g08 (sfac teos10 * 0)
                     (sqrt (sfac teos10 * 0)) y) * 0.000625)).
  set (b := 0 - d / D1).
  assert (HD0 : 15.38 < D0 < 15.39) by (unfold D0; teos10_lra).
  assert (Hd : -5.7597 < d < -5.7596).
  { unfold d, ent_SA_fresh, G010.g03. teos10_lra. }
  assert (Ha : 0.3744 < a < 0.3745).
  { unfold a, d, D0, ent_SA_fresh, G010.g03. teos10_lra. }
  assert (Hy : 0.00468 < y < 0.00469) by (unfold y; lra).
  assert (HD1 : 15.434 < D1 < 15.435).
  { unfold D1. rewrite Rmult_0_r, sqrt_0.
    unfold GibbsPt0Pt0.g03, GibbsPt0Pt0.g08.
    clearbody y. clear - Hy. nra. }
  assert (Hb : 0.3731 < b < 0.3732).
  { unfold b. assert (HD1' : 0 < D1) by lra. split.
    - apply Rmult_lt_reg_r with D1; [exact HD1'|].
      unfold Rminus, Rdiv. rewrite Rplus_0_l.
      replace (- (d * / D1) * D1) with (- d) by (field; lra). lra.
    - apply Rmult_lt_reg_r with D1; [exact HD1'|].
      unfold Rminus, Rdiv. rewrite Rplus_0_l.
      replace (- (d * / D1) * D1) with (- d) by (field; lra). lra. }
  exists a, b, D1.
  destruct (corrector_pass_fresh teos10 0 D0 ent_SA_fresh None)
    as [E1 E2]; [lra|fold d a y D1; lra|].
  split; [exact E1|]. split; [exact E2|]. split; assumption.
Qed.

(** ** Potential enthalpy: the polynomial and the engine route *)

Lemma pow_unit_bound (u : R) (n : nat) : -1 <= u <= 1 -> -1 <= u ^ n <= 1.
Proof.
  intros Hu. induction n as [|n IH]; simpl; [lra|nra].
Qed.

Lemma monomial_unit_bound (x y : R) (i j : nat) :
  0 <= x <= 1 -> -1 <= y <= 1 -> -1 <= x ^ i * y ^ j <= 1.
Proof.
  intros Hx Hy.
  assert (Hxi : -1 <= x ^ i <= 1) by (apply pow_unit_bound; lra).
  assert (Hxi' : 0 <= x ^ i) by (apply pow_le; lra).
  assert (Hyj : -1 <= y ^ j <= 1) by (apply pow_unit_bound; lra).
  nra.
Qed.

Lemma pot_enthalpy_residual_bound (x y : R) :
  0 <= x <= 1 -> -1 <= y <= 1 ->
  Rabs (pot_enthalpy_residual x y) <= 1.24381875e-11.
Proof.
  intros Hx Hy. unfold pot_enthalpy_residual.
  repeat match goal with
  | |- context [ x ^ ?i * y ^ ?j ] =>
      let H := fresh "H" in
      let m := fresh "m" in
      pose proof (monomial_unit_bound x y i j Hx Hy) as H;
      set (m := x ^ i * y ^ j) in *; clearbody m
  end.
  apply Rabs_le. lra.
Qed.

Lemma ln_le_minus_1 (u : R) : 0 < u -> ln u <= u - 1.
Proof.
  intros Hu. pose proof (exp_ineq1_le (ln u)) as H.
  rewrite exp_ln in H by exact Hu. lra.
Qed.

Lemma square_log_bound (x : R) :
  0 < x <= 1 -> Rabs (x * x * ln x) <= 1 / 4.
Proof.
  intros [Hx0 Hx1].
  assert (Hle : ln x <= 0) by (pose proof (ln_le_minus_1 x Hx0); lra).
  assert (Hge : - ln x <= / x - 1).
  { rewrite <- ln_Rinv by exact Hx0.
    apply ln_le_minus_1, Rinv_0_lt_compat, Hx0. }
  assert (Hm : x * x * (- ln x) <= x - x * x).
  { replace (x - x * x) with (x * x * (/ x - 1)) by (field; lra).
    apply Rmult_le_compat_l; [nra|exact Hge]. }
  assert (Hq : x - x * x <= 1 / 4).
  { pose proof (Rle_0_sqr (x - 1 / 2)) as Hsq. unfold Rsqr in Hsq. lra. }
  assert (Hp : 0 <= x * x * (- ln x)).
  { apply Rmult_le_pos; [nra|lra]. }
  apply Rabs_le. lra.
Qed.

(** Polynomial identities between literal coefficients are checked over
    the integers: every decimal literal is written as an integer multiple
    of one power of ten, and the one relation between the powers of ten
    in play is used once, at the end. *)
Ltac scale_literals T K unfold_T :=
  repeat match goal with
  | |- context [ Q2R (QArith_base.Qmake ?n ?d) ] =>
      let N := eval vm_compute in ((n * 10 ^ K) / Z.pos d)%Z in
      replace (Q2R (QArith_base.Qmake n d)) with (IZR N * T)
        by (unfold_T; lra)
  end.

Ltac scale_quotients U K unfold_U :=
  repeat match goal with
  | |- context [ IZR ?p / IZR ?q ] =>
      let N := eval vm_compute in ((p * 10 ^ K) / q)%Z in
      replace (IZR p / IZR q) with (IZR N * U) by (unfold_U; lra)
  end.

(** [l = r] from the identity [l - r = (1 - c * t) * (l - r)[t := 0]] of
    polynomials in [t], at a [t] with [c * t = 1]. *)
Ltac by_unit_relation t c :=
  match goal with
  | |- ?l = ?r =>
      let d := constr:(l - r) in
      let f := eval pattern t in d in
      match f with
      | ?g t =>
          let H := fresh "H" in
          assert (H : forall u : R, g u = (1 - c * u) * g 0)
            by (intros u; cbv beta; ring);
          specialize (H t); cbv beta in H;
          apply Rminus_diag_uniq; rewrite H;
          replace (1 - c * t) with 0 by (unfold t; lra);
          apply Rmult_0_l
      end
  end.

(** The engine route minus the dedicated polynomial, for x > 0 at zero
    pressure: a polynomial with coefficients of order 1e-12 and a multiple
    of x^2 ln x.  Neither vanishes, since the literals of the source are
    rounded. *)
Lemma engine_minus_polynomial (x theta : R) :
  let y := theta * 0.025 in
  let z := 0 * 1e-4 in
  (G000.g03 y z + (G000.g08 (x * x) x y z + G000.g08_log (x * x) x y))
  - (273.15 + theta)
    * ((G010.g03 y z + (G010.g08 (x * x) x y z + G010.g08_log (x * x) x))
       * 0.025)
  - PotEnthalpy.pot_enthalpy (x * x) x y
  = pot_enthalpy_residual x y + pot_enthalpy_log_residual * (x * x * ln x).
Proof.
  intros y z.
  assert (Hz : z = 0) by (unfold z; lra).
  assert (Hth : theta = 40 * y) by (unfold y; lra).
  clearbody y z. subst z theta.
  pose (T5 := / 100000).
  match goal with
  | |- context [ (273.15 + 40 * y) * (?A * 0.025) ] =>
      replace ((273.15 + 40 * y) * (A * 0.025))
        with ((682875 + 100000 * y) * T5 * A)
        by (generalize A; intros a; unfold T5; lra)
  end.
  unfold G000.g03, G000.g08, G000.g08_log, G010.g03, G010.g08, G010.g08_log,
    PotEnthalpy.pot_enthalpy, pot_enthalpy_residual, pot_enthalpy_log_residual.
  pose (T := / 10000000000000000).
  pose (U := T * T5).
  scale_literals T 16%Z ltac:(unfold T).
  scale_quotients U 21%Z ltac:(unfold U, T, T5).
  unfold U.
  by_unit_relation T5 100000.
Qed.

(** C9, counterexample. At SA = 1/sfac (so x = 1) and pt = 0 the
    polynomial and the engine route differ. *)
Lemma pot_enthalpy_not_exact :
  exists h a b : R,
    pot_enthalpy_from_pt teos10 [Some (/ sfac teos10)] [Some 0] = [Some h] /\
    _gibbs teos10 0 0 0 [Some (/ sfac teos10)] [Some 0] [Some 0]
    = Ok [Some a] /\
    _gibbs teos10 0 1 0 [Some (/ sfac teos10)] [Some 0] [Some 0]
    = Ok [Some b] /\
    0 < / sfac teos10 /\
    h <> a - (273.15 + 0) * b.
Proof.
  assert (Hs : 0 < / sfac teos10) by (apply Rinv_0_lt_compat; teos10_lra).
  assert (Hx2 : sfac teos10 * / sfac teos10 = 1) by (apply Rinv_r; teos10_lra).
  do 3 eexists. split; [|split; [|split; [|split; [exact Hs|]]]].
  - rewrite pot_enthalpy_rows. cbn [zip_with]. unfold pot_enthalpy_at.
    rewrite Rltb_false by lra. cbv zeta. rewrite Hx2, sqrt_1. reflexivity.
  - rewrite (gibbs_rows teos10 0 0 0 _ _ _ _ eq_refl).
    rewrite nonzero_SA_of_single, Rltb_true by exact Hs.
    cbn [map3 zip_with zip fst snd]. unfold gibbs_at, mask_at.
    cbn [fill mbind option_bind].
    rewrite (Rleb_false (/ sfac teos10) 0 Hs). cbn [fill].
    rewrite (Rltb_true 0 (/ sfac teos10) Hs).
    rewrite (Rltb_false (/ sfac teos10) 0) by lra.
    cbn [orb all_masked gibbs]. rewrite Hx2, sqrt_1. reflexivity.
  - rewrite (gibbs_rows teos10 0 1 0 _ _ _ _ eq_refl).
    rewrite nonzero_SA_of_single, Rltb_true by exact Hs.
    cbn [map3 zip_with zip fst snd]. unfold gibbs_at, mask_at.
    cbn [fill mbind option_bind].
    rewrite (Rleb_false (/ sfac teos10) 0 Hs). cbn [fill].
    rewrite (Rltb_true 0 (/ sfac teos10) Hs).
    rewrite (Rltb_false (/ sfac teos10) 0) by lra.
    cbn [orb all_masked gibbs]. rewrite Hx2, sqrt_1. reflexivity.
  - pose proof (engine_minus_polynomial 1 0) as E. cbv zeta in E.
    rewrite !Rmult_1_l in E.
    unfold G000.g08_log, G010.g08_log in *. rewrite ln_1 in *.
    assert (Hr : pot_enthalpy_residual 1 (0 * 0.025)
                 + pot_enthalpy_log_residual * (1 * 0) <> 0).
    { unfold pot_enthalpy_residual, pot_enthalpy_log_residual. lra. }
    lra.
Qed.

(** C9, amended. With cp0 <> 0 and sfac > 0, at a position with
    0 < SA <= 1/sfac, -40 <= pt <= 40 and p = 0:
    cp0 * CT_from_pt = pot_enthalpy_from_pt exactly, and the polynomial
    agrees with the engine route g000 - (273.15 + pt) * g010 within
    1.3e-11 J/kg. *)
Theorem pot_enthalpy_agrees_with_engine (cte : Constants)
    (SA pt p : marray) (i : nat) (s theta : R) :
  0 < sfac cte -> cp0 cte <> 0 ->
  SA !! i = Some (Some s) -> pt !! i = Some (Some theta) ->
  p !! i = Some (Some 0) ->
  0 < s -> sfac cte * s <= 1 -> -40 <= theta <= 40 ->
  exists (g000 g010 : marray) (h c a b : R),
    _gibbs cte 0 0 0 SA pt p = Ok g000 /\ g000 !! i = Some (Some a) /\
    _gibbs cte 0 1 0 SA pt p = Ok g010 /\ g010 !! i = Some (Some b) /\
    pot_enthalpy_from_pt cte SA pt !! i = Some (Some h) /\
    CT_from_pt cte SA pt !! i = Some (Some c) /\
    cp0 cte * c = h /\
    Rabs (h - (a - (273.15 + theta) * b)) <= 1.3e-11.
Proof.
  intros Hsfac Hcp HSA Hpt Hp Hs Hs1 Hth.
  assert (Hnz : nonzero_SA_of SA = true).
  { apply nonzero_SA_of_positive. exists i, s. split; assumption. }
  assert (Hx2 : 0 < sfac cte * s) by (apply Rmult_lt_0_compat; assumption).
  assert (Hxx : sqrt (sfac cte * s) * sqrt (sfac cte * s) = sfac cte * s)
    by (apply sqrt_sqrt; lra).
  assert (Hx0 : 0 < sqrt (sfac cte * s)) by (apply sqrt_lt_R0, Hx2).
  assert (Hx1 : sqrt (sfac cte * s) <= 1).
  { rewrite <- sqrt_1. apply sqrt_le_1_alt. exact Hs1. }
  assert (Heval : forall br : branch,
            gibbs_at cte br true (Some s) (Some theta) (Some 0)
            = (if all_masked (br true true (sfac cte * s)
                                (sqrt (sfac cte * s)) (theta * 0.025)
                                (0 * 1e-4))
               then None
               else Some (gibbs (br true true (sfac cte * s)
                                   (sqrt (sfac cte * s)) (theta * 0.025)
                                   (0 * 1e-4))))).
  { intros br. unfold gibbs_at, mask_at. cbn [fill mbind option_bind].
    rewrite (Rleb_false s 0 Hs). cbn [fill].
    rewrite (Rltb_true 0 s Hs), (Rltb_false s 0) by lra. reflexivity. }
  do 6 eexists.
  split; [exact (gibbs_rows cte 0 0 0 _ SA pt p eq_refl)|].
  split.
  { rewrite (map3_lookup _ _ _ _ _ _ _ _ HSA Hpt Hp), Hnz, Heval.
    cbn [all_masked gibbs]. reflexivity. }
  split; [exact (gibbs_rows cte 0 1 0 _ SA pt p eq_refl)|].
  split.
  { rewrite (map3_lookup _ _ _ _ _ _ _ _ HSA Hpt Hp), Hnz, Heval.
    cbn [all_masked gibbs]. reflexivity. }
  split.
  { rewrite pot_enthalpy_rows, (zip_with_lookup _ _ _ _ _ _ HSA Hpt).
    unfold pot_enthalpy_at. rewrite (Rltb_false s 0) by lra. reflexivity. }
  split.
  { rewrite CT_from_pt_rows, (zip_with_lookup _ _ _ _ _ _ HSA Hpt).
    unfold CT_at, pot_enthalpy_at. rewrite (Rltb_false s 0) by lra.
    cbv zeta. unfold const. rewrite mdiv_Some by exact Hcp. reflexivity. }
  split; [field; exact Hcp|].
  set (x := sqrt (sfac cte * s)) in *. clearbody x.
  rewrite <- Hxx.
  pose proof (engine_minus_polynomial x theta) as E. cbv zeta in E.
  match goal with
  | |- Rabs ?u <= _ =>
      replace u with (- (pot_enthalpy_residual x (theta * 0.025)
                         + pot_enthalpy_log_residual * (x * x * ln x)))
        by (rewrite <- E; ring)
  end.
  rewrite Rabs_Ropp.
  pose proof (pot_enthalpy_residual_bound x (theta * 0.025)) as B1.
  pose proof (square_log_bound x) as B2.
  assert (B1' : Rabs (pot_enthalpy_residual x (theta * 0.025))
                <= 1.24381875e-11) by (apply B1; lra).
  assert (B2' : Rabs (x * x * ln x) <= 1 / 4) by (apply B2; lra).
  eapply Rle_trans; [apply Rabs_triang|].
  rewrite Rabs_mult.
  assert (Hc : Rabs pot_enthalpy_log_residual = 1.4025e-12).
  { unfold pot_enthalpy_log_residual. rewrite Rabs_right; lra. }
  rewrite Hc.
  assert (0 <= Rabs (x * x * ln x)) by apply Rabs_pos.
  nra.
Qed.

(** Salinity 35, potential temperature 10 degrees C, zero pressure. *)
Lemma pot_enthalpy_agrees_with_engine_witness :
  exists (g000 g010 : marray) (h c a b : R),
    _gibbs teos10 0 0 0 [Some 35] [Some 10] [Some 0] = Ok g000 /\
    g000 !! 0%nat = Some (Some a) /\
    _gibbs teos10 0 1 0 [Some 35] [Some 10] [Some 0] = Ok g010 /\
    g010 !! 0%nat = Some (Some b) /\
    pot_enthalpy_from_pt teos10 [Some 35] [Some 10] !! 0%nat
    = Some (Some h) /\
    CT_from_pt teos10 [Some 35] [Some 10] !! 0%nat = Some (Some c) /\
    cp0 teos10 * c = h /\
    Rabs (h - (a - (273.15 + 10) * b)) <= 1.3e-11.
Proof.
  apply (pot_enthalpy_agrees_with_engine teos10
           [Some 35] [Some 10] [Some 0] 0%nat 35 10).
  - teos10_lra.
  - teos10_lra.
  - reflexivity.
  - reflexivity.
  - reflexivity.
  - lra.
  - teos10_lra.
  - lra.
Defined.

(** ** The Baltic overwrite of [SP_from_Sstar] *)

Lemma indsbaltic_not_global : "indsbaltic" ∉ module_globals.
Proof. unfold module_globals. vm_compute. intros H. discriminate H. Qed.

(** The sibling [SP_from_SA], which indexes with [~SP_baltic.mask],
    returns in the Baltic branch too. *)
Lemma SP_from_SA_returns (cte : Constants)
    (_delta_SA : marray -> marray -> marray -> marray)
    (_SP_from_SA_Baltic : marray -> marray -> marray -> option marray)
    (SA p lon lat : marray) :
  exists SP, SP_from_SA cte _delta_SA _SP_from_SA_Baltic SA p lon lat = Ok SP.
Proof.
  unfold SP_from_SA. cbv zeta.
  destruct (_SP_from_SA_Baltic SA lon lat) as [SP_baltic|];
    eexists; reflexivity.
Qed.

(** C10. Whenever the Baltic helper answers with an array,
    [SP_from_Sstar] ends with a NameError on [indsbaltic], a name bound
    neither in the function nor in the module. *)
Theorem SP_from_Sstar_baltic_raises (cte : Constants)
    (_delta_SA : marray -> marray -> marray -> marray)
    (_SP_from_SA_Baltic : marray -> marray -> marray -> option marray)
    (Sstar p lon lat SP_baltic : marray) :
  _SP_from_SA_Baltic Sstar lon lat = Some SP_baltic ->
  SP_from_Sstar cte _delta_SA _SP_from_SA_Baltic Sstar p lon lat
  = Raise (NameError "name 'indsbaltic' is not defined").
Proof.
  intros Hb. unfold SP_from_Sstar. cbv zeta. rewrite Hb.
  unfold load_name.
  rewrite !lookup_insert_ne by discriminate.
  rewrite lookup_empty.
  rewrite decide_False by exact indsbaltic_not_global.
  reflexivity.
Qed.

(** One station in the Baltic Sea (lon 20, lat 59), with a zero anomaly
    and the Baltic formula answering 6.5683 there. *)
Lemma SP_from_Sstar_baltic_raises_witness :
  SP_from_Sstar teos10 (fun _ _ _ => [Some 0])
    (fun _ _ _ => Some [Some 6.5683])
    [Some 6.6699] [Some 0] [Some 20] [Some 59]
  = Raise (NameError "name 'indsbaltic' is not defined").
Proof.
  apply (SP_from_Sstar_baltic_raises teos10 (fun _ _ _ => [Some 0])
           (fun _ _ _ => Some [Some 6.5683])
           [Some 6.6699] [Some 0] [Some 20] [Some 59] [Some 6.5683]).
  reflexivity.
Defined.
(** * Further properties *)

(** ** The helpers of the surface solver *)

Lemma entropy_part_zerop_rows (cte : Constants) (SA pt0 : marray) :
  _entropy_part_zerop cte SA pt0 = zip_with (entropy_part_zerop_at cte) SA pt0.
Proof.
  unfold _entropy_part_zerop, strip_mask2, ma_array, filled, getmaskarray,
    mask_negative.
  cbv beta iota zeta.
  apply list_eq. intros i.
  rewrite !lookup_zip_with, !list_lookup_fmap.
  destruct (SA !! i) as [[d|]|], (pt0 !! i) as [[b|]|];
    simpl; try reflexivity;
    try (destruct (Rltb d 0); reflexivity).
Qed.

Lemma entropy_part_at_surface (cte : Constants) (a b : mreal) :
  entropy_part_at cte a b (Some 0) = entropy_part_zerop_at cte a b.
Proof.
  unfold entropy_part_at, entropy_part_zerop_at.
  destruct a as [s|], b as [t|]; try reflexivity.
  destruct (Rltb s 0); [reflexivity|]. cbv zeta. f_equal.
  unfold EntropyPart.g03, EntropyPart.g08, EntropyPartZerop.g03,
    EntropyPartZerop.g08.
  replace (0 * 1e-4) with 0 by lra. ring.
Qed.

(** X1. The polynomial that [_entropy_part_zerop] holds is the one of
    [_entropy_part] with the pressure terms dropped: on every batch the
    two return the same array when the pressure is 0 dbar. *)
Theorem entropy_part_zerop_is_entropy_part_at_surface (cte : Constants)
    (SA pt0 : marray) :
  _entropy_part cte SA pt0 ((fun _ : mreal => Some 0) <$> pt0)
  = _entropy_part_zerop cte SA pt0.
Proof.
  rewrite entropy_part_rows, entropy_part_zerop_rows.
  apply list_eq. intros i. unfold map3.
  rewrite !lookup_zip_with, list_lookup_fmap.
  destruct (SA !! i) as [a|], (pt0 !! i) as [b|]; try reflexivity.
  cbn [mbind option_bind fmap option_fmap option_map fst snd].
  rewrite entropy_part_at_surface. reflexivity.
Qed.

Lemma not_positive_nonzero_SA (SA : marray) (i : nat) (s : R) :
  SA !! i = Some (Some s) -> ~ has_positive SA -> nonzero_SA_of SA = false.
Proof.
  intros Hi Hn. apply nonzero_SA_of_nonpositive. split.
  - exists i, s. exact Hi.
  - destruct (positive_or_not SA) as [H|H]; [contradiction|exact H].
Qed.

(** The engine's order (0,2,0) at 0 dbar against the helper, at one
    position: a positive salinity in a batch flagged non-zero, or a zero
    salinity in a batch that is not. *)
Lemma engine_020_at_surface (cte : Constants) (br : branch) (nz : bool)
    (s : R) (b : mreal) :
  gibbs_branch cte 0 2 0 = Ok br ->
  (nz = true /\ 0 < s) \/ (nz = false /\ s = 0) ->
  gibbs_at cte br nz (Some s) b (Some 0) = gibbs_pt0_pt0_at cte (Some s) b.
Proof.
  intros Hbr Hcase. injection Hbr as <-.
  unfold gibbs_at, mask_at, gibbs_pt0_pt0_at.
  destruct Hcase as [[-> Hs]|[-> ->]]; cbn [mbind option_bind].
  - rewrite (Rleb_false s 0 Hs), (Rltb_false s 0) by lra.
    destruct b as [v|]; [|reflexivity].
    cbn [orb all_masked gibbs fill]. cbv zeta. f_equal.
    unfold G020.g03, G020.g08, GibbsPt0Pt0.g03, GibbsPt0Pt0.g08.
    replace (0 * 1e-4) with 0 by lra. ring.
  - rewrite Rltb_0_0. destruct b as [v|]; [|reflexivity].
    cbn [orb all_masked gibbs fill]. cbv zeta. f_equal.
    unfold G020.g03, G020.g08, GibbsPt0Pt0.g03, GibbsPt0Pt0.g08.
    replace (0 * 1e-4) with 0 by lra. ring.
Qed.

(** X2. [_gibbs_pt0_pt0(SA, pt0)] is the engine's second temperature
    derivative at 0 dbar: the two agree at every position of every batch,
    save at a salinity of exactly 0 that shares its batch with a positive
    one (which the engine masks and the helper evaluates). *)
Theorem gibbs_pt0_pt0_is_engine_at_surface (cte : Constants)
    (SA pt0 : marray) (i : nat) :
  (SA !! i = Some (Some 0) -> ~ has_positive SA) ->
  result_at (_gibbs cte 0 2 0 SA pt0 ((fun _ : mreal => Some 0) <$> pt0)) i
  = Ok (_gibbs_pt0_pt0 cte SA pt0 !! i).
Proof.
  intros Hzero.
  rewrite (gibbs_rows cte 0 2 0 _ _ _ _ eq_refl), gibbs_pt0_pt0_rows.
  cbn [result_at]. f_equal. unfold map3.
  rewrite !lookup_zip_with, list_lookup_fmap.
  destruct (SA !! i) as [a|] eqn:HSA; [|reflexivity].
  destruct (pt0 !! i) as [b|]; [|reflexivity].
  cbn [mbind option_bind fmap option_fmap option_map fst snd]. f_equal.
  destruct a as [s|]; [|rewrite gibbs_at_masked; reflexivity].
  destruct (Rlt_dec s 0) as [Hneg|Hneg].
  { rewrite gibbs_at_negative by exact Hneg.
    unfold gibbs_pt0_pt0_at. rewrite Rltb_true by exact Hneg.
    destruct b; reflexivity. }
  apply (engine_020_at_surface cte _ _ s b eq_refl).
  destruct (Rlt_dec 0 s) as [Hpos|Hpos].
  - left. split; [|exact Hpos].
    apply nonzero_SA_of_positive. exists i, s. split; assumption.
  - right. assert (s = 0) as -> by lra. split; [|reflexivity].
    exact (not_positive_nonzero_SA SA i 0 HSA (Hzero eq_refl)).
Qed.

(** A batch of a positive and a zero salinity, read at the positive one. *)
Lemma gibbs_pt0_pt0_is_engine_at_surface_witness :
  result_at (_gibbs teos10 0 2 0 [Some 35; Some 0] [Some 10; Some 10]
               ((fun _ : mreal => Some 0) <$> [Some 10; Some 10])) 0
  = Ok (_gibbs_pt0_pt0 teos10 [Some 35; Some 0] [Some 10; Some 10] !! 0%nat).
Proof.
  apply (gibbs_pt0_pt0_is_engine_at_surface teos10 [Some 35; Some 0]
           [Some 10; Some 10] 0).
  cbn [lookup list_lookup]. intros H. injection H as H. lra.
Defined.

(** ** Entropy and the part of it the solvers use *)

Lemma entropy_rows (cte : Constants) (SA t p : marray) (br : branch) :
  gibbs_branch cte 0 1 0 = Ok br ->
  entropy cte SA t p
  = Ok (mneg <$> map3 (gibbs_at cte br (nonzero_SA_of SA)) SA t p).
Proof.
  intros Hbr. unfold entropy, n0, n1.
  rewrite (gibbs_rows cte 0 1 0 br _ _ _ Hbr). reflexivity.
Qed.

(** X3. At a positive salinity, [entropy] and [_entropy_part] differ by
    terms in the salinity alone: between two states of one salinity the
    difference of the entropies is the difference of the entropy parts.
    (This is what lets [potential_t] equate entropy parts instead of
    entropies.) *)
Theorem entropy_part_carries_entropy_differences (cte : Constants)
    (SA t p t' p' : marray) (i : nat) (s a b a' b' : R) :
  SA !! i = Some (Some s) -> 0 < s ->
  t !! i = Some (Some a) -> p !! i = Some (Some b) ->
  t' !! i = Some (Some a') -> p' !! i = Some (Some b') ->
  exists e e' ep ep' : R,
    result_at (entropy cte SA t p) i = Ok (Some (Some e)) /\
    result_at (entropy cte SA t' p') i = Ok (Some (Some e')) /\
    _entropy_part cte SA t p !! i = Some (Some ep) /\
    _entropy_part cte SA t' p' !! i = Some (Some ep') /\
    e - e' = ep - ep'.
Proof.
  intros HSA Hs Ht Hp Ht' Hp'.
  rewrite !(entropy_rows cte _ _ _ _ eq_refl), !entropy_part_rows.
  cbn [result_at].
  rewrite nonzero_SA_of_positive by (exists i, s; split; assumption).
  rewrite !(fmap_lookup _ _ i _ (map3_lookup _ _ _ _ i _ _ _ HSA Ht Hp)).
  rewrite !(fmap_lookup _ _ i _ (map3_lookup _ _ _ _ i _ _ _ HSA Ht' Hp')).
  rewrite (map3_lookup _ _ _ _ i _ _ _ HSA Ht Hp).
  rewrite (map3_lookup _ _ _ _ i _ _ _ HSA Ht' Hp').
  unfold gibbs_at, mask_at, entropy_part_at. cbn [mbind option_bind].
  rewrite (Rleb_false s 0 Hs), (Rltb_false s 0) by lra.
  cbn [orb all_masked gibbs fill mneg mbind option_bind].
  rewrite (Rltb_true 0 s Hs).
  do 4 eexists. repeat (split; [reflexivity|]).
  unfold G010.g03, G010.g08, G010.g08_log, EntropyPart.g03, EntropyPart.g08.
  ring.
Qed.

(** Standard seawater at two states. *)
Lemma entropy_part_carries_entropy_differences_witness :
  exists e e' ep ep' : R,
    result_at (entropy teos10 [Some 35] [Some 10] [Some 100]) 0
    = Ok (Some (Some e)) /\
    result_at (entropy teos10 [Some 35] [Some 4] [Some 0]) 0
    = Ok (Some (Some e')) /\
    _entropy_part teos10 [Some 35] [Some 10] [Some 100] !! 0%nat
    = Some (Some ep) /\
    _entropy_part teos10 [Some 35] [Some 4] [Some 0] !! 0%nat
    = Some (Some ep') /\
    e - e' = ep - ep'.
Proof.
  apply (entropy_part_carries_entropy_differences teos10 [Some 35]
           [Some 10] [Some 100] [Some 4] [Some 0] 0 35 10 100 4 0);
    try reflexivity.
  lra.
Defined.

(** ** Thermodynamic identities between the derived quantities *)

(** The engine's calls with literal orders, position by position. *)
Ltac engine_rows :=
  unfold n0, n1, n2;
  repeat match goal with
  | |- context [ _gibbs ?cte ?a ?b ?c ?SA ?t ?p ] =>
      rewrite (gibbs_rows cte a b c _ SA t p eq_refl)
  end;
  cbn [mbind result_bind].

(** Both sides of an equation between arrays, read at one position. *)
Ltac rows_at i :=
  apply list_eq; intros i; unfold map3, map4;
  rewrite ?lookup_zip_with, ?list_lookup_fmap, ?lookup_zip_with,
    ?list_lookup_fmap, ?lookup_zip_with, ?list_lookup_fmap.

(** The cases of the engine's mask at a position. *)
Ltac engine_mask_cases nz s :=
  unfold gibbs_at, mask_at;
  destruct nz; cbn [mbind option_bind fill];
  try destruct (Rleb s 0); try destruct (Rltb s 0);
  cbn [orb all_masked gibbs fill mbind option_bind].

Lemma msqrt_Some (x : R) : 0 <= x -> msqrt (Some x) = Some (sqrt x).
Proof.
  intros Hx. unfold msqrt. cbn [mbind option_bind].
  rewrite Rltb_false by exact Hx. reflexivity.
Qed.

(** The engine on fresh water at 0 degrees C and 0 dbar. *)
Lemma gibbs_fresh_surface :
  _gibbs teos10 0 0 1 [Some 0] [Some 0] [Some 0]
  = Ok [Some (100015.695367145 * 1e-8)] /\
  _gibbs teos10 0 2 0 [Some 0] [Some 0] [Some 0]
  = Ok [Some (-24715.571866078 * 0.000625)] /\
  _gibbs teos10 0 1 1 [Some 0] [Some 0] [Some 0]
  = Ok [Some (-270.983805184062 * 2.5e-10)] /\
  _gibbs teos10 0 0 2 [Some 0] [Some 0] [Some 0]
  = Ok [Some (-5089.1530840726 * 1e-16)].
Proof.
  assert (Hy : 0 * 0.025 = 0) by lra.
  assert (Hz : 0 * 1e-4 = 0) by lra.
  repeat split.
  - rewrite (gibbs_rows teos10 0 0 1 _ _ _ _ eq_refl).
    rewrite nonzero_SA_of_single, Rltb_0_0.
    cbn [map3 zip_with zip fst snd]. eval_gibbs_at.
    do 3 f_equal. unfold G001.g03. rewrite Hy, Hz. ring.
  - rewrite (gibbs_rows teos10 0 2 0 _ _ _ _ eq_refl).
    rewrite nonzero_SA_of_single, Rltb_0_0.
    cbn [map3 zip_with zip fst snd]. eval_gibbs_at.
    do 3 f_equal. unfold G020.g03. rewrite Hy, Hz. ring.
  - rewrite (gibbs_rows teos10 0 1 1 _ _ _ _ eq_refl).
    rewrite nonzero_SA_of_single, Rltb_0_0.
    cbn [map3 zip_with zip fst snd]. eval_gibbs_at.
    do 3 f_equal. unfold G011.g03. rewrite Hy, Hz. ring.
  - rewrite (gibbs_rows teos10 0 0 2 _ _ _ _ eq_refl).
    rewrite nonzero_SA_of_single, Rltb_0_0.
    cbn [map3 zip_with zip fst snd]. eval_gibbs_at.
    do 3 f_equal. unfold G002.g03. rewrite Hy, Hz. ring.
Qed.

(** X4. Helmholtz energy is internal energy minus absolute temperature
    times entropy, on every batch and at every position, masked ones
    included. *)
Theorem helmholtz_energy_from_internal_energy (cte : Constants)
    (more : MoreConstants) (SA t p : marray) :
  helmholtz_energy cte more SA t p
  = (u ← internal_energy cte more SA t p;
     eta ← entropy cte SA t p;
     Ok (map3 (fun u t eta : mreal => u - (#(Kelvin cte) + t) * eta)%ma
           u t eta)).
Proof.
  unfold helmholtz_energy, internal_energy, entropy. engine_rows. f_equal.
  rows_at i.
  destruct (SA !! i) as [a|], (t !! i) as [b|], (p !! i) as [c|];
    try reflexivity.
  cbn [mbind option_bind fmap option_fmap option_map fst snd]. f_equal.
  destruct a as [s|], b as [tv|], c as [pv|];
    engine_mask_cases (nonzero_SA_of SA) s; try reflexivity;
    unfold const; cbn [madd msub mmul mneg mbind option_bind]; f_equal; ring.
Qed.

(** X5. Enthalpy is internal energy plus absolute pressure times specific
    volume, on every batch and at every position. *)
Theorem enthalpy_from_internal_energy (cte : Constants)
    (more : MoreConstants) (SA t p : marray) :
  enthalpy cte SA t p
  = (u ← internal_energy cte more SA t p;
     v ← specvol cte SA t p;
     Ok (map3 (fun u p v : mreal =>
                 u + ( #(db2Pascal more) * p + #101325 ) * v)%ma u p v)).
Proof.
  unfold enthalpy, internal_energy, specvol. engine_rows. f_equal.
  rows_at i.
  destruct (SA !! i) as [a|], (t !! i) as [b|], (p !! i) as [c|];
    try reflexivity.
  cbn [mbind option_bind fmap option_fmap option_map fst snd]. f_equal.
  destruct a as [s|], b as [tv|], c as [pv|];
    engine_mask_cases (nonzero_SA_of SA) s; try reflexivity;
    unfold const; cbn [madd msub mmul mneg mbind option_bind]; f_equal; ring.
Qed.

(** X6. The Gibbs energy the engine returns at order (0,0,0) is enthalpy
    minus absolute temperature times entropy, on every batch and at every
    position. *)
Theorem gibbs_energy_from_enthalpy (cte : Constants) (SA t p : marray) :
  _gibbs cte 0 0 0 SA t p
  = (h ← enthalpy cte SA t p;
     eta ← entropy cte SA t p;
     Ok (map3 (fun h t eta : mreal => h - (#(Kelvin cte) + t) * eta)%ma
           h t eta)).
Proof.
  unfold enthalpy, entropy. engine_rows. f_equal.
  rows_at i.
  destruct (SA !! i) as [a|], (t !! i) as [b|], (p !! i) as [c|];
    try reflexivity.
  cbn [mbind option_bind fmap option_fmap option_map fst snd]. f_equal.
  destruct a as [s|], b as [tv|], c as [pv|];
    engine_mask_cases (nonzero_SA_of SA) s; try reflexivity;
    unfold const; cbn [madd msub mmul mneg mbind option_bind]; f_equal; ring.
Qed.

(** What the engine returned at a position, as an unknown. *)
Ltac engine_values :=
  repeat match goal with
  | H : context [ gibbs_at ?c ?br ?nz ?a ?b ?cc ] |- _ =>
      let g := fresh "g" in
      destruct (gibbs_at c br nz a b cc) as [g|]
  | |- context [ gibbs_at ?c ?br ?nz ?a ?b ?cc ] =>
      let g := fresh "g" in
      destruct (gibbs_at c br nz a b cc) as [g|]
  end.

Ltac rows_in H :=
  unfold map3, map4 in H;
  rewrite ?lookup_zip_with, ?list_lookup_fmap, ?lookup_zip_with,
    ?list_lookup_fmap, ?lookup_zip_with, ?list_lookup_fmap in H.

Lemma mdiv_inv (a b : mreal) (q : R) :
  (a / b)%ma = Some q ->
  exists x y : R, a = Some x /\ b = Some y /\ y <> 0 /\ q = x / y.
Proof.
  unfold mdiv. destruct a as [x|], b as [y|]; cbn [mbind option_bind];
    try discriminate.
  destruct (decide (y = 0)); [discriminate|].
  intros [= <-]. exists x, y. repeat split; [assumption].
Qed.

Lemma msqrt_inv (a : mreal) (r : R) :
  msqrt a = Some r -> exists x : R, a = Some x /\ 0 <= x /\ r = sqrt x.
Proof.
  unfold msqrt. destruct a as [x|]; cbn [mbind option_bind];
    [|discriminate].
  destruct (Rltb x 0) eqn:E; [discriminate|].
  intros [= <-]. exists x. repeat split.
  unfold Rltb in E. apply bool_decide_eq_false in E. lra.
Qed.

(** X7. Where [rho] returns a number, [specvol] does, and their product
    is 1. *)
Theorem rho_times_specvol (cte : Constants) (SA t p : marray) (i : nat)
    (r : R) :
  result_at (rho cte SA t p) i = Ok (Some (Some r)) ->
  exists v : R,
    result_at (specvol cte SA t p) i = Ok (Some (Some v)) /\ r * v = 1.
Proof.
  unfold rho, specvol. engine_rows. cbn [result_at].
  intros H. injection H as H. rows_in H. unfold map3.
  rewrite ?lookup_zip_with.
  destruct (SA !! i) as [a|], (t !! i) as [b|], (p !! i) as [c|];
    try discriminate.
  cbn [mbind option_bind fmap option_fmap option_map fst snd] in *.
  injection H as H. engine_values; [|discriminate].
  unfold mdiv, const in H. cbn [mbind option_bind] in H.
  destruct (decide (g = 0)) as [|Hg]; [discriminate|].
  injection H as <-. exists g. split; [reflexivity|]. field. exact Hg.
Qed.

(** Fresh water at 0 degrees C and 0 dbar. *)
Lemma rho_times_specvol_witness :
  exists r v : R,
    result_at (rho teos10 [Some 0] [Some 0] [Some 0]) 0
    = Ok (Some (Some r)) /\
    result_at (specvol teos10 [Some 0] [Some 0] [Some 0]) 0
    = Ok (Some (Some v)) /\ r * v = 1.
Proof.
  destruct gibbs_fresh_surface as (E1 & _).
  set (g001 := 100015.695367145 * 1e-8) in *.
  assert (H1 : g001 <> 0) by (unfold g001; lra).
  assert (Hr : result_at (rho teos10 [Some 0] [Some 0] [Some 0]) 0
               = Ok (Some (Some (1 / g001)))).
  { unfold rho, n0, n1. rewrite E1. cbn [mbind result_bind result_at].
    cbn [fmap list_fmap lookup list_lookup]. unfold const.
    rewrite mdiv_Some by exact H1. reflexivity. }
  destruct (rho_times_specvol teos10 [Some 0] [Some 0] [Some 0] 0 (1 / g001)
              Hr) as (v & Hv & E).
  exists (1 / g001), v. split; [exact Hr|]. split; [exact Hv|exact E].
Defined.

(** X8. Where [sound_speed] and [kappa] return numbers, [rho] does, and
    the squared sound speed is the reciprocal of density times isentropic
    compressibility. *)
Theorem sound_speed_squared (cte : Constants) (SA t p : marray) (i : nat)
    (c k : R) :
  result_at (sound_speed cte SA t p) i = Ok (Some (Some c)) ->
  result_at (kappa cte SA t p) i = Ok (Some (Some k)) ->
  exists r : R,
    result_at (rho cte SA t p) i = Ok (Some (Some r)) /\
    c * c * (r * k) = 1.
Proof.
  unfold sound_speed, kappa, rho. engine_rows. cbn [result_at].
  intros Hc Hk. injection Hc as Hc. injection Hk as Hk.
  rows_in Hc. rows_in Hk. unfold map3. rewrite ?list_lookup_fmap.
  rewrite ?lookup_zip_with.
  destruct (SA !! i) as [a|], (t !! i) as [b|], (p !! i) as [d|];
    try discriminate.
  cbn [mbind option_bind fmap option_fmap option_map fst snd] in *.
  injection Hc as Hc. injection Hk as Hk.
  engine_values;
    unfold mdiv, mmul, msub, mpow, msqrt, const in *;
    cbn [mbind option_bind] in *; try discriminate.
  rename g into g011, g0 into g020, g1 into g002, g2 into g001.
  destruct (decide (g011 ^ 2 - g020 * g002 = 0)) as [|HD]; [discriminate|].
  cbn [mbind option_bind] in Hc.
  destruct (Rltb (g020 / (g011 ^ 2 - g020 * g002)) 0) eqn:Hq;
    [discriminate|].
  injection Hc as <-.
  destruct (decide (g001 * g020 = 0)) as [|HN]; [discriminate|].
  injection Hk as <-.
  assert (H1 : g001 <> 0) by (intros ->; apply HN; ring).
  assert (H2 : g020 <> 0) by (intros ->; apply HN; ring).
  destruct (decide (g001 = 0)) as [|_]; [contradiction|].
  eexists. split; [reflexivity|].
  unfold Rltb in Hq. apply bool_decide_eq_false in Hq.
  apply Rnot_lt_le in Hq.
  cbn [pow] in *.
  match goal with |- context [ sqrt ?q ] => set (S := sqrt q) end.
  assert (E : S * S = g020 / (g011 * (g011 * 1) - g020 * g002))
    by (apply sqrt_sqrt, Hq).
  transitivity (S * S * ((g011 * g011 - g020 * g002) / g020)).
  - field. split; assumption.
  - rewrite E. field. split; [assumption|].
    intros H. apply HD. rewrite <- H. ring.
Qed.

(** Fresh water at 0 degrees C and 0 dbar. *)
Lemma sound_speed_squared_witness :
  exists c k r : R,
    result_at (sound_speed teos10 [Some 0] [Some 0] [Some 0]) 0
    = Ok (Some (Some c)) /\
    result_at (kappa teos10 [Some 0] [Some 0] [Some 0]) 0
    = Ok (Some (Some k)) /\
    result_at (rho teos10 [Some 0] [Some 0] [Some 0]) 0
    = Ok (Some (Some r)) /\
    c * c * (r * k) = 1.
Proof.
  destruct gibbs_fresh_surface as (E1 & E2 & E3 & E4).
  set (g001 := 100015.695367145 * 1e-8) in *.
  set (g020 := -24715.571866078 * 0.000625) in *.
  set (g011 := -270.983805184062 * 2.5e-10) in *.
  set (g002 := -5089.1530840726 * 1e-16) in *.
  assert (HD : g011 ^ 2 - g020 * g002 < 0) by (unfold g011, g020, g002; lra).
  assert (Hq : 0 <= g020 / (g011 ^ 2 - g020 * g002)).
  { replace (g020 / (g011 ^ 2 - g020 * g002))
      with (- g020 / - (g011 ^ 2 - g020 * g002)) by (field; lra).
    apply Rmult_le_pos; [unfold g020; lra|].
    left. apply Rinv_0_lt_compat. lra. }
  assert (HN : g001 * g020 <> 0) by (unfold g001, g020; lra).
  assert (Hc : result_at (sound_speed teos10 [Some 0] [Some 0] [Some 0]) 0
               = Ok (Some (Some
                   (g001 * sqrt (g020 / (g011 ^ 2 - g020 * g002)))))).
  { unfold sound_speed, n0, n1, n2. rewrite E1, E2, E3, E4.
    cbn [mbind result_bind result_at map4 zip_with zip fst snd lookup
           list_lookup].
    unfold mpow, mmul, msub. cbn [mbind option_bind].
    rewrite mdiv_Some by lra. rewrite msqrt_Some by exact Hq.
    reflexivity. }
  assert (Hk : result_at (kappa teos10 [Some 0] [Some 0] [Some 0]) 0
               = Ok (Some (Some
                   ((g011 * g011 - g020 * g002) / (g001 * g020))))).
  { unfold kappa, n0, n1, n2. rewrite E1, E2, E3, E4.
    cbn [mbind result_bind result_at map4 zip_with zip fst snd lookup
           list_lookup].
    unfold mmul, msub. cbn [mbind option_bind].
    rewrite mdiv_Some by exact HN. reflexivity. }
  destruct (sound_speed_squared teos10 [Some 0] [Some 0] [Some 0] 0 _ _
              Hc Hk) as (r & Hr & E).
  do 3 eexists. repeat split; eassumption.
Defined.

(** X9. Where the five quantities are numbers, the heat capacities at
    constant pressure and at constant volume differ by
    T v alpha^2 / kappa_T, with T the absolute temperature, v the specific
    volume, alpha the thermal expansion and kappa_T the isothermal
    compressibility (which is not zero there). *)
Theorem heat_capacity_difference (cte : Constants) (SA t p : marray)
    (i : nat) (T cpv cv v al kt : R) :
  t !! i = Some (Some T) ->
  result_at (cp cte SA t p) i = Ok (Some (Some cpv)) ->
  result_at (isochoric_heat_cap cte SA t p) i = Ok (Some (Some cv)) ->
  result_at (specvol cte SA t p) i = Ok (Some (Some v)) ->
  result_at (alpha_wrt_t cte SA t p) i = Ok (Some (Some al)) ->
  result_at (kappa_const_t cte SA t p) i = Ok (Some (Some kt)) ->
  kt <> 0 /\ cpv - cv = (Kelvin cte + T) * v * al ^ 2 / kt.
Proof.
  unfold cp, isochoric_heat_cap, specvol, alpha_wrt_t, kappa_const_t.
  engine_rows. cbn [result_at].
  intros Ht Hcp Hcv Hv Hal Hkt.
  injection Hcp as Hcp. injection Hcv as Hcv. injection Hv as Hv.
  injection Hal as Hal. injection Hkt as Hkt.
  rows_in Hcp. rows_in Hcv. rows_in Hv. rows_in Hal. rows_in Hkt.
  rewrite Ht in *.
  destruct (SA !! i) as [a|], (p !! i) as [d|]; try discriminate.
  cbn [mbind option_bind fmap option_fmap option_map fst snd] in *.
  injection Hcp as Hcp. injection Hcv as Hcv. injection Hv as Hv.
  injection Hal as Hal. injection Hkt as Hkt.
  engine_values;
    unfold mdiv, mmul, msub, madd, mneg, const in *;
    cbn [mbind option_bind] in *; try discriminate.
  repeat match goal with
  | H : context [ decide (?x = 0) ] |- _ =>
      destruct (decide (x = 0)); [discriminate|];
      cbn [mbind option_bind] in H
  end.
  injection Hcp as <-. injection Hcv as <-. injection Hv as <-.
  injection Hal as <-. injection Hkt as <-.
  split.
  - unfold Rdiv. apply Rmult_integral_contrapositive_currified.
    + lra.
    + apply Rinv_neq_0_compat. assumption.
  - field. split; assumption.
Qed.

(** Fresh water at 0 degrees C and 0 dbar. *)
Lemma heat_capacity_difference_witness :
  exists cpv cv v al kt : R,
    result_at (cp teos10 [Some 0] [Some 0] [Some 0]) 0
    = Ok (Some (Some cpv)) /\
    result_at (isochoric_heat_cap teos10 [Some 0] [Some 0] [Some 0]) 0
    = Ok (Some (Some cv)) /\
    result_at (specvol teos10 [Some 0] [Some 0] [Some 0]) 0
    = Ok (Some (Some v)) /\
    result_at (alpha_wrt_t teos10 [Some 0] [Some 0] [Some 0]) 0
    = Ok (Some (Some al)) /\
    result_at (kappa_const_t teos10 [Some 0] [Some 0] [Some 0]) 0
    = Ok (Some (Some kt)) /\
    kt <> 0 /\ cpv - cv = (Kelvin teos10 + 0) * v * al ^ 2 / kt.
Proof.
  destruct gibbs_fresh_surface as (E1 & E2 & E3 & E4).
  set (g001 := 100015.695367145 * 1e-8) in *.
  set (g020 := -24715.571866078 * 0.000625) in *.
  set (g011 := -270.983805184062 * 2.5e-10) in *.
  set (g002 := -5089.1530840726 * 1e-16) in *.
  assert (H1 : g001 <> 0) by (unfold g001; lra).
  assert (H2 : g002 <> 0) by (unfold g002; lra).
  assert (Hcp : result_at (cp teos10 [Some 0] [Some 0] [Some 0]) 0
                = Ok (Some (Some (- (0 + Kelvin teos10) * g020)))).
  { unfold cp, n0, n1, n2. rewrite E2. reflexivity. }
  assert (Hcv : result_at
                  (isochoric_heat_cap teos10 [Some 0] [Some 0] [Some 0]) 0
                = Ok (Some (Some (- (Kelvin teos10 + 0)
                                  * (g020 - g011 * g011 / g002))))).
  { unfold isochoric_heat_cap, n0, n1, n2. rewrite E2, E3, E4.
    cbn [mbind result_bind result_at map4 zip_with zip fst snd lookup
           list_lookup].
    unfold mmul, msub, madd, mneg, const. cbn [mbind option_bind].
    rewrite mdiv_Some by exact H2. reflexivity. }
  assert (Hv : result_at (specvol teos10 [Some 0] [Some 0] [Some 0]) 0
               = Ok (Some (Some g001))).
  { unfold specvol, n0, n1. rewrite E1. reflexivity. }
  assert (Hal : result_at (alpha_wrt_t teos10 [Some 0] [Some 0] [Some 0]) 0
                = Ok (Some (Some (g011 / g001)))).
  { unfold alpha_wrt_t, n0, n1. rewrite E3, E1.
    cbn [mbind result_bind result_at zip_with lookup list_lookup].
    rewrite mdiv_Some by exact H1. reflexivity. }
  assert (Hkt : result_at (kappa_const_t teos10 [Some 0] [Some 0] [Some 0]) 0
                = Ok (Some (Some (- g002 / g001)))).
  { unfold kappa_const_t, n0, n1, n2. rewrite E4, E1.
    cbn [mbind result_bind result_at zip_with lookup list_lookup].
    unfold mneg. cbn [mbind option_bind].
    rewrite mdiv_Some by exact H1. reflexivity. }
  destruct (heat_capacity_difference teos10 [Some 0] [Some 0] [Some 0] 0 0
              _ _ _ _ _ eq_refl Hcp Hcv Hv Hal Hkt) as (Hk0 & E).
  do 5 eexists. repeat split; eassumption.
Defined.

(** X10. Where the four quantities are numbers and the heat capacity is
    not 0, the adiabatic lapse rate is T v alpha / cp, with T the absolute
    temperature, v the specific volume and alpha the thermal expansion. *)
Theorem adiabatic_lapse_rate_from_cp (cte : Constants) (SA t p : marray)
    (i : nat) (T G v al c : R) :
  t !! i = Some (Some T) ->
  result_at (adiabatic_lapse_rate cte SA t p) i = Ok (Some (Some G)) ->
  result_at (specvol cte SA t p) i = Ok (Some (Some v)) ->
  result_at (alpha_wrt_t cte SA t p) i = Ok (Some (Some al)) ->
  result_at (cp cte SA t p) i = Ok (Some (Some c)) ->
  c <> 0 ->
  G = (Kelvin cte + T) * v * al / c.
Proof.
  unfold adiabatic_lapse_rate, specvol, alpha_wrt_t, cp.
  engine_rows. cbn [result_at].
  intros Ht HG Hv Hal Hcp Hc0.
  injection HG as HG. injection Hv as Hv. injection Hal as Hal.
  injection Hcp as Hcp.
  rows_in HG. rows_in Hv. rows_in Hal. rows_in Hcp.
  rewrite Ht in *.
  destruct (SA !! i) as [a|], (p !! i) as [d|]; try discriminate.
  cbn [mbind option_bind fmap option_fmap option_map fst snd] in *.
  injection HG as HG. injection Hv as Hv. injection Hal as Hal.
  injection Hcp as Hcp.
  engine_values;
    unfold mdiv, mmul, msub, madd, mneg, const in *;
    cbn [mbind option_bind] in *; try discriminate.
  repeat match goal with
  | H : context [ decide (?x = 0) ] |- _ =>
      destruct (decide (x = 0)); [discriminate|];
      cbn [mbind option_bind] in H
  end.
  injection HG as <-. injection Hv as <-. injection Hal as <-.
  injection Hcp as <-.
  field. repeat split; try assumption.
  intros HK. apply Hc0. rewrite HK. ring.
Qed.

(** Fresh water at 0 degrees C and 0 dbar. *)
Lemma adiabatic_lapse_rate_from_cp_witness :
  exists G v al c : R,
    result_at (adiabatic_lapse_rate teos10 [Some 0] [Some 0] [Some 0]) 0
    = Ok (Some (Some G)) /\
    result_at (specvol teos10 [Some 0] [Some 0] [Some 0]) 0
    = Ok (Some (Some v)) /\
    result_at (alpha_wrt_t teos10 [Some 0] [Some 0] [Some 0]) 0
    = Ok (Some (Some al)) /\
    result_at (cp teos10 [Some 0] [Some 0] [Some 0]) 0
    = Ok (Some (Some c)) /\
    c <> 0 /\
    G = (Kelvin teos10 + 0) * v * al / c.
Proof.
  destruct gibbs_fresh_surface as (E1 & E2 & E3 & E4).
  set (g001 := 100015.695367145 * 1e-8) in *.
  set (g020 := -24715.571866078 * 0.000625) in *.
  set (g011 := -270.983805184062 * 2.5e-10) in *.
  assert (H1 : g001 <> 0) by (unfold g001; lra).
  assert (H2 : g020 <> 0) by (unfold g020; lra).
  assert (HG : result_at
                 (adiabatic_lapse_rate teos10 [Some 0] [Some 0] [Some 0]) 0
               = Ok (Some (Some (- g011 / g020)))).
  { unfold adiabatic_lapse_rate, n0, n1, n2. rewrite E3, E2.
    cbn [mbind result_bind result_at zip_with lookup list_lookup].
    unfold mneg. cbn [mbind option_bind].
    rewrite mdiv_Some by exact H2. reflexivity. }
  assert (Hv : result_at (specvol teos10 [Some 0] [Some 0] [Some 0]) 0
               = Ok (Some (Some g001))).
  { unfold specvol, n0, n1. rewrite E1. reflexivity. }
  assert (Hal : result_at (alpha_wrt_t teos10 [Some 0] [Some 0] [Some 0]) 0
                = Ok (Some (Some (g011 / g001)))).
  { unfold alpha_wrt_t, n0, n1. rewrite E3, E1.
    cbn [mbind result_bind result_at zip_with lookup list_lookup].
    rewrite mdiv_Some by exact H1. reflexivity. }
  assert (Hcp : result_at (cp teos10 [Some 0] [Some 0] [Some 0]) 0
                = Ok (Some (Some (- (0 + Kelvin teos10) * g020)))).
  { unfold cp, n0, n1, n2. rewrite E2. reflexivity. }
  assert (Hc0 : - (0 + Kelvin teos10) * g020 <> 0).
  { unfold g020, teos10. cbn [Kelvin]. lra. }
  pose proof (adiabatic_lapse_rate_from_cp teos10 [Some 0] [Some 0]
                [Some 0] 0 0 _ _ _ _ eq_refl HG Hv Hal Hcp Hc0) as E.
  exists (- g011 / g020), g001, (g011 / g001),
    (- (0 + Kelvin teos10) * g020).
  split; [exact HG|]. split; [exact Hv|]. split; [exact Hal|].
  split; [exact Hcp|]. split; [exact Hc0|exact E].
Defined.

(** ** Chemical potentials *)

Lemma chem_potential_water_rows (cte : Constants) (SA t p : marray) :
  chem_potential_water cte SA t p
  = map3 (chem_potential_water_at cte) SA t p.
Proof.
  unfold chem_potential_water, strip_mask3, ma_array, map3, filled,
    getmaskarray, mask_negative.
  cbv beta iota zeta.
  apply list_eq. intros i.
  rewrite !lookup_zip_with, !list_lookup_fmap.
  destruct (SA !! i) as [[d|]|], (t !! i) as [[b|]|], (p !! i) as [[c|]|];
    simpl; try reflexivity;
    try (destruct (Rltb d 0); reflexivity).
Qed.

(** The literal polynomial of [chem_potential_water] against those of the
    engine's orders (0,0,0) and (1,0,0), logarithmic terms included. *)
Lemma chem_potential_water_polynomial (f s x y z : R) :
  ChemPotentialWater.g03_g y z + ChemPotentialWater.g08_g (f * s) x y z
  - 0.5 * f * s * ChemPotentialWater.g_SA_part x y z
  = G000.g03 y z + (G000.g08 (f * s) x y z + G000.g08_log (f * s) x y)
    - s * (0.5 * f * (G100.g08 x y z + G100.g08_log x y)).
Proof.
  unfold ChemPotentialWater.g03_g, ChemPotentialWater.g08_g,
    ChemPotentialWater.g_SA_part, G000.g03, G000.g08, G000.g08_log,
    G100.g08, G100.g08_log.
  pose (t1 := / 10).
  replace 0.5 with (5 * t1) by (unfold t1; lra).
  pose (T := / 10000000000000000).
  scale_literals T 16%Z ltac:(unfold T).
  by_unit_relation t1 10.
Qed.

(** X11. At a positive salinity the literal polynomial of
    [chem_potential_water] is the Gibbs energy minus salinity times its
    salinity derivative, both as the engine returns them: the logarithmic
    terms of the two engine orders cancel. *)
Theorem chem_potential_water_from_engine (cte : Constants)
    (SA t p : marray) (i : nat) (s a b : R) :
  SA !! i = Some (Some s) -> 0 < s ->
  t !! i = Some (Some a) -> p !! i = Some (Some b) ->
  exists w g gs : R,
    chem_potential_water cte SA t p !! i = Some (Some w) /\
    result_at (_gibbs cte 0 0 0 SA t p) i = Ok (Some (Some g)) /\
    result_at (_gibbs cte 1 0 0 SA t p) i = Ok (Some (Some gs)) /\
    w = g - s * gs.
Proof.
  intros HSA Hs Ht Hp.
  rewrite chem_potential_water_rows.
  rewrite (gibbs_rows cte 0 0 0 _ _ _ _ eq_refl).
  rewrite (gibbs_rows cte 1 0 0 _ _ _ _ eq_refl).
  cbn [result_at].
  rewrite nonzero_SA_of_positive by (exists i, s; split; assumption).
  rewrite !(map3_lookup _ _ _ _ i _ _ _ HSA Ht Hp).
  unfold gibbs_at, mask_at, chem_potential_water_at.
  cbn [mbind option_bind].
  rewrite (Rleb_false s 0 Hs), (Rltb_false s 0) by lra.
  cbn [orb all_masked gibbs fill]. rewrite (Rltb_true 0 s Hs).
  do 3 eexists. repeat (split; [reflexivity|]).
  cbv zeta. apply chem_potential_water_polynomial.
Qed.

(** Standard seawater. *)
Lemma chem_potential_water_from_engine_witness :
  exists w g gs : R,
    chem_potential_water teos10 [Some 35] [Some 10] [Some 100] !! 0%nat
    = Some (Some w) /\
    result_at (_gibbs teos10 0 0 0 [Some 35] [Some 10] [Some 100]) 0
    = Ok (Some (Some g)) /\
    result_at (_gibbs teos10 1 0 0 [Some 35] [Some 10] [Some 100]) 0
    = Ok (Some (Some gs)) /\
    w = g - 35 * gs.
Proof.
  apply (chem_potential_water_from_engine teos10 [Some 35] [Some 10]
           [Some 100] 0 35 10 100); try reflexivity.
  lra.
Defined.

(** X12. At a positive salinity [chem_potential_salt] is the Gibbs energy
    plus (1 - SA) times its salinity derivative, both as the engine
    returns them. *)
Theorem chem_potential_salt_from_engine (cte : Constants)
    (SA t p : marray) (i : nat) (s a b : R) :
  SA !! i = Some (Some s) -> 0 < s ->
  t !! i = Some (Some a) -> p !! i = Some (Some b) ->
  exists m g gs : R,
    result_at (chem_potential_salt cte SA t p) i = Ok (Some (Some m)) /\
    result_at (_gibbs cte 0 0 0 SA t p) i = Ok (Some (Some g)) /\
    result_at (_gibbs cte 1 0 0 SA t p) i = Ok (Some (Some gs)) /\
    m = g + (1 - s) * gs.
Proof.
  intros HSA Hs Ht Hp.
  unfold chem_potential_salt, chem_potential_relative, n0, n1.
  rewrite chem_potential_water_rows.
  rewrite (gibbs_rows cte 0 0 0 _ _ _ _ eq_refl).
  rewrite (gibbs_rows cte 1 0 0 _ _ _ _ eq_refl).
  cbn [mbind result_bind result_at].
  rewrite nonzero_SA_of_positive by (exists i, s; split; assumption).
  rewrite lookup_zip_with.
  rewrite !(map3_lookup _ _ _ _ i _ _ _ HSA Ht Hp).
  unfold gibbs_at, mask_at, chem_potential_water_at.
  cbn [mbind option_bind].
  rewrite (Rleb_false s 0 Hs), (Rltb_false s 0) by lra.
  cbn [orb all_masked gibbs fill madd mbind option_bind].
  rewrite (Rltb_true 0 s Hs).
  do 3 eexists. repeat (split; [reflexivity|]).
  cbv zeta. rewrite chem_potential_water_polynomial. ring.
Qed.

(** Standard seawater. *)
Lemma chem_potential_salt_from_engine_witness :
  exists m g gs : R,
    result_at (chem_potential_salt teos10 [Some 35] [Some 10] [Some 100]) 0
    = Ok (Some (Some m)) /\
    result_at (_gibbs teos10 0 0 0 [Some 35] [Some 10] [Some 100]) 0
    = Ok (Some (Some g)) /\
    result_at (_gibbs teos10 1 0 0 [Some 35] [Some 10] [Some 100]) 0
    = Ok (Some (Some gs)) /\
    m = g + (1 - 35) * gs.
Proof.
  apply (chem_potential_salt_from_engine teos10 [Some 35] [Some 10]
           [Some 100] 0 35 10 100); try reflexivity.
  lra.
Defined.

(** ** Potential temperature referred to the surface *)

Ltac lookups :=
  unfold map3, map4;
  rewrite ?lookup_zip_with, ?list_lookup_fmap, ?lookup_zip_with,
    ?list_lookup_fmap, ?lookup_zip_with, ?list_lookup_fmap,
    ?lookup_zip_with, ?list_lookup_fmap.

(** A pass of [potential_t] with reference pressure 0 and a pass of
    [pt0_from_t] keep two states equal at a position of positive
    salinity. *)
Lemma potential_t_pass_surface (cte : Constants)
    (SA' SA pr tep1 tep2 : marray) (i : nat) (s : R) (st1 st2 : pt_state) :
  SA' !! i = Some (Some s) -> SA !! i = Some (Some s) -> 0 < s ->
  pr !! i = Some (Some 0) ->
  tep1 !! i = tep2 !! i ->
  pt_of st1 !! i = pt_of st2 !! i ->
  dentropy_dt_of st1 !! i = dentropy_dt_of st2 !! i ->
  exists st1',
    potential_t_pass cte SA' pr tep1 st1 = Ok st1' /\
    pt_of st1' !! i = pt_of (pt0_from_t_pass cte SA tep2 st2) !! i /\
    dentropy_dt_of st1' !! i
    = dentropy_dt_of (pt0_from_t_pass cte SA tep2 st2) !! i.
Proof.
  intros HSA' HSA Hs Hpr Htep Hpt HD.
  unfold potential_t_pass, pt0_from_t_pass, n0, n2.
  rewrite (gibbs_rows cte 0 2 0 _ _ _ _ eq_refl).
  cbn [mbind result_bind]. eexists. split; [reflexivity|].
  cbn [pt_of dentropy_dt_of].
  rewrite (nonzero_SA_of_positive SA') by (exists i, s; split; assumption).
  rewrite !entropy_part_rows, !entropy_part_zerop_rows, !gibbs_pt0_pt0_rows.
  lookups. rewrite HSA', HSA, Hpr, Htep, Hpt, HD.
  destruct (pt_of st2 !! i) as [x|], (tep2 !! i) as [e|],
    (dentropy_dt_of st2 !! i) as [D|];
    cbn [mbind option_bind fmap option_fmap option_map fst snd];
    rewrite ?entropy_part_at_surface;
    rewrite ?(engine_020_at_surface cte _ true s _ eq_refl)
      by (left; split; [reflexivity|exact Hs]);
    split; reflexivity.
Qed.

(** X13. [pt0_from_t] is [potential_t] with the reference pressure at the
    surface: at every position of positive salinity the two return the
    same, be it a number or a masked position. *)
Theorem pt0_from_t_is_potential_t_at_surface (cte : Constants)
    (SA t p : marray) (i : nat) (s : R) (a b : mreal) :
  SSO cte <> 0 ->
  SA !! i = Some (Some s) -> 0 < s ->
  t !! i = Some a -> p !! i = Some b ->
  result_at (potential_t cte SA t p ((fun _ : mreal => Some 0) <$> p)) i
  = Ok (pt0_from_t cte SA t p !! i).
Proof.
  intros HSSO HSA Hs Ht Hp.
  unfold potential_t, pt0_from_t. cbv zeta.
  set (SA' := clamp_negative SA).
  set (pr := (fun _ : mreal => Some 0) <$> p).
  assert (HSA' : SA' !! i = Some (Some s)).
  { unfold SA', clamp_negative. rewrite list_lookup_fmap, HSA.
    cbn [fmap option_fmap option_map]. rewrite Rltb_false by lra.
    reflexivity. }
  assert (Hpr : pr !! i = Some (Some 0)).
  { unfold pr. rewrite list_lookup_fmap, Hp. reflexivity. }
  assert (Htep : _entropy_part cte SA' t p !! i
                 = _entropy_part cte SA t p !! i).
  { rewrite !entropy_part_rows. lookups. rewrite HSA', HSA. reflexivity. }
  match goal with
  | |- context [ for_range 2 _ ?st ] => set (st1 := st)
  end.
  match goal with
  | |- context [ Nat.iter 2 _ ?st ] => set (st2 := st)
  end.
  assert (Hpt : pt_of st1 !! i = pt_of st2 !! i).
  { unfold st1, st2. cbn [pt_of]. lookups.
    rewrite HSA', HSA, Ht, Hp, Hpr.
    cbn [mbind option_bind fmap option_fmap option_map fst snd].
    destruct a as [ta|], b as [pb|]; try reflexivity.
    ma_simpl. rewrite mdiv_Some by exact HSSO. ma_simpl.
    do 2 f_equal. field. exact HSSO. }
  assert (HD : dentropy_dt_of st1 !! i = dentropy_dt_of st2 !! i).
  { pose proof Hpt as Hpt'. unfold st1, st2 in Hpt' |- *.
    cbn [pt_of dentropy_dt_of] in Hpt' |- *.
    rewrite !(lookup_zip_with _ _ SA'), !(lookup_zip_with _ _ SA), Hpt',
      HSA', HSA.
    reflexivity. }
  destruct (potential_t_pass_surface cte SA' SA pr _ _ i s st1 st2
              HSA' HSA Hs Hpr Htep Hpt HD) as (st1' & E1 & Hpt1 & HD1).
  destruct (potential_t_pass_surface cte SA' SA pr _ _ i s st1' _
              HSA' HSA Hs Hpr Htep Hpt1 HD1) as (st1'' & E2 & Hpt2 & _).
  cbn [for_range Nat.iter]. rewrite E1. cbn [mbind result_bind].
  rewrite E2. cbn [mbind result_bind result_at]. rewrite Hpt2. reflexivity.
Qed.

(** Standard seawater at 10 degrees C and 1000 dbar. *)
Lemma pt0_from_t_is_potential_t_at_surface_witness :
  result_at (potential_t teos10 [Some 35] [Some 10] [Some 1000]
               ((fun _ : mreal => Some 0) <$> [Some 1000])) 0
  = Ok (pt0_from_t teos10 [Some 35] [Some 10] [Some 1000] !! 0%nat).
Proof.
  apply (pt0_from_t_is_potential_t_at_surface teos10 [Some 35] [Some 10]
           [Some 1000] 0 35 (Some 10) (Some 1000)); try reflexivity.
  - unfold teos10. cbn [SSO]. lra.
  - lra.
Defined.

(** A pass of [pt0_from_t] that starts on the in-situ temperature of a
    sample taken at the surface, with a defined non-zero Jacobian, ends
    on it, with the helper's Jacobian. *)
Lemma pt0_from_t_pass_fixed (cte : Constants) (SA t p : marray) (i : nat)
    (s ti v D : R) (st : pt_state) :
  SA !! i = Some (Some s) -> 0 <= s ->
  t !! i = Some (Some ti) ->
  p !! i = Some (Some 0) ->
  gibbs_pt0_pt0_at cte (Some s) (Some ti) = Some v -> v <> 0 ->
  pt_of st !! i = Some (Some ti) ->
  dentropy_dt_of st !! i = Some (Some D) -> D <> 0 ->
  let st' := pt0_from_t_pass cte SA (_entropy_part cte SA t p) st in
  pt_of st' !! i = Some (Some ti) /\
  dentropy_dt_of st' !! i = Some (Some (- v)).
Proof.
  intros HSA Hs Ht Hp Hv Hv0 Hpt HD HD0. cbv zeta.
  unfold pt0_from_t_pass. cbn [pt_of dentropy_dt_of].
  rewrite entropy_part_rows, entropy_part_zerop_rows, gibbs_pt0_pt0_rows.
  assert (He : exists e,
             entropy_part_zerop_at cte (Some s) (Some ti) = Some e).
  { unfold entropy_part_zerop_at. rewrite Rltb_false by lra.
    eexists; reflexivity. }
  destruct He as [e He].
  lookups. rewrite HSA, Ht, Hp, Hpt, HD.
  cbn [mbind option_bind fmap option_fmap option_map fst snd].
  rewrite entropy_part_at_surface, He.
  rewrite newton_step_fixed by exact HD0.
  replace (#0.5 * (Some ti + Some ti))%ma with (Some ti)
    by (ma_simpl; f_equal; lra).
  rewrite Hv. cbn [mneg mbind option_bind].
  rewrite newton_step_fixed by lra.
  split; reflexivity.
Qed.

(** X14. For a sample taken at the surface (p = 0), where the helper's
    second temperature derivative at (SA, t) is not zero and t is not
    absolute zero, [pt0_from_t(SA, t, p)] returns t. *)
Theorem pt0_from_t_at_surface (cte : Constants) (SA t p : marray) (i : nat)
    (s ti v : R) :
  0 < SSO cte -> cp0 cte <> 0 ->
  SA !! i = Some (Some s) -> 0 <= s ->
  t !! i = Some (Some ti) -> Kelvin cte + ti <> 0 ->
  p !! i = Some (Some 0) ->
  _gibbs_pt0_pt0 cte SA t !! i = Some (Some v) -> v <> 0 ->
  pt0_from_t cte SA t p !! i = Some (Some ti).
Proof.
  intros HSSO Hcp HSA Hs Ht HK Hp Hv Hv0.
  rewrite gibbs_pt0_pt0_rows, lookup_zip_with, HSA, Ht in Hv.
  cbn [mbind option_bind] in Hv. injection Hv as Hv.
  unfold pt0_from_t. cbv zeta.
  match goal with
  | |- context [ Nat.iter 2 _ ?st0 ] => set (st := st0)
  end.
  assert (Hpt : pt_of st !! i = Some (Some ti)).
  { unfold st. cbn [pt_of]. lookups. rewrite HSA, Ht, Hp.
    cbn [mbind option_bind fmap option_fmap option_map fst snd].
    ma_simpl. do 2 f_equal. ring. }
  set (den := (Kelvin cte + ti) * (1 - 0.05 * (1 - s / SSO cte))).
  assert (Hden : den <> 0).
  { unfold den. apply Rmult_integral_contrapositive_currified; [exact HK|].
    assert (0 <= s / SSO cte).
    { unfold Rdiv. apply Rmult_le_pos; [exact Hs|].
      left. apply Rinv_0_lt_compat, HSSO. }
    lra. }
  assert (HD : dentropy_dt_of st !! i = Some (Some (cp0 cte / den))).
  { pose proof Hpt as Hpt'. unfold st in Hpt' |- *.
    cbn [pt_of dentropy_dt_of] in Hpt' |- *.
    rewrite (lookup_zip_with _ _ SA), Hpt', HSA.
    cbn [mbind option_bind]. ma_simpl.
    rewrite mdiv_Some by lra. ma_simpl. rewrite mdiv_Some by exact Hden.
    reflexivity. }
  assert (HD0 : cp0 cte / den <> 0).
  { unfold Rdiv. apply Rmult_integral_contrapositive_currified; [exact Hcp|].
    apply Rinv_neq_0_compat, Hden. }
  destruct (pt0_from_t_pass_fixed cte SA t p i s ti v _ st
              HSA Hs Ht Hp Hv Hv0 Hpt HD HD0) as [Hpt1 HD1].
  assert (Hv' : - v <> 0) by lra.
  destruct (pt0_from_t_pass_fixed cte SA t p i s ti v _ _
              HSA Hs Ht Hp Hv Hv0 Hpt1 HD1 Hv') as [Hpt2 _].
  exact Hpt2.
Qed.

(** Fresh water at 0 degrees C next to a second sample. *)
Lemma pt0_from_t_at_surface_witness :
  pt0_from_t teos10 [Some 0; Some 35] [Some 0; Some 10]
    [Some 0; Some 100] !! 0%nat
  = Some (Some 0).
Proof.
  apply (pt0_from_t_at_surface teos10 [Some 0; Some 35] [Some 0; Some 10]
           [Some 0; Some 100] 0 0 0 (-24715.571866078 * 0.000625)).
  - unfold teos10. cbn [SSO]. lra.
  - unfold teos10. cbn [cp0]. lra.
  - reflexivity.
  - lra.
  - reflexivity.
  - unfold teos10. cbn [Kelvin]. lra.
  - reflexivity.
  - rewrite gibbs_pt0_pt0_rows. cbn [zip_with lookup list_lookup].
    unfold gibbs_pt0_pt0_at. rewrite Rltb_0_0. cbv zeta. do 2 f_equal.
    unfold GibbsPt0Pt0.g03, GibbsPt0Pt0.g08.
    replace (0 * 0.025) with 0 by lra. ring.
  - lra.
Defined.

(** ** Which positions hold a number *)

(** In a batch flagged non-zero no branch of the engine masks its whole
    result. *)
Lemma gibbs_branch_not_all_masked (cte : Constants) (ns nt npr : Z)
    (br : branch) (ipos : bool) (x2 x y z : R) :
  gibbs_branch cte ns nt npr = Ok br ->
  all_masked (br true ipos x2 x y z) = false.
Proof.
  unfold gibbs_branch.
  repeat match goal with
  | |- context [ if ?c then _ else _ ] =>
      destruct c; [intros [= <-]; reflexivity|]
  end.
  discriminate.
Qed.

(** X15. In a batch that holds a positive salinity, and for every order
    the engine accepts, the positions at which it returns a number are
    exactly those whose salinity is valid and positive and whose
    temperature and pressure are valid. *)
Theorem gibbs_number_iff_valid_positive (cte : Constants) (ns nt npr : Z)
    (SA t p out : marray) (i : nat) :
  has_positive SA ->
  _gibbs cte ns nt npr SA t p = Ok out ->
  defined_at out i <->
  exists s a b : R,
    SA !! i = Some (Some s) /\ 0 < s /\
    t !! i = Some (Some a) /\ p !! i = Some (Some b).
Proof.
  intros Hpos Hout.
  destruct (gibbs_branch cte ns nt npr) as [br|e] eqn:Hbr.
  2:{ unfold _gibbs in Hout. rewrite Hbr in Hout. discriminate. }
  rewrite (gibbs_rows cte ns nt npr br _ _ _ Hbr) in Hout.
  injection Hout as <-.
  rewrite (nonzero_SA_of_positive SA Hpos). unfold defined_at.
  split.
  - intros [v Hv]. rows_in Hv.
    destruct (SA !! i) as [a|], (t !! i) as [b|], (p !! i) as [c|];
      try discriminate.
    cbn [mbind option_bind fst snd] in Hv. injection Hv as Hv.
    destruct (gibbs_at_Some _ _ _ _ _ _ _ Hv)
      as (s & tv & pv & -> & -> & -> & Hs).
    exists s, tv, pv. repeat split; try reflexivity.
    destruct (Rle_lt_dec s 0) as [Hle|Hlt]; [|exact Hlt].
    rewrite gibbs_at_nonpositive_in_mixed_batch in Hv by exact Hle.
    discriminate.
  - intros (s & a & b & HSA & Hs & Ht & Hp).
    rewrite (map3_lookup _ _ _ _ i _ _ _ HSA Ht Hp).
    unfold gibbs_at, mask_at. cbn [mbind option_bind].
    rewrite (Rleb_false s 0 Hs), (Rltb_false s 0) by lra.
    cbn [fill orb].
    rewrite (gibbs_branch_not_all_masked cte ns nt npr br _ _ _ _ _ Hbr).
    eexists. reflexivity.
Qed.

(** A batch of a positive and a zero salinity. *)
Lemma gibbs_number_iff_valid_positive_witness :
  exists out : marray,
    _gibbs teos10 0 0 1 [Some 35; Some 0] [Some 10; Some 10]
      [Some 100; Some 100] = Ok out /\
    (defined_at out 1 <->
     exists s a b : R,
       [Some 35; Some 0] !! 1%nat = Some (Some s) /\ 0 < s /\
       [Some 10; Some 10] !! 1%nat = Some (Some a) /\
       [Some 100; Some 100] !! 1%nat = Some (Some b)).
Proof.
  eexists. split.
  - exact (gibbs_rows teos10 0 0 1 _ _ _ _ eq_refl).
  - apply (gibbs_number_iff_valid_positive teos10 0 0 1
             [Some 35; Some 0] [Some 10; Some 10] [Some 100; Some 100]).
    + exists 0%nat, 35. split; [reflexivity|lra].
    + exact (gibbs_rows teos10 0 0 1 _ _ _ _ eq_refl).
Defined.

Lemma newton_step_defined (x d D : mreal) (v : R) :
  (x - d / D)%ma = Some v -> exists dv : R, d = Some dv.
Proof.
  destruct x, d as [dv|], D; cbn; try discriminate. intros _.
  exists dv. reflexivity.
Qed.

Lemma msub_defined (a b : mreal) (v : R) :
  msub a b = Some v -> exists x y : R, a = Some x /\ b = Some y.
Proof.
  destruct a as [x|], b as [y|]; cbn; try discriminate. intros _.
  exists x, y. split; reflexivity.
Qed.

Lemma entropy_part_at_Some (cte : Constants) (a b c : mreal) (v : R) :
  entropy_part_at cte a b c = Some v ->
  exists s tv pv : R, a = Some s /\ b = Some tv /\ c = Some pv /\ 0 <= s.
Proof.
  unfold entropy_part_at.
  destruct a as [s|], b as [tv|], c as [pv|]; try discriminate.
  destruct (Rltb s 0) eqn:E; [discriminate|]. intros _.
  exists s, tv, pv. repeat split.
  unfold Rltb in E. apply bool_decide_eq_false in E. lra.
Qed.

Lemma entropy_part_defined (cte : Constants) (SA t p : marray) (i : nat) :
  defined_at (_entropy_part cte SA t p) i ->
  exists s a b : R,
    SA !! i = Some (Some s) /\ 0 <= s /\
    t !! i = Some (Some a) /\ p !! i = Some (Some b).
Proof.
  intros [v Hv]. rewrite entropy_part_rows in Hv. rows_in Hv.
  destruct (SA !! i) as [a|], (t !! i) as [b|], (p !! i) as [c|];
    try discriminate.
  cbn [mbind option_bind fst snd] in Hv. injection Hv as Hv.
  destruct (entropy_part_at_Some _ _ _ _ _ Hv)
    as (s & tv & pv & -> & -> & -> & Hs).
  exists s, tv, pv. repeat split; try reflexivity. exact Hs.
Qed.




(** A number after a pass of [pt0_from_t] needs one in the entropy part of
    the sample. *)
Lemma pt0_from_t_pass_defined (cte : Constants)
    (SA true_entropy_part : marray) (st : pt_state) (i : nat) :
  defined_at (pt_of (pt0_from_t_pass cte SA true_entropy_part st)) i ->
  defined_at true_entropy_part i.
Proof.
  unfold pt0_from_t_pass. cbn [pt_of].
  intros [v Hv]. unfold map3 at 1 in Hv.
  rewrite !lookup_zip_with in Hv.
  destruct (pt_of st !! i) as [x|]; [|discriminate].
  cbn [mbind option_bind] in Hv.
  destruct (_entropy_part_zerop cte SA (pt_of st) !! i) as [e|];
    [|discriminate].
  destruct (true_entropy_part !! i) as [e'|] eqn:He'; [|discriminate].
  cbn [mbind option_bind] in Hv.
  match type of Hv with
  | context [ ?l !! i ≫= _ ] => destruct (l !! i) as [D|]; [|discriminate]
  end.
  cbn [mbind option_bind fst snd] in Hv. injection Hv as Hv.
  destruct (newton_step_defined _ _ _ _ Hv) as [dv Hd].
  destruct (msub_defined _ _ _ Hd) as (ev & ev' & -> & ->).
  unfold defined_at. rewrite He'. eexists; reflexivity.
Qed.

(** X17. [pt0_from_t] returns no number at a position where the salinity
    is masked or negative, or the temperature or the pressure is masked:
    unlike [potential_t], it does not take a negative salinity for 0. *)
Theorem pt0_from_t_masked_input (cte : Constants) (SA t p : marray)
    (i : nat) :
  SA !! i = Some None \/ (exists s : R, SA !! i = Some (Some s) /\ s < 0) \/
  t !! i = Some None \/ p !! i = Some None ->
  ~ defined_at (pt0_from_t cte SA t p) i.
Proof.
  intros Hmask Hdef. unfold pt0_from_t in Hdef. cbv zeta in Hdef.
  cbn [Nat.iter] in Hdef.
  apply pt0_from_t_pass_defined in Hdef.
  destruct (entropy_part_defined _ _ _ _ _ Hdef)
    as (s & a & b & HSA & Hs & Ht & Hp).
  destruct Hmask as [H|[(s' & H & Hs')|[H|H]]].
  - rewrite H in HSA. discriminate.
  - rewrite H in HSA. injection HSA as ->. lra.
  - rewrite H in Ht. discriminate.
  - rewrite H in Hp. discriminate.
Qed.

(** A one-element batch of negative salinity. *)
Lemma pt0_from_t_masked_input_witness :
  (exists s : R, [Some (-1)] !! 0%nat = Some (Some s) /\ s < 0) /\
  ~ defined_at (pt0_from_t teos10 [Some (-1)] [Some 10] [Some 100]) 0.
Proof.
  assert (H : exists s : R, [Some (-1)] !! 0%nat = Some (Some s) /\ s < 0)
    by (exists (-1); split; [reflexivity|lra]).
  split; [exact H|].
  apply (pt0_from_t_masked_input teos10 [Some (-1)] [Some 10] [Some 100] 0).
  right. left. exact H.
Defined.

(** ** The short-cut for batches without a positive salinity *)

(** X18. For the five orders without a salinity derivative other than
    (0,1,0), the short-cut the engine takes in a batch without a positive
    salinity changes nothing: at a salinity of 0 the branch returns the
    same value whether it skips the salinity polynomial or evaluates it. *)
Theorem gibbs_skip_is_exact_at_zero_salinity (cte : Constants)
    (ns nt npr : Z) (br : branch) (y z : R) :
  (ns, nt, npr)
    ∈ [ (0, 0, 0); (0, 0, 1); (0, 1, 1); (0, 2, 0); (0, 0, 2) ]%Z ->
  gibbs_branch cte ns nt npr = Ok br ->
  br false false (sfac cte * 0) (sqrt (sfac cte * 0)) y z
  = br true false (sfac cte * 0) (sqrt (sfac cte * 0)) y z.
Proof.
  intros Hin Hbr.
  repeat match goal with
  | H : _ ∈ _ :: _ |- _ =>
      apply elem_of_cons in H; destruct H as [H|H];
      [ injection H as -> -> ->; injection Hbr as <-; cbv zeta; f_equal;
        rewrite Rmult_0_r | ]
  end.
  - unfold G000.g08. ring.
  - unfold G001.g08. ring.
  - unfold G011.g08. ring.
  - unfold G020.g08. ring.
  - unfold G002.g08. ring.
  - apply elem_of_nil in Hin. contradiction.
Qed.

(** Order (0,0,0). *)
Lemma gibbs_skip_is_exact_at_zero_salinity_witness :
  exists br : branch,
    gibbs_branch teos10 0 0 0 = Ok br /\
    br false false (sfac teos10 * 0) (sqrt (sfac teos10 * 0)) 0.5 0.01
    = br true false (sfac teos10 * 0) (sqrt (sfac teos10 * 0)) 0.5 0.01.
Proof.
  eexists. split; [reflexivity|].
  apply (gibbs_skip_is_exact_at_zero_salinity teos10 0 0 0 _ 0.5 0.01).
  - apply elem_of_cons. left. reflexivity.
  - reflexivity.
Defined.

(** ** Conversions between the salinity variables *)

(** X19. [SA_from_Sstar] and [Sstar_from_SA] undo each other at every
    position where the salinity and the anomaly are numbers. *)
Theorem Sstar_SA_round_trip (cte : Constants)
    (_delta_SA : marray -> marray -> marray -> marray)
    (S p lon lat : marray) (i : nat) (s d : R) :
  S !! i = Some (Some s) ->
  _delta_SA p lon lat !! i = Some (Some d) ->
  Sstar_from_SA cte _delta_SA (SA_from_Sstar cte _delta_SA S p lon lat)
    p lon lat !! i = Some (Some s) /\
  SA_from_Sstar cte _delta_SA (Sstar_from_SA cte _delta_SA S p lon lat)
    p lon lat !! i = Some (Some s).
Proof.
  intros HS Hd. unfold Sstar_from_SA, SA_from_Sstar. cbv zeta.
  rewrite !lookup_zip_with, HS, Hd.
  cbn [mbind option_bind]. ma_simpl. split; do 2 f_equal; ring.
Qed.

(** One sample. *)
Lemma Sstar_SA_round_trip_witness :
  Sstar_from_SA teos10 uniform_anomaly
    (SA_from_Sstar teos10 uniform_anomaly [Some 35] [Some 100] [Some 188]
       [Some 4])
    [Some 100] [Some 188] [Some 4] !! 0%nat = Some (Some 35) /\
  SA_from_Sstar teos10 uniform_anomaly
    (Sstar_from_SA teos10 uniform_anomaly [Some 35] [Some 100] [Some 188]
       [Some 4])
    [Some 100] [Some 188] [Some 4] !! 0%nat = Some (Some 35).
Proof.
  apply (Sstar_SA_round_trip teos10 uniform_anomaly [Some 35] [Some 100]
           [Some 188] [Some 4] 0 35 0.002); reflexivity.
Defined.

(** X20. Outside the Baltic Sea (both Baltic formulas answer [None]) and
    where the anomaly is a number, [SP_from_SA] undoes [SA_from_SP] up to
    the clamping of a negative Practical Salinity to 0. *)
Theorem SP_SA_round_trip (cte : Constants)
    (_delta_SA : marray -> marray -> marray -> marray)
    (_SA_from_SP_Baltic _SP_from_SA_Baltic :
       marray -> marray -> marray -> option marray)
    (SP p lon lat : marray) (i : nat) (x d : R) :
  SSO cte <> 0 ->
  _SA_from_SP_Baltic (clamp_negative SP) lon lat = None ->
  _SP_from_SA_Baltic
    (SA_from_SP cte _delta_SA _SA_from_SP_Baltic SP p lon lat) lon lat
  = None ->
  SP !! i = Some (Some x) ->
  _delta_SA p lon lat !! i = Some (Some d) ->
  exists out : marray,
    SP_from_SA cte _delta_SA _SP_from_SA_Baltic
      (SA_from_SP cte _delta_SA _SA_from_SP_Baltic SP p lon lat) p lon lat
    = Ok out /\
    out !! i = Some (Some (if Rltb x 0 then 0 else x)).
Proof.
  intros HSSO HB1 HB2 HSP Hd. unfold SP_from_SA. cbv zeta.
  rewrite HB2. eexists. split; [reflexivity|].
  unfold SA_from_SP. cbv zeta. rewrite HB1.
  unfold clamp_negative.
  rewrite !lookup_zip_with, list_lookup_fmap, HSP, Hd.
  cbn [mbind option_bind fmap option_fmap option_map]. ma_simpl.
  rewrite mdiv_Some by exact HSSO. ma_simpl.
  do 2 f_equal. field. exact HSSO.
Qed.

(** One open-ocean sample of negative Practical Salinity. *)
Lemma SP_SA_round_trip_witness :
  exists out : marray,
    SP_from_SA teos10 uniform_anomaly open_ocean
      (SA_from_SP teos10 uniform_anomaly open_ocean [Some (-1)] [Some 100]
         [Some 188] [Some 4]) [Some 100] [Some 188] [Some 4]
    = Ok out /\
    out !! 0%nat = Some (Some (if Rltb (-1) 0 then 0 else -1)).
Proof.
  apply (SP_SA_round_trip teos10 uniform_anomaly open_ocean open_ocean
           [Some (-1)] [Some 100] [Some 188] [Some 4] 0 (-1) 0.002);
    try reflexivity.
  unfold teos10. cbn [SSO]. lra.
Defined.


(** X22. Outside the Baltic Sea and where the anomaly is a number,
    Preformed Salinity from Practical Salinity, converted on with
    [SA_from_Sstar], is the Absolute Salinity [SA_from_SP] gives. *)
Theorem SA_from_SP_through_Sstar (cte : Constants)
    (_delta_SA : marray -> marray -> marray -> marray)
    (_SA_from_SP_Baltic : marray -> marray -> marray -> option marray)
    (SP p lon lat : marray) (i : nat) (x d : R) :
  _SA_from_SP_Baltic (clamp_negative SP) lon lat = None ->
  SP !! i = Some (Some x) ->
  _delta_SA p lon lat !! i = Some (Some d) ->
  exists v : R,
    SA_from_SP cte _delta_SA _SA_from_SP_Baltic SP p lon lat !! i
    = Some (Some v) /\
    SA_from_Sstar cte _delta_SA
      (Sstar_from_SP cte _delta_SA _SA_from_SP_Baltic SP p lon lat)
      p lon lat !! i
    = Some (Some v).
Proof.
  intros HB HSP Hd.
  unfold SA_from_SP, SA_from_Sstar, Sstar_from_SP. cbv zeta. rewrite HB.
  unfold clamp_negative.
  rewrite !lookup_zip_with, list_lookup_fmap, HSP, Hd.
  cbn [mbind option_bind fmap option_fmap option_map]. ma_simpl.
  eexists. split; [reflexivity|]. do 2 f_equal. ring.
Qed.

(** One open-ocean sample. *)
Lemma SA_from_SP_through_Sstar_witness :
  exists v : R,
    SA_from_SP teos10 uniform_anomaly open_ocean [Some 35] [Some 100]
      [Some 188] [Some 4] !! 0%nat = Some (Some v) /\
    SA_from_Sstar teos10 uniform_anomaly
      (Sstar_from_SP teos10 uniform_anomaly open_ocean [Some 35] [Some 100]
         [Some 188] [Some 4]) [Some 100] [Some 188] [Some 4] !! 0%nat
    = Some (Some v).
Proof.
  apply (SA_from_SP_through_Sstar teos10 uniform_anomaly open_ocean [Some 35]
           [Some 100] [Some 188] [Some 4] 0 35 0.002); reflexivity.
Defined.

(** X23. In the Baltic Sea, at a position where the Baltic formula gives a
    number, [SA_Sstar_from_SP] returns that number as Absolute and as
    Preformed Salinity. *)
Theorem SA_equals_Sstar_in_the_Baltic (cte : Constants)
    (_delta_SA : marray -> marray -> marray -> marray)
    (_SA_from_SP_Baltic : marray -> marray -> marray -> option marray)
    (SP p lon lat SA_baltic : marray) (i : nat) (b : R) :
  _SA_from_SP_Baltic (clamp_negative SP) lon lat = Some SA_baltic ->
  SA_baltic !! i = Some (Some b) ->
  is_Some (SP !! i) -> is_Some (_delta_SA p lon lat !! i) ->
  (SA_Sstar_from_SP cte _delta_SA _SA_from_SP_Baltic SP p lon lat).1 !! i
  = Some (Some b) /\
  (SA_Sstar_from_SP cte _delta_SA _SA_from_SP_Baltic SP p lon lat).2 !! i
  = Some (Some b).
Proof.
  intros HB Hb [x HSP] [d Hd].
  unfold SA_Sstar_from_SP. cbv zeta. rewrite HB. cbn [fst snd].
  unfold overwrite, not_mask, getmaskarray, map3, clamp_negative.
  rewrite ?lookup_zip_with, ?list_lookup_fmap, ?lookup_zip_with,
    ?list_lookup_fmap, HSP, Hd, Hb.
  split; reflexivity.
Qed.

(** One Baltic sample. *)
Lemma SA_equals_Sstar_in_the_Baltic_witness :
  (SA_Sstar_from_SP teos10 uniform_anomaly baltic_everywhere [Some 7]
     [Some 10] [Some 20] [Some 59]).1 !! 0%nat = Some (Some 7.5) /\
  (SA_Sstar_from_SP teos10 uniform_anomaly baltic_everywhere [Some 7]
     [Some 10] [Some 20] [Some 59]).2 !! 0%nat = Some (Some 7.5).
Proof.
  apply (SA_equals_Sstar_in_the_Baltic teos10 uniform_anomaly
           baltic_everywhere [Some 7] [Some 10] [Some 20] [Some 59]
           [Some 7.5] 0 7.5).
  - reflexivity.
  - reflexivity.
  - eexists. reflexivity.
  - eexists. reflexivity.
Defined.

(** ** Molality and ionic strength *)

(** X24. With a non-zero molar mass of sea salt, [ionic_strength] returns
    a number exactly where the salinity is valid, not negative and not
    1000 g/kg, and the number is half the valence factor times
    SA / (M_S (1000 - SA)). *)
Theorem ionic_strength_number_iff (more : MoreConstants) (SA : marray)
    (i : nat) (v : R) :
  M_S more <> 0 ->
  ionic_strength more SA !! i = Some (Some v) <->
  exists s : R,
    SA !! i = Some (Some s) /\ 0 <= s /\ s <> 1000 /\
    v = 0.5 * 1.2452898 * (s / (M_S more * (1000 - s))).
Proof.
  intros HM. unfold ionic_strength, molality, mask_where, negative_index.
  cbv zeta. rewrite list_lookup_fmap, lookup_zip_with, !list_lookup_fmap.
  destruct (SA !! i) as [[s|]|];
    cbn [mbind option_bind fmap option_fmap option_map].
  2,3: split; [discriminate|intros (s & H & _); discriminate].
  assert (Hden : M_S more * (1000 - s) <> 0 <-> s <> 1000).
  { split.
    - intros H ->. apply H. ring.
    - intros H. apply Rmult_integral_contrapositive_currified;
        [exact HM|lra]. }
  ma_simpl. unfold mdiv. cbn [mbind option_bind].
  destruct (Rlt_dec s 0) as [Hneg|Hpos].
  - rewrite Rltb_true by exact Hneg.
    destruct (decide (M_S more * (1000 - s) = 0)); cbn;
      (split; [discriminate|intros (s' & [= <-] & Hs & _); lra]).
  - rewrite Rltb_false by lra.
    destruct (decide (M_S more * (1000 - s) = 0)) as [E|E]; cbn.
    + split; [discriminate|].
      intros (s' & [= <-] & _ & Hs & _). apply Hden in Hs. contradiction.
    + split.
      * intros [= <-]. exists s. repeat split; try lra.
      * intros (s' & [= <-] & _ & _ & ->). reflexivity.
Qed.

(** Standard seawater. *)
Lemma ionic_strength_number_iff_witness :
  ionic_strength teos10_more [Some 35] !! 0%nat
  = Some (Some (0.5 * 1.2452898 * (35 / (M_S teos10_more * (1000 - 35)))))
  <->
  exists s : R,
    [Some 35] !! 0%nat = Some (Some s) /\ 0 <= s /\ s <> 1000 /\
    0.5 * 1.2452898 * (35 / (M_S teos10_more * (1000 - 35)))
    = 0.5 * 1.2452898 * (s / (M_S teos10_more * (1000 - s))).
Proof.
  apply (ionic_strength_number_iff teos10_more [Some 35] 0).
  unfold teos10_more. cbn [M_S]. lra.
Defined.

(** ** What [strip_mask] hands on *)

(** X25. The salinities [strip_mask] hands to a polynomial are never
    negative, and a position it leaves unmasked carries the data of its
    arguments, with a salinity that was valid and not negative. *)
Theorem strip_mask_hands_on (SA a b : marray) (i : nat) :
  let '(SA', a', b', mask) := strip_mask3 SA a b in
  (forall s : R, SA' !! i = Some s -> 0 <= s) /\
  (mask !! i = Some false ->
   exists s x y : R,
     SA !! i = Some (Some s) /\ 0 <= s /\ SA' !! i = Some s /\
     a !! i = Some (Some x) /\ a' !! i = Some x /\
     b !! i = Some (Some y) /\ b' !! i = Some y).
Proof.
  unfold strip_mask3, filled, getmaskarray, mask_negative. cbv zeta.
  rewrite !lookup_zip_with, !list_lookup_fmap. split.
  - intros s. destruct (SA !! i) as [[d|]|];
      cbn [fmap option_fmap option_map]; try discriminate.
    + destruct (Rlt_dec d 0).
      * rewrite Rltb_true by assumption. intros [= <-]. cbn. lra.
      * rewrite Rltb_false by lra. intros [= <-]. cbn. lra.
    + intros [= <-]. cbn. lra.
  - destruct (SA !! i) as [[d|]|], (a !! i) as [[x|]|], (b !! i) as [[y|]|];
      cbn [mbind option_bind fmap option_fmap option_map orb];
      try discriminate;
      try (destruct (Rltb d 0); discriminate).
    destruct (Rltb d 0) eqn:E; cbn; [discriminate|]. intros _.
    unfold Rltb in E. apply bool_decide_eq_false in E.
    exists d, x, y. repeat split. lra.
Qed.

(** ** Height, pressure and gravity *)

Lemma mln_Some (x : R) : 0 < x -> mln (Some x) = Some (ln x).
Proof.
  intros Hx. unfold mln. cbn [mbind option_bind].
  rewrite Rltb_true by exact Hx. reflexivity.
Qed.

Lemma sin2_bounds (x : R) : 0 <= sin x ^ 2 <= 1.
Proof. pose proof (SIN_bound x). nra. Qed.

Lemma gs_at_bounds (lat : R) :
  9.780327 <= gs_at lat <= 9.780327 * 1.0053024.
Proof.
  unfold gs_at. cbv zeta.
  pose proof (sin2_bounds (lat * (PI / 180))) as H.
  set (s2 := sin (lat * (PI / 180)) ^ 2) in *. clearbody s2. nra.
Qed.

(** The enthalpy of the standard ocean at 0 dbar is 0. *)
Lemma enthalpy_SSO_0_CT25_surface (cte : Constants) (more : MoreConstants)
    (p : marray) (i : nat) :
  0 <= SSO cte -> p !! i = Some (Some 0) ->
  _enthalpy_SSO_0_CT25 cte more p !! i = Some (Some 0).
Proof.
  intros HSSO Hp. unfold _enthalpy_SSO_0_CT25, ma_array_nan, filled,
    getmaskarray.
  cbv zeta. rewrite lookup_zip_with, !list_lookup_fmap, Hp.
  cbn [mbind option_bind fmap option_fmap option_map fill].
  set (S := SSO cte) in *.
  set (b0 := 9.9984380290708214e2 + S * (2.8925731541277653e0 + S *
    1.9457531751183059e-3)).
  set (b1 := 0.5 * (1.1930681818531748e-2 + S * 5.9355685925035653e-6)).
  set (b2 := -2.5943389807429039e-8).
  set (disc := b1 ^ 2 - b0 * b2).
  assert (Hb0 : 0 < b0) by (unfold b0; nra).
  assert (Hb1 : 0 < b1) by (unfold b1; nra).
  assert (Hb2 : b2 < 0) by (unfold b2; lra).
  assert (Hdisc : b1 ^ 2 < disc) by (unfold disc; nra).
  assert (Hd0 : 0 <= disc) by nra.
  unfold const. rewrite (msqrt_Some S HSSO), (msqrt_Some disc Hd0).
  set (r := sqrt disc).
  assert (Hr : b1 < r).
  { assert (Hrr : r * r = disc) by (apply sqrt_sqrt, Hd0).
    assert (Hr0 : 0 <= r) by apply sqrt_pos.
    nra. }
  cbn [madd msub mmul mbind option_bind].
  rewrite (mdiv_Some _ b0) by lra.
  rewrite (mdiv_Some _ (b2 * (b1 + r - (b1 - r)))) by nra.
  rewrite (mdiv_Some _ ((b1 - r) * (b1 + r + b2 * 0))) by nra.
  cbn [madd msub mmul mbind option_bind].
  assert (E1 : 1 + 0 * (2 * b1 + b2 * 0) / b0 = 1) by (field; lra).
  assert (E2 : 1 + b2 * 0 * (b1 + r - (b1 - r))
                   / ((b1 - r) * (b1 + r + b2 * 0)) = 1)
    by (field; split; lra).
  rewrite E1, E2, (mln_Some 1) by lra. rewrite ln_1.
  cbn [madd msub mmul mbind option_bind]. do 2 f_equal. ring.
Qed.

(** Surface gravity as the three functions compute it. *)
Lemma gs_lookup (lat : marray) (i : nat) (phi : R) :
  lat !! i = Some (Some phi) ->
  ((fun sin2 : mreal =>
      #9.780327 * ( #1.0 + ( #5.2792e-3 + ( #2.32e-5 * sin2 ) ) * sin2 ))%ma
   <$> ((fun X : mreal => mpow X 2)
        <$> ((fun lat : mreal => msin (deg2rad lat)) <$> lat))) !! i
  = Some (Some (gs_at phi)).
Proof.
  intros Hlat. rewrite !list_lookup_fmap, Hlat. reflexivity.
Qed.

(** X26. The height [z_from_p] returns solves the equation that
    [p_from_z] iterates on: where it is a number z, the enthalpy h of the
    standard ocean at that pressure is a number, and
    h + gs (z - gamma z^2 / 2) = 0 with gs the surface gravity at the
    latitude. *)
Theorem z_from_p_solves_height_equation (cte : Constants)
    (more : MoreConstants) (p lat : marray) (i : nat) (z : R) :
  z_from_p cte more p lat !! i = Some (Some z) ->
  exists phi h : R,
    lat !! i = Some (Some phi) /\
    _enthalpy_SSO_0_CT25 cte more p !! i = Some (Some h) /\
    h + gs_at phi * (z - 0.5 * gamma more * z ^ 2) = 0.
Proof.
  unfold z_from_p. cbv zeta. intros H.
  unfold map3 in H. rewrite !lookup_zip_with, !list_lookup_fmap in H.
  destruct (lat !! i) as [[phi|]|],
    (_enthalpy_SSO_0_CT25 cte more p !! i) as [[h|]|];
    unfold const in H;
    cbn [mbind option_bind fmap option_fmap option_map fst snd msin deg2rad
           mpow madd msub mmul mdiv msqrt] in H;
    try discriminate.
  change (9.780327 * (1.0 + (5.2792e-3 + 2.32e-5 * sin (phi * (PI / 180)) ^ 2)
                             * sin (phi * (PI / 180)) ^ 2))
    with (gs_at phi) in H.
  set (B := gs_at phi) in *.
  injection H as H.
  match type of H with
  | context [ Rltb ?r 0 ] => destruct (Rltb r 0) eqn:Hrad
  end; cbn [mbind option_bind] in H; [discriminate|].
  match type of H with
  | context [ decide (?w = 0) ] => destruct (decide (w = 0)) as [|Hw]
  end; [discriminate|].
  injection H as <-.
  unfold Rltb in Hrad. apply bool_decide_eq_false in Hrad.
  apply Rnot_lt_le in Hrad.
  match type of Hw with
  | context [ sqrt ?r ] =>
      set (D := sqrt r) in *;
      assert (HDD : D * D = r) by (apply sqrt_sqrt, Hrad)
  end.
  clearbody D.
  exists phi, h. repeat split. fold B. clearbody B.
  apply (Rmult_eq_reg_r ((B + D) * (B + D)));
    [|apply Rmult_integral_contrapositive_currified; exact Hw].
  rewrite Rmult_0_l.
  transitivity (h * (D * D - B ^ 2 - 2 * gamma more * B * h)).
  - cbv [Q2R QArith_base.Qnum QArith_base.Qden]. field. exact Hw.
  - rewrite HDD. cbv [Q2R QArith_base.Qnum QArith_base.Qden]. field.
Qed.

(** At pressure 0 the height and the enthalpy are 0. *)
Lemma z_from_p_sea_level_value (cte : Constants) (more : MoreConstants)
    (p lat : marray) (i : nat) (phi : R) :
  0 <= SSO cte ->
  p !! i = Some (Some 0) -> lat !! i = Some (Some phi) ->
  z_from_p cte more p lat !! i = Some (Some 0).
Proof.
  intros HSSO Hp Hlat. unfold z_from_p. cbv zeta.
  unfold map3. rewrite !lookup_zip_with.
  rewrite (enthalpy_SSO_0_CT25_surface cte more p i HSSO Hp).
  rewrite (gs_lookup lat i phi Hlat), list_lookup_fmap.
  rewrite (gs_lookup lat i phi Hlat).
  cbn [mbind option_bind fmap option_fmap option_map fst snd].
  pose proof (gs_at_bounds phi) as HB.
  set (B := gs_at phi) in *. clearbody B.
  unfold const. cbn [madd msub mmul mpow mbind option_bind].
  rewrite msqrt_Some by nra.
  cbn [madd mbind option_bind].
  pose proof (sqrt_pos (B ^ 2 - 4 * (-0.5 * gamma more * B) * 0)) as HD.
  rewrite mdiv_Some by lra.
  do 2 f_equal. field. lra.
Qed.

(** Sea level at 45 degrees north. *)
Lemma z_from_p_solves_height_equation_witness :
  exists phi h : R,
    [Some 45] !! 0%nat = Some (Some phi) /\
    _enthalpy_SSO_0_CT25 teos10 teos10_more [Some 0] !! 0%nat
    = Some (Some h) /\
    h + gs_at phi * (0 - 0.5 * gamma teos10_more * 0 ^ 2) = 0.
Proof.
  apply (z_from_p_solves_height_equation teos10 teos10_more [Some 0]
           [Some 45] 0 0).
  apply (z_from_p_sea_level_value teos10 teos10_more [Some 0] [Some 45] 0 45);
    try reflexivity.
  unfold teos10. cbn [SSO]. lra.
Defined.

(** X27. Sea pressure 0 is height 0: with a non-negative standard
    salinity, at every position of pressure 0 the enthalpy of the standard
    ocean is 0 and [z_from_p] returns 0, whatever the latitude. *)
Theorem z_from_p_sea_level (cte : Constants) (more : MoreConstants)
    (p lat : marray) (i : nat) (phi : R) :
  0 <= SSO cte ->
  p !! i = Some (Some 0) -> lat !! i = Some (Some phi) ->
  _enthalpy_SSO_0_CT25 cte more p !! i = Some (Some 0) /\
  z_from_p cte more p lat !! i = Some (Some 0).
Proof.
  intros HSSO Hp Hlat. split.
  - apply enthalpy_SSO_0_CT25_surface; assumption.
  - apply (z_from_p_sea_level_value cte more p lat i phi); assumption.
Qed.

(** Sea level at 45 degrees north. *)
Lemma z_from_p_sea_level_witness :
  _enthalpy_SSO_0_CT25 teos10 teos10_more [Some 0] !! 0%nat
  = Some (Some 0) /\
  z_from_p teos10 teos10_more [Some 0] [Some 45] !! 0%nat = Some (Some 0).
Proof.
  apply (z_from_p_sea_level teos10 teos10_more [Some 0] [Some 45] 0 45);
    try reflexivity.
  unfold teos10. cbn [SSO]. lra.
Defined.

(** X28. With the pressure left out, [grav] returns the surface gravity
    of the latitude, which lies between its value at the equator,
    9.780327, and at the poles, 9.780327 * 1.0053024 m/s^2. *)
Theorem grav_surface_bounds (cte : Constants) (more : MoreConstants)
    (lat : marray) (i : nat) (phi : R) :
  0 <= SSO cte ->
  lat !! i = Some (Some phi) ->
  exists g : R,
    grav cte more lat None !! i = Some (Some g) /\
    9.780327 <= g <= 9.780327 * 1.0053024.
Proof.
  intros HSSO Hlat. unfold grav. cbv zeta. cbn [default].
  rewrite lookup_zip_with, (gs_lookup lat i phi Hlat).
  rewrite (z_from_p_sea_level_value cte more _ lat i phi HSSO);
    [|rewrite list_lookup_fmap, Hlat; reflexivity|exact Hlat].
  cbn [mbind option_bind]. ma_simpl. eexists. split; [reflexivity|].
  pose proof (gs_at_bounds phi). lra.
Qed.

(** Gravity at 45 degrees north. *)
Lemma grav_surface_bounds_witness :
  exists g : R,
    grav teos10 teos10_more [Some 45] None !! 0%nat = Some (Some g) /\
    9.780327 <= g <= 9.780327 * 1.0053024.
Proof.
  apply (grav_surface_bounds teos10 teos10_more [Some 45] 0 45);
    try reflexivity.
  unfold teos10. cbn [SSO]. lra.
Defined.

(** The specific volume of the standard ocean at 0 dbar is a number other
    than 0. *)
Lemma specvol_SSO_0_CT25_surface (cte : Constants) (p : marray) (i : nat) :
  0 <= SSO cte -> p !! i = Some (Some 0) ->
  exists v : R, _specvol_SSO_0_CT25 cte p !! i = Some (Some v) /\ v <> 0.
Proof.
  intros HSSO Hp. unfold _specvol_SSO_0_CT25. cbv zeta.
  rewrite list_lookup_fmap, Hp. cbn [fmap option_fmap option_map].
  set (S := SSO cte) in *. unfold const.
  rewrite (msqrt_Some S HSSO).
  pose proof (sqrt_pos S) as Hr. set (r := sqrt S) in *. clearbody r.
  cbn [madd msub mmul mbind option_bind].
  rewrite mdiv_Some by nra.
  eexists. split; [reflexivity|].
  unfold Rdiv. apply Rmult_integral_contrapositive_currified.
  - nra.
  - apply Rinv_neq_0_compat. nra.
Qed.

Lemma newton_step_at_zero (d : R) :
  d <> 0 -> (Some 0 - Some 0 / Some d)%ma = Some 0.
Proof.
  intros Hd. rewrite mdiv_Some by exact Hd. ma_simpl. f_equal. field.
  exact Hd.
Qed.

(** X29. Height 0 is sea pressure 0: with a non-negative standard
    salinity and a non-zero pressure unit, [p_from_z] returns 0 at every
    position of height 0, whatever the latitude; the first estimate is 0
    and the corrector step leaves it. *)
Theorem p_from_z_sea_level (cte : Constants) (more : MoreConstants)
    (z lat : marray) (i : nat) (phi : R) :
  0 <= SSO cte -> db2Pascal more <> 0 ->
  z !! i = Some (Some 0) -> lat !! i = Some (Some phi) ->
  p_from_z cte more z lat !! i = Some (Some 0).
Proof.
  intros HSSO Hdb Hz Hlat. unfold p_from_z. cbv zeta.
  pose proof (sin2_bounds (phi * (PI / 180))) as Hs2.
  match goal with
  | |- context [ map3 _ ?p0 (map3 _ (_enthalpy_SSO_0_CT25 _ _ ?p0) _ _) _ ] =>
      set (p_old := p0)
  end.
  assert (Hp0 : p_old !! i = Some (Some 0)).
  { unfold p_old. rewrite lookup_zip_with, Hz, !list_lookup_fmap, Hlat.
    cbn [mbind option_bind fmap option_fmap option_map msin deg2rad mpow].
    set (s2 := sin (phi * (PI / 180)) ^ 2) in *. clearbody s2.
    unfold const. cbn [madd msub mmul mbind option_bind].
    rewrite msqrt_Some by nra.
    cbn [madd mbind option_bind].
    match goal with
    | |- context [ sqrt ?r ] => pose proof (sqrt_pos r) as Hr
    end.
    rewrite mdiv_Some by lra. do 2 f_equal. field. lra. }
  match goal with
  | |- context [ map3 _ p_old ?f0 _ ] => set (f := f0)
  end.
  assert (Hf : f !! i = Some (Some 0)).
  { unfold f, map3. rewrite !lookup_zip_with.
    rewrite (enthalpy_SSO_0_CT25_surface cte more p_old i HSSO Hp0).
    rewrite (gs_lookup lat i phi Hlat), Hz.
    cbn [mbind option_bind fst snd]. ma_simpl. unfold mpow.
    cbn [mbind option_bind]. do 2 f_equal. ring. }
  destruct (specvol_SSO_0_CT25_surface cte p_old i HSSO Hp0)
    as (v & Hv & Hv0).
  assert (Hdv : db2Pascal more * v <> 0)
    by (apply Rmult_integral_contrapositive_currified; assumption).
  match goal with
  | |- context [ zip_with _ ?p1 p_old ] => set (p := p1)
  end.
  assert (Hp1 : p !! i = Some (Some 0)).
  { unfold p, map3. rewrite !lookup_zip_with, Hp0, Hf, list_lookup_fmap, Hv.
    cbn [mbind option_bind fmap option_fmap option_map fst snd].
    unfold const. cbn [mmul mbind option_bind].
    rewrite newton_step_at_zero by exact Hdv. reflexivity. }
  match goal with
  | |- context [ _specvol_SSO_0_CT25 cte ?pm0 ] =>
      lazymatch pm0 with
      | p_old => fail
      | _ => set (pm := pm0)
      end
  end.
  assert (Hpm : pm !! i = Some (Some 0)).
  { unfold pm. rewrite lookup_zip_with, Hp1, Hp0.
    cbn [mbind option_bind]. ma_simpl. do 2 f_equal. lra. }
  destruct (specvol_SSO_0_CT25_surface cte pm i HSSO Hpm)
    as (v' & Hv' & Hv0').
  assert (Hdv' : db2Pascal more * v' <> 0)
    by (apply Rmult_integral_contrapositive_currified; assumption).
  unfold map3. rewrite !lookup_zip_with, Hp0, Hf, list_lookup_fmap, Hv'.
  cbn [mbind option_bind fmap option_fmap option_map fst snd].
  unfold const. cbn [mmul mbind option_bind].
  rewrite newton_step_at_zero by exact Hdv'. reflexivity.
Qed.

(** Sea level at 45 degrees north. *)
Lemma p_from_z_sea_level_witness :
  p_from_z teos10 teos10_more [Some 0] [Some 45] !! 0%nat = Some (Some 0).
Proof.
  apply (p_from_z_sea_level teos10 teos10_more [Some 0] [Some 45] 0 45);
    try reflexivity.
  - unfold teos10. cbn [SSO]. lra.
  - unfold teos10_more. cbn [db2Pascal]. lra.
Defined.
